(** * TaskFlow front end: a shallow embedding of the browser-side logic

    The development follows the TypeScript sources of the to-do application:
    the shared HTTP client ([lib/api.ts]), the token storage and
    [AuthService], the [TaskForm], [TaskList] and [TaskItem] components, the
    dashboard page and the chat page.

    React state is modelled by explicit state passing: a handler is a function
    from the component state (and the replies of the environment: the answer of
    [window.confirm], the settlement of a promise) to the next state and the
    list of calls it issued.  An asynchronous handler stops at its [await] and
    other events are handled before it goes on: where that matters the
    handler is given in two halves, or with two states, the one of the render
    its closure belongs to and the one it meets when the awaited call has
    settled.  Strings are JavaScript strings, that is lists of UTF-16 code
    units; [length] is the [.length] of the source. *)

From Stdlib Require Import Ascii String DecimalString.
From stdpp Require Import gmap list strings.

(** ** JavaScript strings *)

Abbreviation code_unit := N (only parsing).
Abbreviation jsstring := (list N) (only parsing).

(** A string literal of the source (ASCII only). *)
Definition lit (s : string) : jsstring :=
  (λ a, N_of_ascii a) <$> list_ascii_of_string s.

(** [WhiteSpace] and [LineTerminator] of ECMAScript: the code points removed
    by [String.prototype.trim].  All of them lie in the basic plane, so the
    test is on single code units. *)
Definition is_whitespace (c : code_unit) : bool :=
  (bool_decide (c ∈ [9; 10; 11; 12; 13; 32; 160; 5760; 8232; 8233; 8239; 8287;
                     12288; 65279])
   || ((8192 <=? c) && (c <=? 8202)))%N.

(** [String.prototype.trimStart] *)
Fixpoint trimStart (s : jsstring) : jsstring :=
  match s with
  | [] => []
  | c :: r => if is_whitespace c then trimStart r else s
  end.

(** [String.prototype.trimEnd] *)
Definition trimEnd (s : jsstring) : jsstring :=
  reverse (trimStart (reverse s)).

(** [String.prototype.trim] *)
Definition trim (s : jsstring) : jsstring := trimEnd (trimStart s).

(** A string is truthy when it is not empty: [!s], [s || d], [s && e]. *)
Definition truthy_string (s : jsstring) : bool :=
  match s with [] => false | _ => true end.

(** Decimal rendering of a non-negative integer inside a template literal. *)
Definition decimal (n : N) : jsstring :=
  lit (NilZero.string_of_uint (N.to_uint n)).

(** ** Thrown values and settled promises *)

(** What a [catch] clause can receive: an instance of [Error] with its
    [message], or any other thrown value. *)
Inductive thrown : Type :=
  | Error (message : jsstring)
  | NonError.

(** [err instanceof Error ? err.message : fallback] *)
Definition message_or (err : thrown) (fallback : jsstring) : jsstring :=
  match err with
  | Error m => m
  | NonError => fallback
  end.

Inductive settled (A : Type) : Type :=
  | Resolved (a : A)
  | Rejected (e : thrown).
Arguments Resolved {A} a.
Arguments Rejected {A} e.

(** ** Task types ([types/task])

    The declarations of [Task], [TaskCreate] and [TaskUpdate] are imported by
    the components; the fields below are the ones the components read and
    write.  Identifiers are integers; the components compare them and hand
    them on. *)

Record Task : Type := mkTask {
  id : Z;
  title : jsstring;
  description : option jsstring;
  completed : bool;
  created_at : jsstring;
  updated_at : jsstring;
}.

(** The payload of a create or an update: [TaskCreate | TaskUpdate]. *)
Record TaskData : Type := mkTaskData {
  data_title : jsstring;
  data_description : option jsstring;
}.

Global Instance Task_eq_dec : EqDecision Task.
Proof. solve_decision. Defined.
Global Instance TaskData_eq_dec : EqDecision TaskData.
Proof. solve_decision. Defined.

(** ** The task form ([components/TaskForm.tsx]) *)

Module TaskForm.

(** The [useState] cells of the component. *)
Record state : Type := mkState {
  title : jsstring;
  description : jsstring;
  loading : bool;
  error : jsstring;
  mounted : bool;
}.

Definition setTitle (v : jsstring) (st : state) : state :=
  mkState v (description st) (loading st) (error st) (mounted st).
Definition setDescription (v : jsstring) (st : state) : state :=
  mkState (title st) v (loading st) (error st) (mounted st).
Definition setLoading (v : bool) (st : state) : state :=
  mkState (title st) (description st) v (error st) (mounted st).
Definition setError (v : jsstring) (st : state) : state :=
  mkState (title st) (description st) (loading st) v (mounted st).

(** [handleSubmit]: the form's submit handler.  [onSubmit] is the callback
    prop; the second component of the result lists the payloads it was
    called with, in order. *)
Definition handleSubmit (onSubmit : TaskData → settled unit) (st : state)
  : state * list TaskData :=
  let st0 := setError [] st in
  if negb (truthy_string (trim (title st))) then
    (setError (lit "Title is required") st0, [])
  else if bool_decide (500 < length (title st)) then
    (setError (lit "Title must be 500 characters or less") st0, [])
  else if bool_decide (5000 < length (description st)) then
    (setError (lit "Description must be 5000 characters or less") st0, [])
  else
    let st1 := setLoading true st0 in
    let data :=
      {| data_title := trim (title st);
         data_description :=
           if truthy_string (trim (description st))
           then Some (trim (description st)) else None |} in
    match onSubmit data with
    | Resolved _ =>
        (setLoading false (setDescription [] (setTitle [] st1)), [data])
    | Rejected err =>
        (setLoading false
           (setError (message_or err (lit "Failed to save task")) st1),
         [data])
    end.

(** The error box of the form: [{error && <div>{error}</div>}]. *)
Definition error_box (st : state) : option jsstring :=
  if truthy_string (error st) then Some (error st) else None.

(** The live counters under the two fields: the count that is always shown
    and the warning shown near the limit. *)
Definition title_counter (st : state) : nat * option Z :=
  let n := length (title st) in
  (n, if bool_decide (450 < n) then Some (500 - Z.of_nat n)%Z else None).

Definition description_counter (st : state) : nat * option Z :=
  let n := length (description st) in
  (n, if bool_decide (4500 < n) then Some (5000 - Z.of_nat n)%Z else None).

End TaskForm.

(** ** The task list ([components/TaskList.tsx]) *)

Module TaskList.

(** One group of the list: its heading, the number shown in the badge next
    to it, and one [TaskItem] per task. *)
Record group : Type := mkGroup {
  heading : jsstring;
  badge : nat;
  items : list Task;
}.

Inductive view : Type :=
  | LoadingIndicator
  | EmptyState
  | Groups (groups : list group).

(** [cond && <div>...</div>] inside a list of children. *)
Definition when {A} (cond : bool) (x : A) : list A :=
  if cond then [x] else [].

Definition TaskList (tasks : list Task) (loading : bool) : view :=
  if loading then LoadingIndicator
  else if bool_decide (length tasks = 0) then EmptyState
  else
    let incompleteTasks := filter (λ task, ¬ completed task) tasks in
    let completedTasks := filter (λ task, completed task) tasks in
    Groups
      (when (bool_decide (0 < length incompleteTasks))
         (mkGroup (lit "Active Tasks") (length incompleteTasks)
            incompleteTasks)
       ++
       when (bool_decide (0 < length completedTasks))
         (mkGroup (lit "Completed Tasks") (length completedTasks)
            completedTasks)).

(** The tasks on screen, top to bottom. *)
Definition rendered_tasks (v : view) : list Task :=
  match v with
  | Groups groups => groups ≫= items
  | _ => []
  end.

End TaskList.

(** ** A task item ([components/TaskItem.tsx]) *)

Module TaskItem.

Record state : Type := mkState {
  isDeleting : bool;
  isToggling : bool;
}.

(** What the item asks of its environment: the browser prompt and the
    callback props. *)
Inductive call : Type :=
  | Confirm (message : jsstring)
  | OnToggleComplete (taskId : Z)
  | OnDelete (taskId : Z).

Section Handlers.
(** [P] is the state of the parent that owns the callbacks: a callback is
    a transition of the parent together with the settlement of the
    promise it returns. *)
Context {P : Type}.
Variable confirm : jsstring → bool.
Variable onToggleComplete : Z → P → P * settled unit.
Variable onDelete : Z → P → P * settled unit.

(** A [try { await f } finally { ... }] without [catch]: the rejection is
    passed on to the caller after the [finally] block. *)
Definition handleToggle (task : Task) (st : state) (p : P)
  : state * P * list call * settled unit :=
  let st1 := mkState (isDeleting st) true in
  let '(p', r) := onToggleComplete (id task) p in
  (mkState (isDeleting st1) false, p', [OnToggleComplete (id task)], r).

Definition handleDelete (task : Task) (st : state) (p : P)
  : state * P * list call * settled unit :=
  let question := lit "Are you sure you want to delete this task?" in
  if negb (confirm question) then
    (st, p, [Confirm question], Resolved tt)
  else
    let st1 := mkState true (isToggling st) in
    let '(p', r) := onDelete (id task) p in
    (mkState false (isToggling st1), p',
     [Confirm question; OnDelete (id task)], r).
End Handlers.

End TaskItem.

(** ** Numbers

    The numbers of the model are the integers of the safe range,
    [-(2^53 - 1) .. 2^53 - 1]: each of them is a [number] of JavaScript
    exactly, and [Number::toString] writes it with all its digits, a minus
    sign in front when it is negative.  Fractions and larger magnitudes are
    outside the model. *)

Definition MAX_SAFE_INTEGER : Z := 9007199254740991.

Definition is_safe (z : Z) : bool :=
  ((- MAX_SAFE_INTEGER <=? z) && (z <=? MAX_SAFE_INTEGER))%Z.

Record number : Type := mkNumber {
  integer : Z;
  integer_safe : Is_true (is_safe integer);
}.

(** [Number::toString], radix 10: what a template literal and [ToString]
    make of a number. *)
Definition Number_toString (n : number) : jsstring :=
  if (integer n <? 0)%Z then lit "-" ++ decimal (Z.to_N (- integer n))
  else decimal (Z.to_N (integer n)).

(** ** Parsed JSON values

    What [response.json()] resolves to.  An object is the list of its own
    properties (for a key that occurs twice the first entry counts); its
    prototype is [Object.prototype], an array's is [Array.prototype]. *)

#[warnings="-register-all"] Inductive json : Type :=
  | JNull
  | JBool (b : bool)
  | JNum (n : number)
  | JStr (s : jsstring)
  | JArr (elements : list json)
  | JObj (fields : list (jsstring * json)).

(** [ToBoolean] *)
Definition truthy (v : json) : bool :=
  match v with
  | JNull => false
  | JBool b => b
  | JNum n => negb (integer n =? 0)%Z
  | JStr s => truthy_string s
  | JArr _ | JObj _ => true
  end.

(** The own property [key] of a parsed object ([None] is [undefined]). *)
Fixpoint field (key : jsstring) (fields : list (jsstring * json)) : option json :=
  match fields with
  | [] => None
  | (k, v) :: rest => if decide (k = key) then Some v else field key rest
  end.

Definition join (sep : jsstring) (parts : list jsstring) : jsstring :=
  match parts with
  | [] => []
  | p :: ps => p ++ ps ≫= (λ q, sep ++ q)
  end.

(** [ToString] on a parsed value, as [new Error(value)] and
    [localStorage.setItem(key, value)] apply it.  [None] is the [TypeError]
    of [OrdinaryToPrimitive]: in an object that has a key [toString] of its
    own, that key hides [Object.prototype.toString] behind a value that
    cannot be called, and [valueOf] gives no primitive either; every other
    object is "[object Object]".  An array is joined by
    [Array.prototype.join], which writes nothing for a [null] element and
    converts the others, so it fails when one of them does. *)
Fixpoint ToString (v : json) : option jsstring :=
  match v with
  | JNull => Some (lit "null")
  | JBool true => Some (lit "true")
  | JBool false => Some (lit "false")
  | JNum n => Some (Number_toString n)
  | JStr s => Some s
  | JArr elements =>
      join (lit ",")
        <$> mapM (λ e, match e with JNull => Some [] | _ => ToString e end)
              elements
  | JObj fields =>
      match field (lit "toString") fields with
      | Some _ => None
      | None => Some (lit "[object Object]")
      end
  end.

(** ** The shared HTTP client ([lib/api.ts]) *)

Module ApiClient.

(** [RequestOptions]: the [RequestInit] fields the client sets, and the
    optional token.  An absent [headers] is the empty map. *)
Record RequestOptions : Type := mkOptions {
  method : option jsstring;
  body : option jsstring;
  headers : gmap (list N) (list N);
  token : option jsstring;
}.

(** The two arguments of [fetch]. *)
Record FetchCall : Type := mkFetchCall {
  url : jsstring;
  init_method : option jsstring;
  init_body : option jsstring;
  init_headers : gmap (list N) (list N);
}.

(** A [Response]: its status and the settlement of [response.json()]. *)
Record Response : Type := mkResponse {
  status : N;
  parsed : settled json;
}.

(** [response.ok] *)
Definition ok (r : Response) : bool :=
  ((200 <=? status r) && (status r <=? 299))%N.

Section Client.
Variable baseUrl : jsstring.
(** The network: what [fetch] settles to for a given call. *)
Variable fetch : FetchCall → settled Response.
(** The messages of the two [TypeError]s the engine can raise here: when
    the property [key] of [null] is read, and when a value has no
    conversion to a string. *)
Variable null_read_message : jsstring → jsstring.
Variable conversion_message : jsstring.

(** Lines 18 to 36 of [request]: the call handed to [fetch]. *)
Definition fetch_call (endpoint : jsstring) (options : RequestOptions)
  : FetchCall :=
  let headers0 : gmap (list N) (list N) :=
    headers options ∪ {[ lit "Content-Type" := lit "application/json" ]} in
  let headers1 :=
    match token options with
    | Some t =>
        if truthy_string t
        then <[ lit "Authorization" := lit "Bearer " ++ t ]> headers0
        else headers0
    | None => headers0
    end in
  mkFetchCall (baseUrl ++ endpoint) (method options) (body options) headers1.

(** [data.detail || data.message || `HTTP error! status: ${status}`] *)
Definition error_message (data : json) (st : N) : settled json :=
  let generic := JStr (lit "HTTP error! status: " ++ decimal st) in
  let get key :=
    match data with
    | JNull => Rejected (Error (null_read_message key))
    | JObj fields => Resolved (field key fields)
    | _ => Resolved None
    end in
  let or (v : option json) (next : settled json) : settled json :=
    match v with
    | Some x => if truthy x then Resolved x else next
    | None => next
    end in
  match get (lit "detail") with
  | Rejected e => Rejected e
  | Resolved detail =>
      or detail
        match get (lit "message") with
        | Rejected e => Rejected e
        | Resolved message => or message (Resolved generic)
        end
  end.

(** [new Error(errorMessage)]: the constructor converts its argument to a
    string; when that throws, the [TypeError] is what leaves the [try]
    block. *)
Definition new_Error (errorMessage : json) : thrown :=
  match ToString errorMessage with
  | Some text => Error text
  | None => Error conversion_message
  end.

(** The [catch] clause of [request]. *)
Definition rethrow {A} (error : thrown) : settled A :=
  match error with
  | Error m => Rejected (Error m)
  | NonError => Rejected (Error (lit "An unexpected error occurred"))
  end.

Definition request (endpoint : jsstring) (options : RequestOptions)
  : settled json :=
  match fetch (fetch_call endpoint options) with
  | Rejected e => rethrow e
  | Resolved response =>
      if bool_decide (status response = 204%N) then Resolved (JObj [])
      else if negb (ok response) then
        let data :=
          match parsed response with
          | Resolved d => d
          | Rejected _ => JObj []
          end in
        match error_message data (status response) with
        | Resolved errorMessage => rethrow (new_Error errorMessage)
        | Rejected e => rethrow e
        end
      else
        match parsed response with
        | Resolved data => Resolved data
        | Rejected e => rethrow e
        end
  end.

(** The verbs; [body] is the text [JSON.stringify] produced. *)
Definition get (endpoint : jsstring) (token : option jsstring) :=
  request endpoint (mkOptions (Some (lit "GET")) None ∅ token).
Definition post (endpoint body : jsstring) (token : option jsstring) :=
  request endpoint (mkOptions (Some (lit "POST")) (Some body) ∅ token).
Definition put (endpoint body : jsstring) (token : option jsstring) :=
  request endpoint (mkOptions (Some (lit "PUT")) (Some body) ∅ token).
Definition patch (endpoint body : jsstring) (token : option jsstring) :=
  request endpoint (mkOptions (Some (lit "PATCH")) (Some body) ∅ token).
Definition delete (endpoint : jsstring) (token : option jsstring) :=
  request endpoint (mkOptions (Some (lit "DELETE")) None ∅ token).
End Client.

End ApiClient.

(** ** Token storage ([lib/auth.ts]) and [AuthService] ([services/auth.ts]) *)

Module Auth.

(** The browser as the storage utilities see it: [None] when there is no
    [window] (rendering on the server), otherwise the content of
    [localStorage]. *)
Abbreviation browser := (option (gmap (list N) (list N))) (only parsing).

Definition tokenStorage_getToken (w : browser) : option jsstring :=
  match w with
  | None => None
  | Some localStorage => localStorage !! lit "auth_token"
  end.

Definition tokenStorage_setToken (token : jsstring) (w : browser) : browser :=
  match w with
  | None => None
  | Some localStorage => Some (<[ lit "auth_token" := token ]> localStorage)
  end.

Definition tokenStorage_removeToken (w : browser) : browser :=
  match w with
  | None => None
  | Some localStorage => Some (base.delete (lit "auth_token") localStorage)
  end.

Definition userStorage_removeUser (w : browser) : browser :=
  match w with
  | None => None
  | Some localStorage => Some (base.delete (lit "auth_user") localStorage)
  end.

(** [AuthService.getToken] *)
Definition getToken (w : browser) : option jsstring := tokenStorage_getToken w.

(** [AuthService.isAuthenticated]: [!!this.getToken()] *)
Definition isAuthenticated (w : browser) : bool :=
  match getToken w with
  | Some token => truthy_string token
  | None => false
  end.

(** [AuthService.signout] *)
Definition signout (w : browser) : browser :=
  userStorage_removeUser (tokenStorage_removeToken w).

End Auth.

(** Modelled from the spec: the route guard [components/AuthGuard.tsx], which
    the dashboard imports and whose source is not part of the tree.  The spec
    describes it as a wrapper that checks for a stored token before rendering
    the protected content and redirects to the sign-in page otherwise; the
    check is [AuthService.isAuthenticated]. *)
Module AuthGuard.

Inductive outcome (V : Type) : Type :=
  | Content (children : V)
  | Redirect (path : jsstring).
Arguments Content {V} children.
Arguments Redirect {V} path.

Definition AuthGuard {V : Type} (w : Auth.browser) (children : V) : outcome V :=
  if Auth.isAuthenticated w then Content children
  else Redirect (lit "/signin").

End AuthGuard.

(** ** Chat types ([services/chat.ts]) *)

Inductive Role : Type := user | assistant.

Record Message : Type := mkMessage {
  role : Role;
  content : jsstring;
}.

Record ChatRequest : Type := mkChatRequest {
  conversation_id : option Z;
  message : jsstring;
}.

Record ChatResponse : Type := mkChatResponse {
  response_conversation_id : Z;
  response : jsstring;
  timestamp : jsstring;
}.

Global Instance Role_eq_dec : EqDecision Role.
Proof. solve_decision. Defined.
Global Instance Message_eq_dec : EqDecision Message.
Proof. solve_decision. Defined.

(** [!conversationId] on a [number | null]: [null] and [0] are falsy. *)
Definition falsy_id (conversationId : option Z) : bool :=
  match conversationId with
  | None => true
  | Some n => (n =? 0)%Z
  end.

(** [prev.slice(0, -1)]: everything but the last element. *)
Definition slice_0_minus1 {A} (prev : list A) : list A :=
  take (length prev - 1) prev.

(** ** The chat page ([app/chat/page.tsx]) *)

Module ChatPage.

Record state : Type := mkState {
  messages : list Message;
  input : jsstring;
  conversationId : option Z;
  loading : bool;
  error : option jsstring;
}.

Definition setMessages (f : list Message → list Message) (st : state) : state :=
  mkState (f (messages st)) (input st) (conversationId st) (loading st) (error st).
Definition setInput (v : jsstring) (st : state) : state :=
  mkState (messages st) v (conversationId st) (loading st) (error st).
Definition setConversationId (v : option Z) (st : state) : state :=
  mkState (messages st) (input st) v (loading st) (error st).
Definition setLoading (v : bool) (st : state) : state :=
  mkState (messages st) (input st) (conversationId st) v (error st).
Definition setError (v : option jsstring) (st : state) : state :=
  mkState (messages st) (input st) (conversationId st) (loading st) v.

Definition initial : state := mkState [] [] None false None.

(** [handleSendMessage] up to its [await]: the guard, the optimistic update
    and the request handed to [chatService.sendMessage].  [None] is the early
    [return]. *)
Definition send_begin (st : state) : option (state * ChatRequest) :=
  if negb (truthy_string (trim (input st))) || loading st then None
  else
    let userMessage := trim (input st) in
    let st1 := setError None (setInput [] st) in
    let optimisticMessage := mkMessage user userMessage in
    let st2 := setMessages (λ prev, prev ++ [optimisticMessage]) st1 in
    Some (setLoading true st2, mkChatRequest (conversationId st) userMessage).

(** [handleSendMessage] from its [await] on, acting on the state of that
    moment: every [setMessages] here is given a function of the current
    transcript.  [request] is the request of this invocation (its
    [conversation_id] is the [conversationId] the closure captured). *)
Definition send_settle (request : ChatRequest) (reply : settled ChatResponse)
    (st : state) : state :=
  match reply with
  | Resolved response0 =>
      let st1 :=
        if falsy_id (conversation_id request)
        then setConversationId (Some (response_conversation_id response0)) st
        else st in
      let assistantMessage := mkMessage assistant (response response0) in
      setLoading false (setMessages (λ prev, prev ++ [assistantMessage]) st1)
  | Rejected err =>
      let st1 :=
        setError (Some (message_or err (lit "Failed to send message"))) st in
      setLoading false (setMessages slice_0_minus1 st1)
  end.

(** The whole handler with nothing else handled while it waits:
    [sendMessage] is the chat service, and the second component lists the
    requests sent.  A chat session (below) puts other events between the two
    halves. *)
Definition handleSendMessage (sendMessage : ChatRequest → settled ChatResponse)
    (st : state) : state * list ChatRequest :=
  match send_begin st with
  | None => (st, [])
  | Some (st1, request) => (send_settle request (sendMessage request) st1, [request])
  end.

(** What the page shows. *)
Record view : Type := mkView {
  transcript : list Message;
  typing_indicator : bool;
  error_box : option jsstring;
  input_value : jsstring;
  input_disabled : bool;
  send_disabled : bool;
}.

(** The JSX the component returns.  It does not consult the token. *)
Definition render (st : state) : view :=
  {| transcript := messages st;
     typing_indicator :=
       negb (bool_decide (length (messages st) = 0)) && loading st;
     error_box :=
       match error st with
       | Some e => if truthy_string e then Some e else None
       | None => None
       end;
     input_value := input st;
     input_disabled := loading st;
     send_disabled := negb (truthy_string (trim (input st))) || loading st |}.

(** The first effect of the page, run by React after the render is committed:
    the paths pushed on the router. *)
Definition auth_effect (w : Auth.browser) : list jsstring :=
  if negb (Auth.isAuthenticated w) then [lit "/signin"] else [].

(** One render of the page: what is put on screen, then the effects. *)
Definition mount (w : Auth.browser) (st : state) : view * list jsstring :=
  (render st, auth_effect w).

End ChatPage.

(** ** The dashboard page ([app/dashboard/page.tsx])

    The task handlers are the same in both versions of the page; the chat
    panel and its cells belong to the later one. *)

Module Dashboard.

Record state : Type := mkState {
  tasks : list Task;
  loading : bool;
  showForm : bool;
  editingTask : option Task;
  error : jsstring;
  mounted : bool;
  chatOpen : bool;
  messages : list Message;
  chatInput : jsstring;
  conversationId : option Z;
  chatLoading : bool;
  chatError : option jsstring;
}.

Definition setTasks (v : list Task) (st : state) : state :=
  mkState v (loading st) (showForm st) (editingTask st) (error st) (mounted st)
    (chatOpen st) (messages st) (chatInput st) (conversationId st)
    (chatLoading st) (chatError st).
Definition setLoading (v : bool) (st : state) : state :=
  mkState (tasks st) v (showForm st) (editingTask st) (error st) (mounted st)
    (chatOpen st) (messages st) (chatInput st) (conversationId st)
    (chatLoading st) (chatError st).
Definition setShowForm (v : bool) (st : state) : state :=
  mkState (tasks st) (loading st) v (editingTask st) (error st) (mounted st)
    (chatOpen st) (messages st) (chatInput st) (conversationId st)
    (chatLoading st) (chatError st).
Definition setEditingTask (v : option Task) (st : state) : state :=
  mkState (tasks st) (loading st) (showForm st) v (error st) (mounted st)
    (chatOpen st) (messages st) (chatInput st) (conversationId st)
    (chatLoading st) (chatError st).
Definition setError (v : jsstring) (st : state) : state :=
  mkState (tasks st) (loading st) (showForm st) (editingTask st) v (mounted st)
    (chatOpen st) (messages st) (chatInput st) (conversationId st)
    (chatLoading st) (chatError st).
Definition setMessages (f : list Message → list Message) (st : state) : state :=
  mkState (tasks st) (loading st) (showForm st) (editingTask st) (error st)
    (mounted st) (chatOpen st) (f (messages st)) (chatInput st)
    (conversationId st) (chatLoading st) (chatError st).
Definition setChatInput (v : jsstring) (st : state) : state :=
  mkState (tasks st) (loading st) (showForm st) (editingTask st) (error st)
    (mounted st) (chatOpen st) (messages st) v (conversationId st)
    (chatLoading st) (chatError st).
Definition setConversationId (v : option Z) (st : state) : state :=
  mkState (tasks st) (loading st) (showForm st) (editingTask st) (error st)
    (mounted st) (chatOpen st) (messages st) (chatInput st) v
    (chatLoading st) (chatError st).
Definition setChatLoading (v : bool) (st : state) : state :=
  mkState (tasks st) (loading st) (showForm st) (editingTask st) (error st)
    (mounted st) (chatOpen st) (messages st) (chatInput st) (conversationId st)
    v (chatError st).
Definition setChatError (v : option jsstring) (st : state) : state :=
  mkState (tasks st) (loading st) (showForm st) (editingTask st) (error st)
    (mounted st) (chatOpen st) (messages st) (chatInput st) (conversationId st)
    (chatLoading st) v.

(** The calls a handler makes on [taskService] and [chatService]. *)
Inductive call : Type :=
  | GetTasks
  | CreateTask (data : TaskData)
  | UpdateTask (taskId : Z) (data : TaskData)
  | DeleteTask (taskId : Z)
  | ToggleComplete (taskId : Z)
  | SendMessage (request : ChatRequest).

(** The services: what each call settles to. *)
Record services : Type := mkServices {
  getTasks : settled (list Task);
  createTask : TaskData → settled Task;
  updateTask : Z → TaskData → settled Task;
  deleteTask : Z → settled unit;
  toggleComplete : Z → settled Task;
  sendMessage : ChatRequest → settled ChatResponse;
}.

(** The result of a handler: the next state, the service calls in order, and
    the settlement of the promise the handler returns. *)
Abbreviation result := (state * list call * settled unit)%type (only parsing).

Section Handlers.
Variable svc : services.

(** [loadTasks] up to its [await]. *)
Definition loadTasks_begin (st : state) : state :=
  setError [] (setLoading true st).

(** [loadTasks] from its [await] on: [reply] is what [getTasks] settled to
    and [now] the state of that moment. *)
Definition loadTasks_settle (reply : settled (list Task)) (now : state) : state :=
  match reply with
  | Resolved fetchedTasks => setLoading false (setTasks fetchedTasks now)
  | Rejected err =>
      setLoading false
        (setError (message_or err (lit "Failed to load tasks")) now)
  end.

(** [loadTasks] with nothing else handled while it waits. *)
Definition loadTasks (st : state) : result :=
  (loadTasks_settle (getTasks svc) (loadTasks_begin st), [GetTasks],
   Resolved tt).

(** The four task handlers are closures of one render of the page.  In their
    bodies [tasks] and [editingTask] are the values of that render,
    [rendered]: the page as it was on screen when the control was pressed.
    The [set...] calls come after the [await] and act on the state of that
    moment, [now]; [setTasks] is given a list, not a function of the current
    one. *)
Section Render.
Variable rendered : state.

Definition handleCreateTask (data : TaskData) (now : state) : result :=
  match createTask svc data with
  | Resolved newTask =>
      (setShowForm false (setTasks (newTask :: tasks rendered) now),
       [CreateTask data], Resolved tt)
  | Rejected err => (now, [CreateTask data], Rejected err)
  end.

Definition handleUpdateTask (data : TaskData) (now : state) : result :=
  match editingTask rendered with
  | None => (now, [], Resolved tt)
  | Some editing =>
      match updateTask svc (id editing) data with
      | Resolved updatedTask =>
          let tasks' :=
            (λ t, if decide (id t = id updatedTask) then updatedTask else t)
              <$> tasks rendered in
          (setShowForm false (setEditingTask None (setTasks tasks' now)),
           [UpdateTask (id editing) data], Resolved tt)
      | Rejected err => (now, [UpdateTask (id editing) data], Rejected err)
      end
  end.

Definition handleToggleComplete (taskId : Z) (now : state) : result :=
  match toggleComplete svc taskId with
  | Resolved updatedTask =>
      let tasks' :=
        (λ t, if decide (id t = id updatedTask) then updatedTask else t)
          <$> tasks rendered in
      (setTasks tasks' now, [ToggleComplete taskId], Resolved tt)
  | Rejected err =>
      (setError (message_or err (lit "Failed to update task")) now,
       [ToggleComplete taskId], Resolved tt)
  end.

Definition handleDeleteTask (taskId : Z) (now : state) : result :=
  match deleteTask svc taskId with
  | Resolved _ =>
      (setTasks (filter (λ t, id t ≠ taskId) (tasks rendered)) now,
       [DeleteTask taskId], Resolved tt)
  | Rejected err =>
      (setError (message_or err (lit "Failed to delete task")) now,
       [DeleteTask taskId], Resolved tt)
  end.

(** The [onSubmit] the page hands to the task form: a closure of the same
    render. *)
Definition onSubmit (data : TaskData) (now : state) : result :=
  match editingTask rendered with
  | Some _ => handleUpdateTask data now
  | None => handleCreateTask data now
  end.

End Render.

(** The chat panel's [handleSendMessage] up to its [await]: the guard, the
    optimistic update and the request handed to [chatService.sendMessage].
    [None] is the early [return]. *)
Definition send_begin (st : state) : option (state * ChatRequest) :=
  if negb (truthy_string (trim (chatInput st))) || chatLoading st then None
  else
    let userMessage := trim (chatInput st) in
    let st1 := setChatError None (setChatInput [] st) in
    let st2 := setMessages (λ prev, prev ++ [mkMessage user userMessage]) st1 in
    Some (setChatLoading true st2,
          mkChatRequest (conversationId st) userMessage).

(** The handler from its [await] on, acting on the state of that moment;
    [request] is the request of this invocation (its [conversation_id] is the
    [conversationId] the closure captured).  After a reply [loadTasks()] is
    called and not awaited: it has run up to its own [await], and has issued
    its call, when the [finally] block runs. *)
Definition send_settle (request : ChatRequest) (reply : settled ChatResponse)
    (now : state) : state * list call :=
  match reply with
  | Resolved response0 =>
      let st1 :=
        if falsy_id (conversation_id request)
        then setConversationId (Some (response_conversation_id response0)) now
        else now in
      let st2 :=
        setMessages (λ prev, prev ++ [mkMessage assistant (response response0)])
          st1 in
      (setChatLoading false (loadTasks_begin st2), [GetTasks])
  | Rejected err =>
      let st1 :=
        setChatError (Some (message_or err (lit "Failed to send message")))
          now in
      (setChatLoading false (setMessages slice_0_minus1 st1), [])
  end.

(** The whole handler with nothing else handled while it waits, the reload
    of the tasks included. *)
Definition handleSendMessage (st : state) : result :=
  match send_begin st with
  | None => (st, [], Resolved tt)
  | Some (st1, request) =>
      match sendMessage svc request with
      | Resolved response0 =>
          let '(st2, calls) := send_settle request (Resolved response0) st1 in
          (loadTasks_settle (getTasks svc) st2, SendMessage request :: calls,
           Resolved tt)
      | Rejected err =>
          let '(st2, calls) := send_settle request (Rejected err) st1 in
          (st2, SendMessage request :: calls, Resolved tt)
      end
  end.

End Handlers.

(** The chat cells of the dashboard, read as the state of a chat page. *)
Definition chat_cells (st : state) : ChatPage.state :=
  ChatPage.mkState (messages st) (chatInput st) (conversationId st)
    (chatLoading st) (chatError st).

(** The chat requests among the calls of a handler. *)
Definition chat_requests (calls : list call) : list ChatRequest :=
  omap (λ c, match c with SendMessage request => Some request | _ => None end)
    calls.

(** A handler as a callback prop: the page together with the log of its
    service calls is the parent state of the child component. *)
Definition as_callback {A} (handler : A → state → result)
    (a : A) (p : state * list call) : state * list call * settled unit :=
  let '(st', calls, r) := handler a (fst p) in
  ((st', snd p ++ calls), r).

End Dashboard.

(** ** A chat session: the page and the network between two events

    [handleSendMessage] suspends at its [await]; other events can be handled
    before the promise settles.  A session is the page together with the
    requests that are awaiting their reply and the log of every request sent
    so far. *)

Module ChatSession.

Record session : Type := mkSession {
  page : ChatPage.state;
  in_flight : list ChatRequest;
  sent : list ChatRequest;
}.

Inductive event : Type :=
  | Type_ (text : jsstring)                   (* [onChange] of the input *)
  | Submit                                    (* [onSubmit] of the form *)
  | Settle (reply : settled ChatResponse)     (* the oldest request settles *)
  | HistoryId (conversation : Z)              (* history: [setConversationId] *)
  | HistoryMessages (history : list Message). (* history: [setMessages] *)

Definition handle (s : session) (e : event) : session :=
  match e with
  | Type_ text => mkSession (ChatPage.setInput text (page s)) (in_flight s) (sent s)
  | Submit =>
      match ChatPage.send_begin (page s) with
      | None => s
      | Some (st, request) =>
          mkSession st (in_flight s ++ [request]) (sent s ++ [request])
      end
  | Settle reply =>
      match in_flight s with
      | [] => s
      | request :: rest =>
          mkSession (ChatPage.send_settle request reply (page s)) rest (sent s)
      end
  | HistoryId conversation =>
      mkSession (ChatPage.setConversationId (Some conversation) (page s))
        (in_flight s) (sent s)
  | HistoryMessages history =>
      mkSession (ChatPage.setMessages (λ _, history) (page s))
        (in_flight s) (sent s)
  end.

Definition start : session := mkSession ChatPage.initial [] [].

Definition run (events : list event) : session := foldl handle start events.

End ChatSession.

(** ** Words of the specification *)

(** A string that is empty or consists of white space only. *)
Definition blank (s : jsstring) : Prop := Forall (λ c, is_whitespace c = true) s.

Global Instance blank_dec s : Decision (blank s).
Proof. unfold blank. apply _. Defined.

(** "The thrown error carries the server's message taken from the response
    body": the message is the text of some field of the JSON object the
    server sent. *)
Definition carries_server_message (r : ApiClient.Response) (result : settled json)
  : Prop :=
  ∃ fields key v text,
    ApiClient.parsed r = Resolved (JObj fields) ∧
    field key fields = Some v ∧
    ToString v = Some text ∧
    result = Rejected (Error text).

(** The fields a response body offers to the client: those of a JSON object,
    and none when the body is not JSON or is a JSON string, number, boolean
    or array.  The body [null] offers nothing to read from: [None]. *)
Definition body_fields (r : ApiClient.Response)
  : option (list (jsstring * json)) :=
  match ApiClient.parsed r with
  | Resolved JNull => None
  | Resolved (JObj fields) => Some fields
  | Resolved _ | Rejected _ => Some []
  end.

(** What is to hold of a chat session between any two events: a request
    awaits its reply only while the page is loading, there is at most one
    such request, and no request sent so far has a blank message. *)
Definition session_ok (s : ChatSession.session) : Prop :=
  length (ChatSession.in_flight s)
    ≤ (if ChatPage.loading (ChatSession.page s) then 1 else 0) ∧
  Forall (λ request, ¬ blank (message request)) (ChatSession.sent s).

(** The entries of [before] whose id is that of [u] are replaced by [u]; every
    other entry stays where it is, as it is. *)
Definition replaced_by_id (u : Task) (before after : list Task) : Prop :=
  length after = length before ∧
  ∀ i t, before !! i = Some t →
    (id t = id u → after !! i = Some u) ∧ (id t ≠ id u → after !! i = Some t).

(** The entries of [before] whose id is [taskId] are removed, and only
    those: what is left keeps its order, has no entry with that id, and
    together with the removed entries makes up [before]. *)
Definition removed_by_id (taskId : Z) (before after : list Task) : Prop :=
  after `sublist_of` before ∧
  (∀ t, t ∈ after → id t ≠ taskId) ∧
  before ≡ₚ after ++ filter (λ t, id t = taskId) before.

(** The payload the task form is expected to send: the trimmed title, and
    the trimmed description or [null] when nothing is left of it. *)
Definition payload (st : TaskForm.state) : TaskData :=
  {| data_title := trim (TaskForm.title st);
     data_description :=
       match trim (TaskForm.description st) with
       | [] => None
       | d => Some d
       end |}.

(** A form the validation has to turn down. *)
Definition invalid (st : TaskForm.state) : Prop :=
  blank (TaskForm.title st) ∨ 500 < length (TaskForm.title st)
  ∨ 5000 < length (TaskForm.description st).

(** ** Sample inputs *)

Module SampleForm.

Definition form (title description : jsstring) : TaskForm.state :=
  TaskForm.mkState title description false [] true.

(** A title of exactly 500 letters. *)
Definition title_500 : jsstring := replicate 500 97%N.

Definition always_saved : TaskData → settled unit := λ _, Resolved tt.

End SampleForm.

Module SampleTasks.

Definition task (n : Z) (name : string) (finished : bool) : Task :=
  mkTask n (lit name) None finished (lit "2026-02-07") (lit "2026-02-07").

Definition milk : Task := task 1 "milk" false.
Definition rent : Task := task 2 "rent" true.
Definition call : Task := task 3 "call" false.
(** The first task again, as the server returns it after an edit. *)
Definition oat : Task := task 1 "oat milk" false.

End SampleTasks.

Module SampleChat.

(** The page with "hello" typed into the input, after one earlier exchange. *)
Definition typed : ChatPage.state :=
  ChatPage.mkState
    [mkMessage user (lit "hi"); mkMessage assistant (lit "Hello!")]
    (lit "hello") (Some 4%Z) false None.

(** A fresh page with "hello" typed into the input. *)
Definition fresh : ChatPage.state :=
  ChatPage.mkState [] (lit "hello") None false None.

Definition unreachable : ChatRequest → settled ChatResponse :=
  λ _, Rejected (Error (lit "Failed to fetch")).

(** The request [typed] sends, and [typed] once it has sent it. *)
Definition hello : ChatRequest := mkChatRequest (Some 4%Z) (lit "hello").

Definition pending : ChatPage.state :=
  ChatPage.mkState
    [mkMessage user (lit "hi"); mkMessage assistant (lit "Hello!");
     mkMessage user (lit "hello")]
    [] (Some 4%Z) true None.

(** The request [fresh] sends, and [fresh] once it has sent it. *)
Definition first_hello : ChatRequest := mkChatRequest None (lit "hello").


Definition failed : settled ChatResponse :=
  Rejected (Error (lit "Failed to fetch")).

(** A toy serialiser of requests: the message between quotes. *)
Definition request_text : ChatRequest → jsstring :=
  λ request, lit "'" ++ message request ++ lit "'".

End SampleChat.

Module SampleDashboard.

Definition page (tasks : list Task) : Dashboard.state :=
  Dashboard.mkState tasks false false None [] true false [] [] None false None.

(** A backend on which every task call succeeds, [created] being the task it
    returns for a create, an update or a toggle, and whose chat service cannot
    be reached. *)
Definition backend (created : Task) : Dashboard.services :=
  Dashboard.mkServices (Resolved []) (λ _, Resolved created)
    (λ _ _, Resolved created) (λ _, Resolved tt) (λ _, Resolved created)
    (λ _, Rejected (Error (lit "Failed to fetch"))).

(** The page while the task [t] is being edited. *)
Definition editing (tasks : list Task) (t : Task) : Dashboard.state :=
  Dashboard.mkState tasks false true (Some t) [] true false [] [] None false None.

(** The page with the chat panel open and "hello" typed into it. *)
Definition chatting (tasks : list Task) : Dashboard.state :=
  Dashboard.mkState tasks false false None [] true true [] (lit "hello") None
    false None.

(** The same page once it has sent that message. *)
Definition chat_pending (tasks : list Task) : Dashboard.state :=
  Dashboard.mkState tasks false false None [] true true
    [mkMessage user (lit "hello")] [] None true None.

Definition declines : jsstring → bool := λ _, false.
Definition accepts : jsstring → bool := λ _, true.

End SampleDashboard.

Module SampleHttp.

Definition base : jsstring := lit "http://localhost:8002".

Definition no_null_read : jsstring → jsstring :=
  λ key, lit "Cannot read properties of null".

Definition no_conversion : jsstring :=
  lit "Cannot convert object to primitive value".

Definition with_token (t : string) : ApiClient.RequestOptions :=
  ApiClient.mkOptions (Some (lit "GET")) None ∅ (Some (lit t)).

(** A server that answers every call with the same response. *)
Definition server (status : N) (parsed : settled json)
  : ApiClient.FetchCall → settled ApiClient.Response :=
  λ _, Resolved (ApiClient.mkResponse status parsed).

(** The body of a store failure: it has an [error] field, and neither a
    [detail] nor a [message]. *)
Definition store_failure : json :=
  JObj [(lit "error", JStr (lit "Database error"))].

Definition not_found : json :=
  JObj [(lit "detail", JStr (lit "Task not found"))].

(** A body whose [detail] is an object with a [toString] key of its own. *)
Definition odd_detail : json :=
  JObj [(lit "detail", JObj [(lit "toString", JNum (mkNumber 1 I))])].

End SampleHttp.

(** * The service layer and the remaining handlers *)

(** ** Reading properties, storing values, serialising objects *)

(** [value.key] on a parsed value: reading a property of [null] throws a
    [TypeError] (whose text, engine defined, is [null_read_message key]); a
    key that is absent, or a value that is not an object, gives
    [undefined]. *)
Definition property (null_read_message : jsstring → jsstring)
    (key : jsstring) (value : json) : settled (option json) :=
  match value with
  | JNull => Rejected (Error (null_read_message key))
  | JObj fields => Resolved (field key fields)
  | _ => Resolved None
  end.

(** The text [localStorage.setItem] stores for a value: its [ToString],
    "undefined" for [undefined]; [None] when the conversion throws. *)
Definition storage_text (value : option json) : option jsstring :=
  match value with
  | Some v => ToString v
  | None => Some (lit "undefined")
  end.

(** The objects the pages hand to the services, as [JSON.stringify] receives
    them. *)
Definition TaskData_json (data : TaskData) : json :=
  JObj [(lit "title", JStr (data_title data));
        (lit "description",
         match data_description data with
         | Some d => JStr d
         | None => JNull
         end)].

(** [SignupRequest] and [SigninRequest] ([types/user.ts]) *)
Record SignupRequest : Type := mkSignupRequest {
  signup_name : jsstring;
  signup_email : jsstring;
  signup_password : jsstring;
}.

Record SigninRequest : Type := mkSigninRequest {
  signin_email : jsstring;
  signin_password : jsstring;
}.

Definition SignupRequest_json (data : SignupRequest) : json :=
  JObj [(lit "name", JStr (signup_name data));
        (lit "email", JStr (signup_email data));
        (lit "password", JStr (signup_password data))].

Definition SigninRequest_json (data : SigninRequest) : json :=
  JObj [(lit "email", JStr (signin_email data));
        (lit "password", JStr (signin_password data))].

(** The [catch] clause every service method ends with:
    [if (error instanceof Error) throw new Error(error.message);
     throw new Error(fallback)]. *)
Definition service_catch {A} (fallback : jsstring) (r : settled A) : settled A :=
  match r with
  | Resolved a => Resolved a
  | Rejected (Error m) => Rejected (Error m)
  | Rejected NonError => Rejected (Error fallback)
  end.

(** [await] inside a [try]: the rest runs on the resolved value only. *)
Definition and_then {A B} (r : settled A) (k : A → settled B) : settled B :=
  match r with
  | Resolved a => k a
  | Rejected e => Rejected e
  end.

(** ** User storage ([lib/auth.ts]) and the rest of [AuthService] *)

Module AuthService.

Section Service.
Variable baseUrl : jsstring.
Variable fetch : ApiClient.FetchCall → settled ApiClient.Response.
Variable null_read_message : jsstring → jsstring.
Variable conversion_message : jsstring.
(** [JSON.stringify] and [JSON.parse] of the runtime. *)
Variable JSON_stringify : json → jsstring.
Variable JSON_parse : jsstring → settled json.

(** [userStorage.getUser]: [null] is [JNull]. *)
Definition userStorage_getUser (w : Auth.browser) : settled json :=
  match w with
  | None => Resolved JNull
  | Some localStorage =>
      match localStorage !! lit "auth_user" with
      | Some userStr =>
          if truthy_string userStr then JSON_parse userStr else Resolved JNull
      | None => Resolved JNull
      end
  end.

(** [userStorage.setUser]; [JSON.stringify(undefined)] is [undefined]. *)
Definition userStorage_setUser (user0 : option json) (w : Auth.browser)
  : Auth.browser :=
  match w with
  | None => None
  | Some localStorage =>
      Some (<[ lit "auth_user" :=
               match user0 with
               | Some u => JSON_stringify u
               | None => lit "undefined"
               end ]> localStorage)
  end.

(** [tokenStorage.setToken(value)] on a value of any type.  On the server
    it returns at once; in the browser [setItem] converts the value to a
    string first, and when that throws nothing is stored. *)
Definition setToken_of (value : option json) (w : Auth.browser)
  : settled Auth.browser :=
  match w with
  | None => Resolved None
  | Some _ =>
      match storage_text value with
      | Some text => Resolved (Auth.tokenStorage_setToken text w)
      | None => Rejected (Error conversion_message)
      end
  end.

(** The body shared by [signup] and [signin]: post, store the token and the
    user, return both.  The result pairs [token] and [user] of the
    [AuthResponse]. *)
Definition authenticate (endpoint : jsstring) (data : json)
    (fallback : jsstring) (w : Auth.browser)
  : Auth.browser * settled (option json * option json) :=
  match ApiClient.post baseUrl fetch null_read_message conversion_message
    endpoint (JSON_stringify data) None with
  | Rejected e => (w, service_catch fallback (Rejected e))
  | Resolved response0 =>
      match property null_read_message (lit "access_token") response0 with
      | Rejected e => (w, service_catch fallback (Rejected e))
      | Resolved access_token =>
          match setToken_of access_token w with
          | Rejected e => (w, service_catch fallback (Rejected e))
          | Resolved w1 =>
              match property null_read_message (lit "user") response0 with
              | Rejected e => (w1, service_catch fallback (Rejected e))
              | Resolved user0 =>
                  (userStorage_setUser user0 w1,
                   Resolved (access_token, user0))
              end
          end
      end
  end.

Definition signup (data : SignupRequest) (w : Auth.browser) :=
  authenticate (lit "/api/auth/signup") (SignupRequest_json data)
    (lit "Signup failed") w.

Definition signin (data : SigninRequest) (w : Auth.browser) :=
  authenticate (lit "/api/auth/signin") (SigninRequest_json data)
    (lit "Signin failed") w.

Definition getCurrentUser (w : Auth.browser) : settled json :=
  userStorage_getUser w.

End Service.

End AuthService.

(** ** The task service ([services/tasks.ts]) *)

Module TaskService.

Section Service.
Variable baseUrl : jsstring.
Variable fetch : ApiClient.FetchCall → settled ApiClient.Response.
Variable null_read_message : jsstring → jsstring.
Variable conversion_message : jsstring.
Variable JSON_stringify : json → jsstring.
Variable w : Auth.browser.

(** The private [getToken]. *)
Definition getToken : settled jsstring :=
  match Auth.getToken w with
  | Some token =>
      if truthy_string token then Resolved token
      else Rejected (Error (lit "Not authenticated"))
  | None => Rejected (Error (lit "Not authenticated"))
  end.

(** [`/api/tasks/${taskId}`] *)
Definition task_path (taskId : number) : jsstring :=
  lit "/api/tasks/" ++ Number_toString taskId.

Definition getTasks : settled json :=
  service_catch (lit "Failed to fetch tasks")
    (and_then getToken (λ token,
       ApiClient.get baseUrl fetch null_read_message conversion_message
         (lit "/api/tasks") (Some token))).

Definition getTask (taskId : number) : settled json :=
  service_catch (lit "Failed to fetch task")
    (and_then getToken (λ token,
       ApiClient.get baseUrl fetch null_read_message conversion_message
         (task_path taskId) (Some token))).

Definition createTask (data : TaskData) : settled json :=
  service_catch (lit "Failed to create task")
    (and_then getToken (λ token,
       ApiClient.post baseUrl fetch null_read_message conversion_message
         (lit "/api/tasks") (JSON_stringify (TaskData_json data))
         (Some token))).

Definition updateTask (taskId : number) (data : TaskData) : settled json :=
  service_catch (lit "Failed to update task")
    (and_then getToken (λ token,
       ApiClient.put baseUrl fetch null_read_message conversion_message
         (task_path taskId) (JSON_stringify (TaskData_json data))
         (Some token))).

Definition deleteTask (taskId : number) : settled unit :=
  service_catch (lit "Failed to delete task")
    (and_then getToken (λ token,
       and_then
         (ApiClient.delete baseUrl fetch null_read_message
            conversion_message (task_path taskId) (Some token))
         (λ _, Resolved tt))).

Definition toggleComplete (taskId : number) : settled json :=
  service_catch (lit "Failed to toggle task completion")
    (and_then getToken (λ token,
       ApiClient.patch baseUrl fetch null_read_message conversion_message
         (task_path taskId ++ lit "/toggle") (JSON_stringify (JObj []))
         (Some token))).

End Service.

End TaskService.

(** ** The chat service ([services/chat.ts])

    The service reads [localStorage] itself; it runs in the browser. *)

Module ChatService.

Section Service.
Variable baseUrl : jsstring.
Variable fetch : ApiClient.FetchCall → settled ApiClient.Response.
Variable null_read_message : jsstring → jsstring.
Variable conversion_message : jsstring.
(** [JSON.stringify] on a request object. *)
Variable stringify_request : ChatRequest → jsstring.
Variable localStorage : gmap (list N) (list N).

(** [localStorage.getItem('auth_token')] followed by
    [if (!token) throw new Error('Not authenticated')]. *)
Definition token : settled jsstring :=
  match localStorage !! lit "auth_token" with
  | Some t =>
      if truthy_string t then Resolved t
      else Rejected (Error (lit "Not authenticated"))
  | None => Rejected (Error (lit "Not authenticated"))
  end.

Definition sendMessage (request : ChatRequest) : settled json :=
  service_catch (lit "Failed to send message")
    (and_then token (λ t,
       ApiClient.post baseUrl fetch null_read_message conversion_message
         (lit "/api/chat") (stringify_request request) (Some t))).

Definition getConversations : settled json :=
  service_catch (lit "Failed to fetch conversations")
    (and_then token (λ t,
       ApiClient.get baseUrl fetch null_read_message conversion_message
         (lit "/api/chat/conversations") (Some t))).

Definition getConversationMessages (conversationId : number) : settled json :=
  service_catch (lit "Failed to fetch messages")
    (and_then token (λ t,
       ApiClient.get baseUrl fetch null_read_message conversion_message
         (lit "/api/chat/conversations/" ++ Number_toString conversationId
          ++ lit "/messages")
         (Some t))).

End Service.

End ChatService.

(** ** The chat page, continued: history, navigation *)

Module ChatHistory.

(** [Conversation] of [services/chat.ts]. *)
Record Conversation : Type := mkConversation {
  conversation : Z;
  conversation_created_at : jsstring;
  conversation_updated_at : jsstring;
}.

(** A message as the server lists it: a [Message] with its optional fields. *)
Record StoredMessage : Type := mkStoredMessage {
  stored_id : option Z;
  stored_role : Role;
  stored_content : jsstring;
  stored_created_at : option jsstring;
}.

Inductive call : Type :=
  | GetConversations
  | GetConversationMessages (conversationId : Z).

Section History.
Variable getConversations : settled (list Conversation).
Variable getConversationMessages : Z → settled (list StoredMessage).

(** [loadConversationHistory]: failures are logged to the console and
    otherwise dropped. *)
Definition loadConversationHistory (st : ChatPage.state)
  : ChatPage.state * list call :=
  match getConversations with
  | Rejected _ => (st, [GetConversations])
  | Resolved conversations =>
      match conversations with
      | [] => (st, [GetConversations])
      | latestConversation :: _ =>
          let latest := conversation latestConversation in
          let st1 := ChatPage.setConversationId (Some latest) st in
          match getConversationMessages latest with
          | Rejected _ =>
              (st1, [GetConversations; GetConversationMessages latest])
          | Resolved conversationMessages =>
              let formattedMessages :=
                (λ msg, mkMessage (stored_role msg) (stored_content msg))
                  <$> conversationMessages in
              (ChatPage.setMessages (λ _, formattedMessages) st1,
               [GetConversations; GetConversationMessages latest])
          end
      end
  end.

(** The second effect of the page. *)
Definition history_effect (w : Auth.browser) (st : ChatPage.state)
  : ChatPage.state * list call :=
  if Auth.isAuthenticated w then loadConversationHistory st else (st, []).

End History.

(** [handleSignOut]: the browser afterwards and the path pushed on the
    router. *)
Definition handleSignOut (w : Auth.browser) : Auth.browser * jsstring :=
  (Auth.signout w, lit "/signin").

End ChatHistory.

(** ** The dashboard, continued: the form, the summary, signing out *)

Module DashboardPage.

Definition handleEditTask (task : Task) (st : Dashboard.state) : Dashboard.state :=
  Dashboard.setShowForm true (Dashboard.setEditingTask (Some task) st).

Definition handleCancelForm (st : Dashboard.state) : Dashboard.state :=
  Dashboard.setEditingTask None (Dashboard.setShowForm false st).

(** The "New Task" button. *)
Definition newTask_click (st : Dashboard.state) : Dashboard.state :=
  Dashboard.setShowForm true (Dashboard.setEditingTask None st).

(** [handleSignout] of the dashboard. *)
Definition handleSignout (w : Auth.browser) : Auth.browser * jsstring :=
  (Auth.signout w, lit "/").

Definition completedCount (st : Dashboard.state) : nat :=
  length (filter (λ t : Task, completed t) (Dashboard.tasks st)).

Definition totalCount (st : Dashboard.state) : nat :=
  length (Dashboard.tasks st).

(** The line under "My Tasks", with the wording of the later version of the
    page. *)
Definition summary (st : Dashboard.state) : jsstring :=
  if bool_decide (totalCount st = 0) then lit "No tasks yet!"
  else decimal (N.of_nat (completedCount st)) ++ lit " of "
       ++ decimal (N.of_nat (totalCount st)) ++ lit " tasks completed".

(** The task list of the page. *)
Definition task_list (st : Dashboard.state) : TaskList.view :=
  TaskList.TaskList (Dashboard.tasks st) (Dashboard.loading st).

(** The task form inside the page.  The form submits through the
    [onSubmit] of the render it was drawn in, [rendered]; the page, in the
    state [now] when that call settles, moves on as the call says. *)
Definition submit_form (svc : Dashboard.services) (form : TaskForm.state)
    (rendered now : Dashboard.state)
  : TaskForm.state * Dashboard.state * list Dashboard.call :=
  let '(form', submitted) :=
    TaskForm.handleSubmit
      (λ data, (Dashboard.onSubmit svc rendered data now).2) form in
  match submitted with
  | data :: _ =>
      let '(page', calls, _) := Dashboard.onSubmit svc rendered data now in
      (form', page', calls)
  | [] => (form', now, [])
  end.

End DashboardPage.

(** ** The task form, continued: the effect that fills it *)

Module TaskFormEffect.

(** The effect on [task]: mark the form mounted and, when a task is being
    edited, copy its title and its description ([''] for none). *)
Definition populate (task : option Task) (st : TaskForm.state) : TaskForm.state :=
  let st1 :=
    TaskForm.mkState (TaskForm.title st) (TaskForm.description st)
      (TaskForm.loading st) (TaskForm.error st) true in
  match task with
  | Some t =>
      TaskForm.setDescription
        match description t with
        | Some d => if truthy_string d then d else []
        | None => []
        end
        (TaskForm.setTitle (title t) st1)
  | None => st1
  end.

End TaskFormEffect.

(** ** The sign-in page ([app/signin/page.tsx]) *)

Module SigninPage.

Record state : Type := mkState {
  email : jsstring;
  password : jsstring;
  error : jsstring;
  loading : bool;
  mounted : bool;
}.

Definition setError (v : jsstring) (st : state) : state :=
  mkState (email st) (password st) v (loading st) (mounted st).
Definition setLoading (v : bool) (st : state) : state :=
  mkState (email st) (password st) (error st) v (mounted st).

Section Handler.
(** [authService.signin]: what it does to the browser and how it settles. *)
Context {A : Type}.
Variable signin : SigninRequest → Auth.browser → Auth.browser * settled A.

(** [handleSubmit]: the next state, the browser afterwards, the paths pushed
    on the router and the requests handed to [signin]. *)
Definition handleSubmit (st : state) (w : Auth.browser)
  : state * Auth.browser * list jsstring * list SigninRequest :=
  let st0 := setError [] st in
  if negb (truthy_string (email st)) || negb (truthy_string (password st)) then
    (setError (lit "Email and password are required") st0, w, [], [])
  else
    let st1 := setLoading true st0 in
    let request := mkSigninRequest (email st) (password st) in
    match signin request w with
    | (w', Resolved _) => (setLoading false st1, w', [lit "/dashboard"], [request])
    | (w', Rejected err) =>
        (setLoading false
           (setError (message_or err (lit "Invalid credentials")) st1),
         w', [], [request])
    end.
End Handler.

End SigninPage.

(** ** The request-level gate ([middleware.ts]) *)

Module Middleware.

Inductive NextResponse : Type :=
  | next
  | redirect (path : jsstring).

Definition protectedRoutes : list jsstring := [lit "/dashboard"].
Definition publicRoutes : list jsstring := [lit "/signin"; lit "/signup"].

(** [pathname.startsWith(route)] *)
Definition startsWith (pathname route : jsstring) : bool :=
  bool_decide (route `prefix_of` pathname).

Definition middleware (pathname : jsstring) : NextResponse :=
  let isProtectedRoute := existsb (startsWith pathname) protectedRoutes in
  let isPublicRoute := existsb (startsWith pathname) publicRoutes in
  if isProtectedRoute then next
  else if isPublicRoute then next
  else next.

End Middleware.

(** The call [signup] and [signin] hand to [fetch]: a POST of the serialised
    data, with no token. *)
Definition auth_call (baseUrl : jsstring) (JSON_stringify : json → jsstring)
    (endpoint : jsstring) (data : json) : ApiClient.FetchCall :=
  ApiClient.fetch_call baseUrl endpoint
    (ApiClient.mkOptions (Some (lit "POST")) (Some (JSON_stringify data)) ∅ None).

(** ** More sample inputs *)

Module SampleMore.

(** A task whose description is set. *)
Definition dentist : Task :=
  mkTask 9 (lit "dentist") (Some (lit "bring the x-ray")) false
    (lit "2026-02-07") (lit "2026-02-08").

Definition seven : number := mkNumber 7 I.

(** A backend whose every task call fails with the same message. *)
Definition down : Dashboard.services :=
  Dashboard.mkServices (Rejected (Error (lit "Failed to fetch")))
    (λ _, Rejected (Error (lit "Failed to fetch")))
    (λ _ _, Rejected (Error (lit "Failed to fetch")))
    (λ _, Rejected (Error (lit "Failed to fetch")))
    (λ _, Rejected (Error (lit "Failed to fetch")))
    (λ _, Rejected (Error (lit "Failed to fetch"))).

End SampleMore.

Module SampleAuth.

(** A browser with a token and a user stored, and one unrelated key. *)
Definition signed_in : gmap (list N) (list N) :=
  <[ lit "auth_token" := lit "abc" ]>
    (<[ lit "auth_user" := lit "{}" ]> {[ lit "theme" := lit "dark" ]}).

(** Toy serialisers: every object is written "{}" and every text reads as
    [null]. *)
Definition stringify : json → jsstring := λ _, lit "{}".
Definition parse : jsstring → settled json := λ _, Resolved JNull.

Definition credentials : SigninRequest :=
  mkSigninRequest (lit "ada@example.com") (lit "secret-1").

(** The body of a successful sign-in. *)
Definition welcome : json :=
  JObj [(lit "access_token", JStr (lit "abc"));
        (lit "token_type", JStr (lit "bearer"));
        (lit "user", JObj [(lit "email", JStr (lit "ada@example.com"))])].

Definition refused : json :=
  JObj [(lit "detail", JStr (lit "Invalid email or password"))].

End SampleAuth.

Module SampleSignin.

Definition filled : SigninPage.state :=
  SigninPage.mkState (lit "ada@example.com") (lit "secret-1") [] false true.

Definition no_password : SigninPage.state :=
  SigninPage.mkState (lit "ada@example.com") [] [] false true.

Definition accepting : SigninRequest → Auth.browser → Auth.browser * settled unit :=
  λ _ w, (Auth.tokenStorage_setToken (lit "abc") w, Resolved tt).

Definition refusing : SigninRequest → Auth.browser → Auth.browser * settled unit :=
  λ _ w, (w, Rejected (Error (lit "Invalid email or password"))).

End SampleSignin.

Module SampleHistory.

Definition latest : list ChatHistory.Conversation :=
  [ChatHistory.mkConversation 4 (lit "2026-02-08") (lit "2026-02-09");
   ChatHistory.mkConversation 2 (lit "2026-02-07") (lit "2026-02-07")].

Definition stored : Z → settled (list ChatHistory.StoredMessage) :=
  λ _, Resolved
         [ChatHistory.mkStoredMessage (Some 11%Z) user (lit "hi")
            (Some (lit "2026-02-08"));
          ChatHistory.mkStoredMessage (Some 12%Z) assistant (lit "Hello!")
            (Some (lit "2026-02-08"))].

Definition answer : ChatResponse :=
  mkChatResponse 7 (lit "Done.") (lit "2026-02-09").

Definition answering : ChatRequest → settled ChatResponse :=
  λ _, Resolved answer.

End SampleHistory.

(** ** More words for the statements *)

(** What a chat session keeps between any two events: the page is loading
    exactly while one request awaits its reply. *)
Definition loading_tracks_request (s : ChatSession.session) : Prop :=
  length (ChatSession.in_flight s)
  = if ChatPage.loading (ChatSession.page s) then 1 else 0.
(** * Properties *)

(** ** Trimming *)

Section Trim.
Implicit Types s : list N.

Lemma truthy_string_nil s : truthy_string s = false ↔ s = [].
Proof. destruct s; simpl; split; congruence. Qed.

Lemma truthy_string_true s : truthy_string s = true ↔ s ≠ [].
Proof. destruct s; simpl; split; congruence. Qed.

Lemma trimStart_nil s : trimStart s = [] ↔ blank s.
Proof.
  unfold blank. induction s as [|c r IH]; simpl.
  - split; [constructor | reflexivity].
  - destruct (is_whitespace c) eqn:Hc.
    + rewrite IH. split; [by constructor | by inversion 1].
    + split; [discriminate | inversion 1; congruence].
Qed.

(** What [trimStart] returns does not start with white space. *)
Lemma trimStart_head s c r : trimStart s = c :: r → is_whitespace c = false.
Proof.
  induction s as [|d t IH]; simpl; [discriminate |].
  destruct (is_whitespace d) eqn:Hd; [exact IH |].
  intros [= -> ->]. exact Hd.
Qed.

Lemma blank_trimStart s : blank (trimStart s) ↔ blank s.
Proof.
  unfold blank. induction s as [|c r IH]; simpl; [done |].
  destruct (is_whitespace c) eqn:Hc; [| done].
  rewrite IH. split; [by constructor | by inversion 1].
Qed.

Lemma blank_reverse s : blank (reverse s) ↔ blank s.
Proof. unfold blank. by rewrite Forall_reverse. Qed.

Lemma reverse_nil_iff s : reverse s = [] ↔ s = [].
Proof.
  split; [| intros ->; reflexivity].
  intros H. apply (f_equal length) in H. rewrite length_reverse in H.
  by destruct s.
Qed.

Lemma trimEnd_nil s : trimEnd s = [] ↔ blank s.
Proof.
  unfold trimEnd. by rewrite reverse_nil_iff, trimStart_nil, blank_reverse.
Qed.

(** [trim] returns the empty string exactly on blank strings. *)
Lemma trim_nil s : trim s = [] ↔ blank s.
Proof. unfold trim. by rewrite trimEnd_nil, blank_trimStart. Qed.

Lemma trimStart_blank s : blank (trimStart s) → trimStart s = [].
Proof.
  destruct (trimStart s) as [|c r] eqn:E; [done |].
  apply trimStart_head in E. unfold blank. inversion 1; congruence.
Qed.

(** What [trim] returns is empty or not blank. *)
Lemma trim_blank s : blank (trim s) → trim s = [].
Proof.
  unfold trim, trimEnd. rewrite blank_reverse. intros H.
  by rewrite (trimStart_blank _ H).
Qed.

Lemma truthy_trim s : truthy_string (trim s) = true ↔ ¬ blank s.
Proof. by rewrite truthy_string_true, trim_nil. Qed.

Lemma falsy_trim s : truthy_string (trim s) = false ↔ blank s.
Proof. by rewrite truthy_string_nil, trim_nil. Qed.

End Trim.

Example trim_spaces : trim (lit "  buy milk ") = lit "buy milk".
Proof. reflexivity. Qed.

(** A no-break space in front, a line separator behind. *)
Example trim_unicode : trim [160; 98; 32; 99; 8232]%N = [98; 32; 99]%N.
Proof. reflexivity. Qed.

Example trim_blank_line : trim (lit "   ") = [].
Proof. reflexivity. Qed.

(** ** The task form *)

Section TaskFormProps.
Variable onSubmit : TaskData → settled unit.
Implicit Types st : TaskForm.state.

Lemma handleSubmit_rejects st :
  invalid st →
  (TaskForm.handleSubmit onSubmit st).2 = [] ∧
  ∃ msg, msg ≠ [] ∧
    TaskForm.error_box (TaskForm.handleSubmit onSubmit st).1 = Some msg.
Proof.
  intros Hinv. unfold TaskForm.handleSubmit.
  destruct (truthy_string (trim (TaskForm.title st))) eqn:Ht; simpl.
  - apply truthy_trim in Ht.
    case_bool_decide as Hl; simpl.
    { split; [done |]. eexists. split; [| reflexivity]. done. }
    case_bool_decide as Hd; simpl.
    { split; [done |]. eexists. split; [| reflexivity]. done. }
    destruct Hinv as [? | [? | ?]]; [done | lia | lia].
  - split; [done |]. eexists. split; [| reflexivity]. done.
Qed.

Lemma handleSubmit_accepts st :
  ¬ invalid st →
  (TaskForm.handleSubmit onSubmit st).2 = [payload st].
Proof.
  intros Hv. unfold invalid in Hv. unfold TaskForm.handleSubmit.
  assert (Ht : truthy_string (trim (TaskForm.title st)) = true).
  { apply truthy_trim. tauto. }
  rewrite Ht; simpl.
  rewrite !bool_decide_eq_false_2 by lia.
  assert (Hp : {| data_title := trim (TaskForm.title st);
                  data_description :=
                    if truthy_string (trim (TaskForm.description st))
                    then Some (trim (TaskForm.description st)) else None |}
               = payload st).
  { unfold payload. by destruct (trim (TaskForm.description st)). }
  rewrite Hp. by destruct (onSubmit (payload st)).
Qed.

(** The form calls [onSubmit] at most once, and only with [payload]. *)
Lemma handleSubmit_calls st data :
  data ∈ (TaskForm.handleSubmit onSubmit st).2 → data = payload st ∧ ¬ invalid st.
Proof.
  destruct (decide (invalid st)) as [Hi | Hv].
  - rewrite (proj1 (handleSubmit_rejects st Hi)). by intros ?%elem_of_nil.
  - rewrite (handleSubmit_accepts st Hv). by intros ->%list_elem_of_singleton.
Qed.

End TaskFormProps.

(** C1.  Submitting the task form with a title that is empty or blank, or
    longer than 500 characters, or with a description longer than 5000
    characters, shows an error in the form and does not call the create or
    update operation; a (non-blank) title of exactly 500 characters with a
    description of at most 5000 characters passes, and the operation is called
    once, with the payload of the form.  Lengths are [.length] of the source:
    UTF-16 code units, counted before trimming. *)
Theorem task_form_validation (onSubmit : TaskData → settled unit)
    (st : TaskForm.state) :
  (blank (TaskForm.title st) ∨ 500 < length (TaskForm.title st)
   ∨ 5000 < length (TaskForm.description st) →
   (TaskForm.handleSubmit onSubmit st).2 = [] ∧
   ∃ msg, msg ≠ [] ∧
     TaskForm.error_box (TaskForm.handleSubmit onSubmit st).1 = Some msg)
  ∧
  (length (TaskForm.title st) = 500 → ¬ blank (TaskForm.title st) →
   length (TaskForm.description st) ≤ 5000 →
   (TaskForm.handleSubmit onSubmit st).2 = [payload st]).
Proof.
  split.
  - apply handleSubmit_rejects.
  - intros H500 Hnb Hd. apply handleSubmit_accepts.
    unfold invalid. intros [? | [? | ?]]; [done | lia | lia].
Qed.

Lemma task_form_validation_witness :
  (TaskForm.handleSubmit SampleForm.always_saved (SampleForm.form (lit "   ") [])).2 = []
  ∧ (TaskForm.handleSubmit SampleForm.always_saved
       (SampleForm.form SampleForm.title_500 (lit "milk and eggs"))).2
    = [mkTaskData SampleForm.title_500 (Some (lit "milk and eggs"))].
Proof.
  split.
  - apply (proj1 (task_form_validation SampleForm.always_saved
                    (SampleForm.form (lit "   ") []))).
    left. apply (bool_decide_unpack _). vm_compute. exact I.
  - apply (proj2 (task_form_validation SampleForm.always_saved
                    (SampleForm.form SampleForm.title_500 (lit "milk and eggs")))).
    + vm_compute. reflexivity.
    + apply (bool_decide_unpack _). vm_compute. exact I.
    + apply (bool_decide_unpack _). vm_compute. exact I.
Defined.

(** C10.  A form that passes the validation hands exactly one payload to
    [onSubmit]: its title is the trimmed title of the form, and its
    description is [null] when nothing is left of the description after
    trimming and the trimmed description otherwise.  Nothing else is ever
    handed over: whatever [onSubmit] receives comes from a form that passed
    the validation, is that payload, and its description is never the empty
    string. *)
Theorem task_form_payload (onSubmit : TaskData → settled unit)
    (st : TaskForm.state) :
  let submitted := (TaskForm.handleSubmit onSubmit st).2 in
  let expected :=
    {| data_title := trim (TaskForm.title st);
       data_description :=
         if decide (trim (TaskForm.description st) = []) then None
         else Some (trim (TaskForm.description st)) |} in
  (¬ invalid st → submitted = [expected])
  ∧ (∀ data, data ∈ submitted →
       ¬ invalid st ∧ data = expected ∧ data_description data ≠ Some []).
Proof.
  intros submitted expected.
  assert (He : payload st = expected).
  { unfold payload, expected.
    destruct (trim (TaskForm.description st)) as [| c r]; by case_decide. }
  split.
  - intros Hv. unfold submitted. by rewrite (handleSubmit_accepts _ st Hv), He.
  - intros data [-> Hv]%handleSubmit_calls. split; [exact Hv |].
    split; [exact He |]. unfold payload; simpl.
    by destruct (trim (TaskForm.description st)).
Qed.

Lemma task_form_payload_witness :
  (TaskForm.handleSubmit SampleForm.always_saved
     (SampleForm.form (lit "  buy milk ") (lit "   "))).2
  = [mkTaskData (lit "buy milk") None]
  ∧ (TaskForm.handleSubmit SampleForm.always_saved
       (SampleForm.form (lit "buy milk") (lit " 2 litres "))).2
    = [mkTaskData (lit "buy milk") (Some (lit "2 litres"))].
Proof.
  split.
  - rewrite (proj1 (task_form_payload SampleForm.always_saved
                      (SampleForm.form (lit "  buy milk ") (lit "   ")))).
    + vm_compute. reflexivity.
    + intros Hi. apply (bool_decide_pack _) in Hi. vm_compute in Hi. exact Hi.
  - rewrite (proj1 (task_form_payload SampleForm.always_saved
                      (SampleForm.form (lit "buy milk") (lit " 2 litres ")))).
    + vm_compute. reflexivity.
    + intros Hi. apply (bool_decide_pack _) in Hi. vm_compute in Hi. exact Hi.
Defined.

(** ** The task list *)

Section TaskListProps.
Implicit Types tasks : list Task.

Lemma incomplete_filter tasks :
  filter (λ task, ¬ completed task) tasks
  = filter (λ t, completed t = false) tasks.
Proof.
  apply list_filter_iff. intros t. destruct (completed t); simpl; naive_solver.
Qed.

Lemma completed_filter tasks :
  filter (λ task : Task, completed task) tasks
  = filter (λ t, completed t = true) tasks.
Proof.
  apply list_filter_iff. intros t. destruct (completed t); simpl; naive_solver.
Qed.

(** The two filters split the list: nothing is lost, nothing is doubled. *)
Lemma partition_permutation tasks :
  filter (λ t, completed t = false) tasks
  ++ filter (λ t, completed t = true) tasks ≡ₚ tasks.
Proof.
  rewrite <- (filter_app_complement (λ t, completed t = false) tasks) at 3.
  f_equiv. apply reflexive_eq, list_filter_iff.
  intros t. destruct (completed t); naive_solver.
Qed.

Lemma when_nonempty {A B} (l : list A) (x : B) :
  TaskList.when (bool_decide (0 < length l)) x
  = if decide (l = []) then [] else [x].
Proof.
  destruct l as [|a l]; [done |].
  rewrite bool_decide_eq_true_2 by (simpl; lia). by rewrite decide_False.
Qed.

(** While the tasks are being fetched the list shows the loading indicator,
    whatever the tasks are. *)
Lemma task_list_loading tasks : TaskList.TaskList tasks true = TaskList.LoadingIndicator.
Proof. reflexivity. Qed.

End TaskListProps.

Example task_list_sample :
  TaskList.TaskList [SampleTasks.milk; SampleTasks.rent; SampleTasks.call] false
  = TaskList.Groups
      [TaskList.mkGroup (lit "Active Tasks") 2
         [SampleTasks.milk; SampleTasks.call];
       TaskList.mkGroup (lit "Completed Tasks") 1 [SampleTasks.rent]].
Proof. reflexivity. Qed.

Example task_list_all_done :
  TaskList.TaskList [SampleTasks.rent] false
  = TaskList.Groups [TaskList.mkGroup (lit "Completed Tasks") 1 [SampleTasks.rent]].
Proof. reflexivity. Qed.

(** C2.  Once loading is over, a non-empty list of tasks is shown as the tasks
    that are not completed, in the order of the input, under "Active Tasks",
    followed by the completed ones, in the order of the input, under
    "Completed Tasks"; the badge of a group is the number of its tasks; every
    task is on screen exactly once; a group without tasks is left out.  An
    empty list shows the empty state. *)
Theorem task_list_groups (tasks : list Task) :
  let active := filter (λ t, completed t = false) tasks in
  let finished := filter (λ t, completed t = true) tasks in
  (tasks = [] → TaskList.TaskList tasks false = TaskList.EmptyState) ∧
  (tasks ≠ [] →
   ∃ groups,
     TaskList.TaskList tasks false = TaskList.Groups groups ∧
     groups ≫= TaskList.items = active ++ finished ∧
     groups ≫= TaskList.items ≡ₚ tasks ∧
     TaskList.heading <$> groups
       = (if decide (active = []) then [] else [lit "Active Tasks"])
         ++ (if decide (finished = []) then [] else [lit "Completed Tasks"]) ∧
     ∀ g, g ∈ groups →
       TaskList.badge g = length (TaskList.items g) ∧
       (TaskList.heading g = lit "Active Tasks" → TaskList.items g = active) ∧
       (TaskList.heading g = lit "Completed Tasks" →
        TaskList.items g = finished)).
Proof.
  intros active finished. split.
  - intros ->. reflexivity.
  - intros Hne. unfold TaskList.TaskList.
    rewrite bool_decide_eq_false_2 by (by destruct tasks).
    rewrite incomplete_filter, completed_filter, !when_nonempty.
    fold active finished. eexists. split; [reflexivity |].
    assert (Hperm : active ++ finished ≡ₚ tasks) by apply partition_permutation.
    assert (Hbind :
      ((if decide (active = []) then []
        else [TaskList.mkGroup (lit "Active Tasks") (length active) active])
       ++ (if decide (finished = []) then []
           else [TaskList.mkGroup (lit "Completed Tasks") (length finished)
                   finished])) ≫= TaskList.items = active ++ finished).
    { destruct (decide (active = [])) as [-> | ?],
        (decide (finished = [])) as [-> | ?]; simpl;
        by rewrite ?app_nil_r. }
    split; [exact Hbind |]. split; [by rewrite Hbind |]. split.
    + by destruct (decide (active = [])), (decide (finished = [])).
    + intros g Hg. apply elem_of_app in Hg.
      destruct Hg as [Hg | Hg];
        [destruct (decide (active = [])) | destruct (decide (finished = []))];
        try (by apply elem_of_nil in Hg);
        apply list_elem_of_singleton in Hg; subst g; simpl;
        (split; [reflexivity |]); split; intros H; try reflexivity;
        vm_compute in H; discriminate H.
Qed.

Lemma task_list_groups_witness :
  TaskList.TaskList [] false = TaskList.EmptyState ∧
  TaskList.rendered_tasks
    (TaskList.TaskList [SampleTasks.milk; SampleTasks.rent; SampleTasks.call]
       false)
  = [SampleTasks.milk; SampleTasks.call; SampleTasks.rent].
Proof.
  split.
  - apply (proj1 (task_list_groups [])). reflexivity.
  - destruct (proj2 (task_list_groups
                       [SampleTasks.milk; SampleTasks.rent; SampleTasks.call]))
      as (groups & -> & Hitems & _).
    + discriminate.
    + simpl. rewrite Hitems. vm_compute. reflexivity.
Defined.

(** ** The HTTP client *)

Section ApiClientProps.
Variable baseUrl : list N.
Variable fetch : ApiClient.FetchCall → settled ApiClient.Response.
Variable null_read_message : list N → list N.
Variable conversion_message : list N.

Let request :=
  ApiClient.request baseUrl fetch null_read_message conversion_message.
Let fetch_call := ApiClient.fetch_call baseUrl.

(** A truthy token ends up in the [Authorization] header, whatever headers
    the caller supplied. *)
Lemma fetch_call_authorization endpoint options t :
  ApiClient.token options = Some t → t ≠ [] →
  ApiClient.init_headers (fetch_call endpoint options) !! lit "Authorization"
  = Some (lit "Bearer " ++ t).
Proof.
  intros Ht Hne. unfold fetch_call, ApiClient.fetch_call. rewrite Ht. simpl.
  apply truthy_string_true in Hne. rewrite Hne. apply lookup_insert_eq.
Qed.

(** Without a truthy token the client adds no such header of its own. *)
Lemma fetch_call_no_token endpoint options :
  (ApiClient.token options = None ∨ ApiClient.token options = Some []) →
  ApiClient.headers options !! lit "Authorization" = None →
  ApiClient.init_headers (fetch_call endpoint options) !! lit "Authorization"
  = None.
Proof.
  intros Ht Hh. unfold fetch_call, ApiClient.fetch_call.
  assert (Hu : (ApiClient.headers options
                ∪ {[lit "Content-Type" := lit "application/json"]})
               !! lit "Authorization" = None).
  { apply lookup_union_None. split; [exact Hh |].
    apply lookup_singleton_ne. vm_compute. discriminate. }
  destruct Ht as [-> | ->]; simpl; exact Hu.
Qed.

Lemma request_204 endpoint options r :
  fetch (fetch_call endpoint options) = Resolved r →
  ApiClient.status r = 204%N →
  request endpoint options = Resolved (JObj []).
Proof.
  intros Hf Hs. unfold request, ApiClient.request. fold (fetch_call endpoint options).
  rewrite Hf. by rewrite bool_decide_eq_true_2.
Qed.

Lemma not_ok_not_204 r : ApiClient.ok r = false → ApiClient.status r ≠ 204%N.
Proof. unfold ApiClient.ok. intros H E. rewrite E in H. discriminate H. Qed.

(** Every failure of [request] is an [Error]. *)
Lemma request_throws_Error endpoint options e :
  request endpoint options = Rejected e → ∃ m, e = Error m.
Proof.
  unfold request, ApiClient.request.
  destruct (fetch _) as [r | [m |]]; simpl; [| intros [= <-]; eauto ..].
  case_bool_decide; [discriminate |].
  destruct (negb (ApiClient.ok r)).
  - destruct (ApiClient.error_message _ _ _) as [v | [m |]]; simpl;
      [| intros [= <-]; eauto ..].
    unfold ApiClient.new_Error. destruct (ToString v); simpl;
      intros [= <-]; eauto.
  - destruct (ApiClient.parsed r) as [d | [m |]]; simpl;
      [discriminate | intros [= <-]; eauto ..].
Qed.

(** The message chosen from a list of fields. *)
Lemma error_message_object fields st :
  ∃ v, ApiClient.error_message null_read_message (JObj fields) st = Resolved v ∧
    (∀ d, field (lit "detail") fields = Some d → truthy d = true → v = d) ∧
    ((∀ d, field (lit "detail") fields = Some d → truthy d = false) →
     (∀ m, field (lit "message") fields = Some m → truthy m = true → v = m) ∧
     ((∀ m, field (lit "message") fields = Some m → truthy m = false) →
      v = JStr (lit "HTTP error! status: " ++ decimal st))).
Proof.
  unfold ApiClient.error_message.
  destruct (field (lit "detail") fields) as [d |] eqn:Hd;
    [destruct (truthy d) eqn:Htd |].
  - exists d. split; [done |]. split; [by intros ? [= <-] |].
    intros H. specialize (H d eq_refl). congruence.
  - destruct (field (lit "message") fields) as [m |] eqn:Hm;
      [destruct (truthy m) eqn:Htm |]; eexists; (split; [reflexivity |]).
    + split; [intros ? [= <-]; congruence |]. intros _.
      split; [by intros ? [= <-] |]. intros H. specialize (H m eq_refl). congruence.
    + split; [intros ? [= <-]; congruence |]. intros _.
      split; [intros ? [= <-]; congruence | done].
    + split; [intros ? [= <-]; congruence |]. intros _. split; [done | done].
  - destruct (field (lit "message") fields) as [m |] eqn:Hm;
      [destruct (truthy m) eqn:Htm |]; eexists; (split; [reflexivity |]).
    + split; [done |]. intros _.
      split; [by intros ? [= <-] |]. intros H. specialize (H m eq_refl). congruence.
    + split; [done |]. intros _. split; [intros ? [= <-]; congruence | done].
    + split; [done |]. intros _. split; [done | done].
Qed.

(** A body that is neither [null] nor an object has no [detail] and no
    [message]: it is read like the empty object. *)
Lemma error_message_fields r fields :
  body_fields r = Some fields →
  ApiClient.error_message null_read_message
    match ApiClient.parsed r with
    | Resolved d => d
    | Rejected _ => JObj []
    end (ApiClient.status r)
  = ApiClient.error_message null_read_message (JObj fields) (ApiClient.status r).
Proof.
  unfold body_fields.
  destruct (ApiClient.parsed r) as [[| b | n | text | elements | fields'] | e];
    intros [= <-]; reflexivity.
Qed.

Lemma error_message_null r :
  body_fields r = None →
  ApiClient.error_message null_read_message
    match ApiClient.parsed r with
    | Resolved d => d
    | Rejected _ => JObj []
    end (ApiClient.status r)
  = Rejected (Error (null_read_message (lit "detail"))).
Proof.
  unfold body_fields.
  destruct (ApiClient.parsed r) as [[| b | n | text | elements | fields'] | e];
    (discriminate || reflexivity).
Qed.

Lemma request_not_ok endpoint options r :
  fetch (fetch_call endpoint options) = Resolved r →
  ApiClient.ok r = false →
  request endpoint options
  = match ApiClient.error_message null_read_message
            match ApiClient.parsed r with
            | Resolved d => d
            | Rejected _ => JObj []
            end (ApiClient.status r) with
    | Resolved v =>
        Rejected (Error (default conversion_message (ToString v)))
    | Rejected e => ApiClient.rethrow e
    end.
Proof.
  intros Hf Hok. unfold request, ApiClient.request.
  fold (fetch_call endpoint options). rewrite Hf.
  rewrite bool_decide_eq_false_2 by by apply not_ok_not_204.
  rewrite Hok. simpl.
  destruct (ApiClient.error_message _ _ _) as [v |]; [| reflexivity].
  unfold ApiClient.new_Error. by destruct (ToString v).
Qed.

End ApiClientProps.

(** A validation failure whose [detail] is a list of objects: the message is
    what [ToString] makes of it. *)
Example request_validation_failure :
  ApiClient.request SampleHttp.base
    (SampleHttp.server 422
       (Resolved (JObj [(lit "detail", JArr [JObj [(lit "msg", JStr (lit "too long"))]])])))
    SampleHttp.no_null_read SampleHttp.no_conversion (lit "/api/tasks")
    (SampleHttp.with_token "abc")
  = Rejected (Error (lit "[object Object]")).
Proof. vm_compute. reflexivity. Qed.

(** A body with both an [error] and a [message]: the [message] is used. *)
Example request_upstream_failure :
  ApiClient.request SampleHttp.base
    (SampleHttp.server 503
       (Resolved (JObj [(lit "error", JStr (lit "AI service error"));
                        (lit "message", JStr (lit "Please try again."))])))
    SampleHttp.no_null_read SampleHttp.no_conversion (lit "/api/chat")
    (SampleHttp.with_token "abc")
  = Rejected (Error (lit "Please try again.")).
Proof. vm_compute. reflexivity. Qed.

(** The body [null]: reading its [detail] throws, and the client passes the
    [TypeError] on. *)
Example request_null_body :
  ApiClient.request SampleHttp.base (SampleHttp.server 500 (Resolved JNull))
    SampleHttp.no_null_read SampleHttp.no_conversion (lit "/api/tasks")
    (SampleHttp.with_token "abc")
  = Rejected (Error (lit "Cannot read properties of null")).
Proof. vm_compute. reflexivity. Qed.

(** A [detail] that has no conversion to a string: [new Error] throws. *)
Example request_odd_detail :
  ApiClient.request SampleHttp.base
    (SampleHttp.server 400 (Resolved SampleHttp.odd_detail))
    SampleHttp.no_null_read SampleHttp.no_conversion (lit "/api/tasks")
    (SampleHttp.with_token "abc")
  = Rejected (Error (lit "Cannot convert object to primitive value")).
Proof. vm_compute. reflexivity. Qed.

(** Numbers print with all their digits. *)
Example number_text :
  ToString (JArr [JNum (mkNumber 404 I); JNull; JNum (mkNumber (-7) I)])
  = Some (lit "404,,-7").
Proof. vm_compute. reflexivity. Qed.

(** Without a truthy token, no [Authorization] header. *)
Example request_empty_token :
  ApiClient.init_headers
    (ApiClient.fetch_call SampleHttp.base (lit "/api/auth/signin")
       (ApiClient.mkOptions (Some (lit "POST")) (Some (lit "{}")) ∅ (Some [])))
    !! lit "Authorization" = None.
Proof. vm_compute. reflexivity. Qed.

(** C3, as stated, fails: a 500 response whose body is
    [{"error": "Database error"}] makes the client throw an [Error] with the
    text "HTTP error! status: 500", which is not taken from the body. *)
Lemma http_client_server_message_counterexample :
  let r := ApiClient.mkResponse 500 (Resolved SampleHttp.store_failure) in
  let result :=
    ApiClient.request SampleHttp.base
      (SampleHttp.server 500 (Resolved SampleHttp.store_failure))
      SampleHttp.no_null_read SampleHttp.no_conversion (lit "/api/tasks")
      (SampleHttp.with_token "abc") in
  ApiClient.ok r = false ∧
  result = Rejected (Error (lit "HTTP error! status: 500")) ∧
  ¬ carries_server_message r result.
Proof.
  split; [reflexivity |]. split; [vm_compute; reflexivity |].
  intros (fields & key & v & text & Hp & Hf & Ht & Hr).
  injection Hp as <-. simpl in Hf.
  destruct (decide (lit "error" = key)); [| discriminate Hf].
  injection Hf as <-. injection Ht as <-.
  vm_compute in Hr. discriminate Hr.
Qed.

(** C3, amended.  When a non-empty token is supplied, the call handed to
    [fetch] has the header [Authorization] equal to "Bearer " followed by the
    token; a 204 response gives the empty object and nothing is thrown; every
    response outside 200..299 makes [request] throw an [Error].  The message
    of that error is read off the fields the body offers (those of a JSON
    object; none for a body that is not JSON or is a JSON string, number,
    boolean or array): it is the text of [detail] when [detail] is truthy,
    otherwise the text of [message] when [message] is truthy, otherwise
    "HTTP error! status: " followed by the status.  The text of a value is
    its conversion to a string; for a value that has none, and for the body
    [null], the error is the engine's [TypeError], with the engine's
    message. *)
Theorem http_client_contract (baseUrl : list N)
    (fetch : ApiClient.FetchCall → settled ApiClient.Response)
    (null_read_message : list N → list N) (conversion_message : list N)
    (endpoint : list N) (options : ApiClient.RequestOptions) :
  let call := ApiClient.fetch_call baseUrl endpoint options in
  let result :=
    ApiClient.request baseUrl fetch null_read_message conversion_message
      endpoint options in
  let text v := default conversion_message (ToString v) in
  (∀ t, ApiClient.token options = Some t → t ≠ [] →
     ApiClient.init_headers call !! lit "Authorization"
     = Some (lit "Bearer " ++ t))
  ∧ (∀ r, fetch call = Resolved r → ApiClient.status r = 204%N →
       result = Resolved (JObj []))
  ∧ (∀ r, fetch call = Resolved r → ApiClient.ok r = false →
       (∃ m, result = Rejected (Error m)) ∧
       (body_fields r = None →
        result = Rejected (Error (null_read_message (lit "detail")))) ∧
       ∀ fields, body_fields r = Some fields →
         (∀ d, field (lit "detail") fields = Some d → truthy d = true →
            result = Rejected (Error (text d))) ∧
         ((∀ d, field (lit "detail") fields = Some d → truthy d = false) →
          (∀ m, field (lit "message") fields = Some m → truthy m = true →
             result = Rejected (Error (text m))) ∧
          ((∀ m, field (lit "message") fields = Some m → truthy m = false) →
           result
           = Rejected
               (Error (lit "HTTP error! status: "
                       ++ decimal (ApiClient.status r)))))).
Proof.
  intros call result text. split; [| split].
  - intros t. apply fetch_call_authorization.
  - intros r. apply request_204.
  - intros r Hf Hok.
    pose proof (request_not_ok baseUrl fetch null_read_message
                  conversion_message endpoint options r Hf Hok) as Hreq.
    fold result in Hreq. split; [| split].
    + rewrite Hreq.
      destruct (ApiClient.error_message _ _ _) as [v | [m |]]; simpl; eauto.
    + intros Hnull. by rewrite Hreq, (error_message_null _ r Hnull).
    + intros fields Hbody.
      rewrite (error_message_fields _ r fields Hbody) in Hreq.
      destruct (error_message_object null_read_message fields
                  (ApiClient.status r)) as (v & Hv & Hdetail & Hrest).
      rewrite Hv in Hreq. split.
      * intros d Hd Htd. by rewrite Hreq, (Hdetail d Hd Htd).
      * intros Hnd. destruct (Hrest Hnd) as [Hmessage Hgeneric]. split.
        -- intros m Hm Htm. by rewrite Hreq, (Hmessage m Hm Htm).
        -- intros Hnm. by rewrite Hreq, (Hgeneric Hnm).
Qed.

Lemma http_client_contract_witness :
  ApiClient.init_headers
    (ApiClient.fetch_call SampleHttp.base (lit "/api/tasks/7")
       (SampleHttp.with_token "abc")) !! lit "Authorization"
  = Some (lit "Bearer abc")
  ∧ ApiClient.request SampleHttp.base (SampleHttp.server 204 (Rejected NonError))
      SampleHttp.no_null_read SampleHttp.no_conversion (lit "/api/tasks/7")
      (SampleHttp.with_token "abc")
    = Resolved (JObj [])
  ∧ ApiClient.request SampleHttp.base
      (SampleHttp.server 404 (Resolved SampleHttp.not_found))
      SampleHttp.no_null_read SampleHttp.no_conversion (lit "/api/tasks/7")
      (SampleHttp.with_token "abc")
    = Rejected (Error (lit "Task not found"))
  ∧ ApiClient.request SampleHttp.base (SampleHttp.server 502 (Rejected NonError))
      SampleHttp.no_null_read SampleHttp.no_conversion (lit "/api/tasks/7")
      (SampleHttp.with_token "abc")
    = Rejected (Error (lit "HTTP error! status: 502"))
  ∧ ApiClient.request SampleHttp.base (SampleHttp.server 500 (Resolved JNull))
      SampleHttp.no_null_read SampleHttp.no_conversion (lit "/api/tasks/7")
      (SampleHttp.with_token "abc")
    = Rejected (Error (lit "Cannot read properties of null"))
  ∧ ApiClient.request SampleHttp.base
      (SampleHttp.server 400 (Resolved SampleHttp.odd_detail))
      SampleHttp.no_null_read SampleHttp.no_conversion (lit "/api/tasks/7")
      (SampleHttp.with_token "abc")
    = Rejected (Error (lit "Cannot convert object to primitive value")).
Proof.
  pose proof (λ fetch,
    http_client_contract SampleHttp.base fetch SampleHttp.no_null_read
      SampleHttp.no_conversion (lit "/api/tasks/7")
      (SampleHttp.with_token "abc")) as H.
  cbv zeta in H.
  split; [| split; [| split; [| split; [| split]]]].
  - apply (proj1 (H (SampleHttp.server 204 (Rejected NonError))) (lit "abc")).
    + reflexivity.
    + discriminate.
  - apply (proj1 (proj2 (H (SampleHttp.server 204 (Rejected NonError))))
             (ApiClient.mkResponse 204 (Rejected NonError))).
    + reflexivity.
    + reflexivity.
  - destruct (proj2 (proj2 (H (SampleHttp.server 404
                                 (Resolved SampleHttp.not_found))))
             (ApiClient.mkResponse 404 (Resolved SampleHttp.not_found))
             eq_refl eq_refl) as (_ & _ & Hmsg).
    destruct (Hmsg [(lit "detail", JStr (lit "Task not found"))] eq_refl)
      as [Hdetail _].
    apply (Hdetail (JStr (lit "Task not found"))); reflexivity.
  - destruct (proj2 (proj2 (H (SampleHttp.server 502 (Rejected NonError))))
             (ApiClient.mkResponse 502 (Rejected NonError))
             eq_refl eq_refl) as (_ & _ & Hmsg).
    destruct (Hmsg [] eq_refl) as [_ Hrest].
    destruct Hrest as [_ Hgeneric]; [discriminate |].
    apply Hgeneric. discriminate.
  - destruct (proj2 (proj2 (H (SampleHttp.server 500 (Resolved JNull))))
             (ApiClient.mkResponse 500 (Resolved JNull))
             eq_refl eq_refl) as (_ & Hnull & _).
    apply Hnull. reflexivity.
  - destruct (proj2 (proj2 (H (SampleHttp.server 400
                                 (Resolved SampleHttp.odd_detail))))
             (ApiClient.mkResponse 400 (Resolved SampleHttp.odd_detail))
             eq_refl eq_refl) as (_ & _ & Hmsg).
    destruct (Hmsg [(lit "detail", JObj [(lit "toString", JNum (mkNumber 1 I))])]
                eq_refl) as [Hdetail _].
    apply (Hdetail (JObj [(lit "toString", JNum (mkNumber 1 I))])); reflexivity.
Defined.

(** ** Sending a chat message *)

Section ChatProps.
Implicit Types st now : ChatPage.state.

Lemma slice_0_minus1_snoc {A} (l : list A) x : slice_0_minus1 (l ++ [x]) = l.
Proof.
  unfold slice_0_minus1. apply take_app_length'.
  rewrite length_app. simpl. lia.
Qed.


(** The guard of the handler. *)
Lemma send_begin_None st :
  ChatPage.send_begin st = None
  ↔ blank (ChatPage.input st) ∨ ChatPage.loading st = true.
Proof.
  unfold ChatPage.send_begin.
  destruct (truthy_string (trim (ChatPage.input st))) eqn:Ht; simpl.
  - apply truthy_trim in Ht. destruct (ChatPage.loading st).
    + split; [by right | done].
    + split; [discriminate | intros [? | ?]; [done | discriminate]].
  - apply falsy_trim in Ht. split; [by left | done].
Qed.

Lemma send_begin_Some st :
  ¬ blank (ChatPage.input st) → ChatPage.loading st = false →
  ChatPage.send_begin st
  = Some (ChatPage.mkState
            (ChatPage.messages st ++ [mkMessage user (trim (ChatPage.input st))])
            [] (ChatPage.conversationId st) true None,
          mkChatRequest (ChatPage.conversationId st) (trim (ChatPage.input st))).
Proof.
  intros Hb Hl. unfold ChatPage.send_begin.
  apply truthy_trim in Hb. by rewrite Hb, Hl.
Qed.

(** What a send that passes the guard has done when it reaches its [await]. *)
Lemma send_begin_inv st st1 request :
  ChatPage.send_begin st = Some (st1, request) →
  ¬ blank (ChatPage.input st) ∧ ChatPage.loading st = false ∧
  st1 = ChatPage.mkState
          (ChatPage.messages st ++ [mkMessage user (trim (ChatPage.input st))])
          [] (ChatPage.conversationId st) true None ∧
  request
  = mkChatRequest (ChatPage.conversationId st) (trim (ChatPage.input st)).
Proof.
  intros Hb.
  assert (Hg : ¬ (blank (ChatPage.input st) ∨ ChatPage.loading st = true)).
  { intros Hg%send_begin_None. congruence. }
  assert (Hnb : ¬ blank (ChatPage.input st)) by tauto.
  assert (Hl : ChatPage.loading st = false).
  { destruct (ChatPage.loading st); [tauto | reflexivity]. }
  rewrite (send_begin_Some st Hnb Hl) in Hb. injection Hb as <- <-. done.
Qed.

(** The [catch] and [finally] blocks, on the state they meet. *)
Lemma send_settle_failure request err now :
  ChatPage.send_settle request (Rejected err) now
  = ChatPage.mkState (slice_0_minus1 (ChatPage.messages now))
      (ChatPage.input now) (ChatPage.conversationId now) false
      (Some (message_or err (lit "Failed to send message"))).
Proof. reflexivity. Qed.


(** A send that fails with nothing handled in between: the cells of the page
    afterwards. *)
Lemma handleSendMessage_failure sendMessage st err :
  ¬ blank (ChatPage.input st) → ChatPage.loading st = false →
  sendMessage (mkChatRequest (ChatPage.conversationId st)
                 (trim (ChatPage.input st))) = Rejected err →
  ChatPage.handleSendMessage sendMessage st
  = (ChatPage.mkState (ChatPage.messages st) [] (ChatPage.conversationId st)
       false (Some (message_or err (lit "Failed to send message"))),
     [mkChatRequest (ChatPage.conversationId st) (trim (ChatPage.input st))]).
Proof.
  intros Hb Hl Hs. unfold ChatPage.handleSendMessage.
  rewrite (send_begin_Some st Hb Hl), Hs, send_settle_failure. simpl.
  by rewrite slice_0_minus1_snoc.
Qed.

End ChatProps.

(** The chat panel of the dashboard runs the two halves of the chat page's
    handler on its own cells; a reply also starts a reload of the tasks. *)
Lemma dashboard_send_begin (st : Dashboard.state) :
  ChatPage.send_begin (Dashboard.chat_cells st)
  = (λ '(st1, request), (Dashboard.chat_cells st1, request))
      <$> Dashboard.send_begin st.
Proof.
  unfold Dashboard.send_begin, ChatPage.send_begin.
  destruct st as [ts l sf et e m co ms ci cid cl ce]; simpl.
  by destruct (negb (truthy_string (trim ci)) || cl).
Qed.


(** The cells of the dashboard that a settling send leaves alone. *)
Lemma dashboard_send_settle_frame request reply (now : Dashboard.state) :
  let st' := (Dashboard.send_settle request reply now).1 in
  Dashboard.tasks st' = Dashboard.tasks now ∧
  Dashboard.showForm st' = Dashboard.showForm now ∧
  Dashboard.editingTask st' = Dashboard.editingTask now ∧
  Dashboard.chatOpen st' = Dashboard.chatOpen now.
Proof.
  destruct reply as [reply | err]; simpl; [| done].
  by destruct (falsy_id (conversation_id request)).
Qed.

Lemma dashboard_send_begin_inv (st st1 : Dashboard.state) request :
  Dashboard.send_begin st = Some (st1, request) →
  ChatPage.send_begin (Dashboard.chat_cells st)
  = Some (Dashboard.chat_cells st1, request) ∧
  Dashboard.tasks st1 = Dashboard.tasks st.
Proof.
  intros Hb. rewrite dashboard_send_begin, Hb. split; [reflexivity |].
  unfold Dashboard.send_begin in Hb.
  destruct (negb _ || _); [discriminate |]. by injection Hb as <- _.
Qed.

(** With nothing handled in between, the panel's handler is the page's. *)
Lemma dashboard_chat_simulation (svc : Dashboard.services) (st : Dashboard.state) :
  let '(st', calls, _) := Dashboard.handleSendMessage svc st in
  (Dashboard.chat_cells st', Dashboard.chat_requests calls)
  = ChatPage.handleSendMessage (Dashboard.sendMessage svc)
      (Dashboard.chat_cells st).
Proof.
  unfold Dashboard.handleSendMessage, ChatPage.handleSendMessage.
  rewrite dashboard_send_begin.
  destruct (Dashboard.send_begin st) as [[st1 request] |]; simpl;
    [| reflexivity].
  destruct (Dashboard.sendMessage svc request) as [reply | err]; simpl;
    [| reflexivity].
  destruct st1 as [ts l sf et e m co ms ci cid cl ce]; simpl.
  by destruct (falsy_id (conversation_id request)), (Dashboard.getTasks svc).
Qed.

(** C4, as stated, fails: after a failed send the input is empty, not the
    text the user typed. *)
Lemma chat_input_preserved_counterexample :
  let st' :=
    (ChatPage.handleSendMessage SampleChat.unreachable SampleChat.typed).1 in
  ChatPage.input_value (ChatPage.render SampleChat.typed) = lit "hello" ∧
  ChatPage.input_value (ChatPage.render st') = [] ∧
  ChatPage.input_value (ChatPage.render st')
  ≠ ChatPage.input_value (ChatPage.render SampleChat.typed).
Proof. vm_compute. split; [done |]. split; [done | discriminate]. Qed.

(** The history can arrive while a request is pending.  The failure then
    removes the last message of the history, not the user's. *)
Example session_history_race :
  ChatPage.messages
    (ChatSession.page
       (ChatSession.run
          [ChatSession.Type_ (lit "hello"); ChatSession.Submit;
           ChatSession.HistoryId 4;
           ChatSession.HistoryMessages
             [mkMessage user (lit "hi"); mkMessage assistant (lit "Hello!")];
           ChatSession.Settle (Rejected (Error (lit "Failed to fetch")))]))
  = [mkMessage user (lit "hi")].
Proof. reflexivity. Qed.

(** C4, amended.  A chat send that passed the guard has cleared the input
    and put the user's trimmed message at the end of the transcript.  When it
    fails, on the chat page and in the chat panel of the dashboard alike, and
    whatever was handled while the request was pending: the last message of
    the transcript, as it stands at that moment, is removed, so that the
    transcript is the one from before the send whenever nothing else changed
    it in between; the error cell holds the message of the failure (or
    "Failed to send message" for a thrown value that is not an [Error]) and,
    when that text is not empty, it is shown in the error box; the input is
    not restored, it stays as it is, hence empty unless something was typed
    in between; the conversation id stays as it is and the page is no longer
    loading.  On the dashboard the task list is not touched and no other call
    is made. *)
Theorem chat_send_failure :
  (∀ (st st1 now : ChatPage.state) (request : ChatRequest) (err : thrown),
     let text := message_or err (lit "Failed to send message") in
     let st' := ChatPage.send_settle request (Rejected err) now in
     ChatPage.send_begin st = Some (st1, request) →
     (ChatPage.messages st1
      = ChatPage.messages st ++ [mkMessage user (trim (ChatPage.input st))] ∧
      ChatPage.input st1 = [] ∧
      message request = trim (ChatPage.input st)) ∧
     ChatPage.messages st' = slice_0_minus1 (ChatPage.messages now) ∧
     (ChatPage.messages now = ChatPage.messages st1 →
      ChatPage.messages st' = ChatPage.messages st) ∧
     ChatPage.error st' = Some text ∧
     (text ≠ [] → ChatPage.error_box (ChatPage.render st') = Some text) ∧
     ChatPage.input st' = ChatPage.input now ∧
     (ChatPage.input now = ChatPage.input st1 → ChatPage.input st' = []) ∧
     ChatPage.conversationId st' = ChatPage.conversationId now ∧
     ChatPage.loading st' = false)
  ∧
  (∀ (st st1 now : Dashboard.state) (request : ChatRequest) (err : thrown),
     let text := message_or err (lit "Failed to send message") in
     let st' := (Dashboard.send_settle request (Rejected err) now).1 in
     Dashboard.send_begin st = Some (st1, request) →
     (Dashboard.messages st1
      = Dashboard.messages st
        ++ [mkMessage user (trim (Dashboard.chatInput st))] ∧
      Dashboard.chatInput st1 = [] ∧
      message request = trim (Dashboard.chatInput st)) ∧
     Dashboard.messages st' = slice_0_minus1 (Dashboard.messages now) ∧
     (Dashboard.messages now = Dashboard.messages st1 →
      Dashboard.messages st' = Dashboard.messages st) ∧
     Dashboard.chatError st' = Some text ∧
     Dashboard.chatInput st' = Dashboard.chatInput now ∧
     (Dashboard.chatInput now = Dashboard.chatInput st1 →
      Dashboard.chatInput st' = []) ∧
     Dashboard.conversationId st' = Dashboard.conversationId now ∧
     Dashboard.chatLoading st' = false ∧
     Dashboard.tasks st' = Dashboard.tasks now ∧
     (Dashboard.send_settle request (Rejected err) now).2 = []).
Proof.
  assert (Hpage : ∀ (st st1 now : ChatPage.state) request err,
    let text := message_or err (lit "Failed to send message") in
    let st' := ChatPage.send_settle request (Rejected err) now in
    ChatPage.send_begin st = Some (st1, request) →
    (ChatPage.messages st1
     = ChatPage.messages st ++ [mkMessage user (trim (ChatPage.input st))] ∧
     ChatPage.input st1 = [] ∧
     message request = trim (ChatPage.input st)) ∧
    ChatPage.messages st' = slice_0_minus1 (ChatPage.messages now) ∧
    (ChatPage.messages now = ChatPage.messages st1 →
     ChatPage.messages st' = ChatPage.messages st) ∧
    ChatPage.error st' = Some text ∧
    (text ≠ [] → ChatPage.error_box (ChatPage.render st') = Some text) ∧
    ChatPage.input st' = ChatPage.input now ∧
    (ChatPage.input now = ChatPage.input st1 → ChatPage.input st' = []) ∧
    ChatPage.conversationId st' = ChatPage.conversationId now ∧
    ChatPage.loading st' = false).
  { intros st st1 now request err text st' Hb.
    apply send_begin_inv in Hb as (_ & _ & -> & ->).
    unfold st'. rewrite send_settle_failure. simpl.
    split; [done |]. split; [reflexivity |]. split.
    { intros ->. apply slice_0_minus1_snoc. }
    split; [reflexivity |]. split.
    { intros Hne. apply truthy_string_true in Hne. fold text. by rewrite Hne. }
    done. }
  split; [exact Hpage |].
  intros st st1 now request err text st' Hb.
  apply dashboard_send_begin_inv in Hb as [Hb _].
  specialize (Hpage (Dashboard.chat_cells st) (Dashboard.chat_cells st1)
                (Dashboard.chat_cells now) request err Hb).
  simpl in Hpage.
  destruct Hpage as (Hsend & Hm & Hback & He & _ & Hi & Hkeep & Hc & Hl).
  done.
Qed.

Lemma chat_send_failure_witness :
  ChatPage.send_begin SampleChat.typed
  = Some (SampleChat.pending, SampleChat.hello)
  ∧ ChatPage.messages
      (ChatPage.send_settle SampleChat.hello SampleChat.failed
         SampleChat.pending)
    = [mkMessage user (lit "hi"); mkMessage assistant (lit "Hello!")]
  ∧ ChatPage.input
      (ChatPage.send_settle SampleChat.hello SampleChat.failed
         SampleChat.pending)
    = []
  ∧ Dashboard.chatInput
      (Dashboard.send_settle SampleChat.first_hello SampleChat.failed
         (Dashboard.setChatInput (lit "again")
            (SampleDashboard.chat_pending [SampleTasks.milk]))).1
    = lit "again".
Proof.
  pose proof (proj1 chat_send_failure SampleChat.typed SampleChat.pending
                SampleChat.pending SampleChat.hello
                (Error (lit "Failed to fetch")) eq_refl)
    as (_ & _ & Hback & _ & _ & _ & Hinput & _).
  pose proof (proj2 chat_send_failure
                (SampleDashboard.chatting [SampleTasks.milk])
                (SampleDashboard.chat_pending [SampleTasks.milk])
                (Dashboard.setChatInput (lit "again")
                   (SampleDashboard.chat_pending [SampleTasks.milk]))
                SampleChat.first_hello
                (Error (lit "Failed to fetch")) eq_refl)
    as (_ & _ & _ & _ & Hdash & _).
  split; [reflexivity |]. split; [| split].
  - apply Hback. reflexivity.
  - apply Hinput. reflexivity.
  - exact Hdash.
Defined.




(** ** One request at a time *)

Section SessionProps.
Import ChatSession.

Lemma send_begin_request st st' request :
  ChatPage.send_begin st = Some (st', request) →
  ChatPage.loading st = false ∧ ChatPage.loading st' = true ∧
  ¬ blank (message request) ∧ message request = trim (ChatPage.input st).
Proof.
  unfold ChatPage.send_begin.
  destruct (truthy_string (trim (ChatPage.input st))) eqn:Ht; [| discriminate].
  destruct (ChatPage.loading st); [discriminate |]. simpl.
  intros [= <- <-]. simpl. repeat split; try done.
  intros Hb%trim_blank. by rewrite Hb in Ht.
Qed.

Lemma send_settle_loading request reply st :
  ChatPage.loading (ChatPage.send_settle request reply st) = false.
Proof. by destruct reply. Qed.

Lemma handle_ok s e : session_ok s → session_ok (handle s e).
Proof.
  intros [Hfl Hsent]. destruct e as [text | | reply | conversation | history];
    simpl; try (split; [exact Hfl | exact Hsent]).
  - destruct (ChatPage.send_begin (page s)) as [[st request] |] eqn:Hb;
      [| by split].
    apply send_begin_request in Hb as (Hl & Hl' & Hnb & _).
    rewrite Hl in Hfl. split; simpl.
    + rewrite Hl', length_app. simpl. lia.
    + apply Forall_app. split; [exact Hsent |]. by constructor.
  - destruct (in_flight s) as [| request rest] eqn:Hq.
    { split; [rewrite Hq; simpl; lia | exact Hsent]. }
    split; simpl; [| exact Hsent].
    rewrite send_settle_loading.
    simpl in Hfl. destruct (ChatPage.loading (page s)); lia.
Qed.

Lemma run_ok events s : session_ok s → session_ok (foldl handle s events).
Proof.
  revert s. induction events as [| e events IH]; intros s Hs; [exact Hs |].
  simpl. apply IH, handle_ok, Hs.
Qed.

End SessionProps.

(** Typing, submitting twice in a row, then a failure: one request was sent,
    none is pending, the transcript is empty again and so is the input. *)
Example session_double_submit :
  ChatSession.run
    [ChatSession.Type_ (lit " hello "); ChatSession.Submit; ChatSession.Submit;
     ChatSession.Settle (Rejected (Error (lit "Failed to fetch")))]
  = ChatSession.mkSession
      (ChatPage.mkState [] [] None false (Some (lit "Failed to fetch")))
      [] [mkChatRequest None (lit "hello")].
Proof. reflexivity. Qed.

(** C9.  Submitting the chat form while the trimmed input is empty or while a
    request is awaiting its reply does nothing: the state is unchanged
    (messages, conversation id, input and error included) and no request is
    sent, on the chat page and in the chat panel of the dashboard.  Hence,
    whatever the user and the network do, at most one request awaits its
    reply and no request sent carries a blank message. *)
Theorem chat_send_guard :
  (∀ (sendMessage : ChatRequest → settled ChatResponse) (st : ChatPage.state),
     blank (ChatPage.input st) ∨ ChatPage.loading st = true →
     ChatPage.handleSendMessage sendMessage st = (st, []))
  ∧
  (∀ (svc : Dashboard.services) (st : Dashboard.state),
     blank (Dashboard.chatInput st) ∨ Dashboard.chatLoading st = true →
     Dashboard.handleSendMessage svc st = (st, [], Resolved tt))
  ∧
  (∀ events : list ChatSession.event,
     length (ChatSession.in_flight (ChatSession.run events)) ≤ 1 ∧
     Forall (λ request, ¬ blank (message request))
       (ChatSession.sent (ChatSession.run events))).
Proof.
  split; [| split].
  - intros sendMessage st Hg. apply send_begin_None in Hg.
    unfold ChatPage.handleSendMessage. by rewrite Hg.
  - intros svc st Hg.
    unfold Dashboard.handleSendMessage, Dashboard.send_begin.
    assert (Hguard : negb (truthy_string (trim (Dashboard.chatInput st)))
                     || Dashboard.chatLoading st = true).
    { destruct Hg as [Hb%falsy_trim | ->]; [by rewrite Hb | apply orb_true_r]. }
    by rewrite Hguard.
  - intros events.
    assert (Hok : session_ok (ChatSession.run events)).
    { apply run_ok. split; [simpl; lia | constructor]. }
    destruct Hok as [Hfl Hsent]. split; [| exact Hsent].
    destruct (ChatPage.loading _); lia.
Qed.

Lemma chat_send_guard_witness :
  ChatPage.handleSendMessage SampleChat.unreachable
    (ChatPage.mkState [] (lit "  ") None false None)
  = (ChatPage.mkState [] (lit "  ") None false None, [])
  ∧ ChatPage.handleSendMessage SampleChat.unreachable
      (ChatPage.mkState [mkMessage user (lit "hi")] (lit "again") None true None)
    = (ChatPage.mkState [mkMessage user (lit "hi")] (lit "again") None true None,
       [])
  ∧ Dashboard.handleSendMessage (SampleDashboard.backend SampleTasks.call)
      (SampleDashboard.page [SampleTasks.milk])
    = (SampleDashboard.page [SampleTasks.milk], [], Resolved tt).
Proof.
  split; [| split].
  - apply (proj1 chat_send_guard). left.
    apply (bool_decide_unpack _). vm_compute. exact I.
  - apply (proj1 chat_send_guard). right. reflexivity.
  - apply (proj1 (proj2 chat_send_guard)). left.
    apply (bool_decide_unpack _). vm_compute. exact I.
Defined.

(** ** The dashboard and its task list *)

Section DashboardProps.
Implicit Types (tasks : list Task) (u : Task).

Lemma map_replaces u tasks :
  replaced_by_id u tasks
    ((λ t, if decide (id t = id u) then u else t) <$> tasks).
Proof.
  split; [apply length_fmap |].
  intros i t Hi. rewrite list_lookup_fmap, Hi. simpl.
  split; intros H; [by rewrite decide_True | by rewrite decide_False].
Qed.

Lemma filter_removes taskId tasks :
  removed_by_id taskId tasks (filter (λ t, id t ≠ taskId) tasks).
Proof.
  split; [apply sublist_filter |]. split.
  - by intros t [? _]%list_elem_of_filter.
  - rewrite (comm (++)).
    rewrite <- (filter_app_complement (λ t, id t = taskId) tasks) at 1.
    reflexivity.
Qed.

Lemma sublist_into_filter {A} (P : A → Prop) `{!∀ x, Decision (P x)}
    (l k : list A) :
  l `sublist_of` k → Forall P l → l `sublist_of` filter P k.
Proof.
  induction 1 as [| x l k Hs IH | x l k Hs IH]; intros Hall.
  - constructor.
  - apply Forall_cons in Hall as [Hx Hl].
    rewrite filter_cons_True by done. constructor. by apply IH.
  - rewrite filter_cons. case_decide; [constructor |]; by apply IH.
Qed.

Lemma sublist_full {A} (l k : list A) :
  l `sublist_of` k → length k ≤ length l → l = k.
Proof.
  induction 1 as [| x l k Hs IH | x l k Hs IH]; simpl; intros Hlen.
  - reflexivity.
  - f_equal. apply IH. lia.
  - apply sublist_length in Hs. lia.
Qed.

(** [removed_by_id] leaves no choice: it describes one list. *)
Lemma removed_by_id_unique taskId tasks after :
  removed_by_id taskId tasks after →
  after = filter (λ t, id t ≠ taskId) tasks.
Proof.
  intros (Hsub & Hids & Hperm).
  apply sublist_full.
  - apply sublist_into_filter; [exact Hsub |].
    apply Forall_forall. exact Hids.
  - apply Permutation_length in Hperm.
    pose proof (filter_app_complement (λ t, id t = taskId) tasks) as Hc.
    apply Permutation_length in Hc.
    rewrite length_app in Hperm, Hc. lia.
Qed.

End DashboardProps.

(** What a successful mutation does to the list: the new list is made from
    the list of the render the handler belongs to, and it replaces the list
    of the moment, whatever that is.  No other call is made; in particular
    the list is not fetched again. *)
Lemma mutations_from_render (svc : Dashboard.services)
    (rendered now : Dashboard.state) :
  (∀ data newTask,
     Dashboard.createTask svc data = Resolved newTask →
     let '(st', calls, _) := Dashboard.handleCreateTask svc rendered data now in
     calls = [Dashboard.CreateTask data] ∧
     Dashboard.tasks st' = newTask :: Dashboard.tasks rendered)
  ∧ (∀ data editing updatedTask,
       Dashboard.editingTask rendered = Some editing →
       Dashboard.updateTask svc (id editing) data = Resolved updatedTask →
       let '(st', calls, _) :=
         Dashboard.handleUpdateTask svc rendered data now in
       calls = [Dashboard.UpdateTask (id editing) data] ∧
       replaced_by_id updatedTask (Dashboard.tasks rendered)
         (Dashboard.tasks st'))
  ∧ (∀ taskId updatedTask,
       Dashboard.toggleComplete svc taskId = Resolved updatedTask →
       let '(st', calls, _) :=
         Dashboard.handleToggleComplete svc rendered taskId now in
       calls = [Dashboard.ToggleComplete taskId] ∧
       replaced_by_id updatedTask (Dashboard.tasks rendered)
         (Dashboard.tasks st'))
  ∧ (∀ taskId,
       Dashboard.deleteTask svc taskId = Resolved tt →
       let '(st', calls, _) :=
         Dashboard.handleDeleteTask svc rendered taskId now in
       calls = [Dashboard.DeleteTask taskId] ∧
       removed_by_id taskId (Dashboard.tasks rendered) (Dashboard.tasks st')).
Proof.
  split; [| split; [| split]].
  - intros data newTask Hc. unfold Dashboard.handleCreateTask. by rewrite Hc.
  - intros data editing updatedTask He Hu.
    unfold Dashboard.handleUpdateTask. rewrite He, Hu. simpl.
    split; [reflexivity | apply map_replaces].
  - intros taskId updatedTask Ht.
    unfold Dashboard.handleToggleComplete. rewrite Ht. simpl.
    split; [reflexivity | apply map_replaces].
  - intros taskId Hd. unfold Dashboard.handleDeleteTask. rewrite Hd. simpl.
    split; [reflexivity | apply filter_removes].
Qed.

(** One mutation at a time: the list is the one on screen, with the returned
    task in front. *)
Example create_alone :
  Dashboard.tasks
    (Dashboard.handleCreateTask (SampleDashboard.backend SampleTasks.call)
       (SampleDashboard.page [SampleTasks.milk; SampleTasks.rent])
       (mkTaskData (lit "call") None)
       (SampleDashboard.page [SampleTasks.milk; SampleTasks.rent])).1.1
  = [SampleTasks.call; SampleTasks.milk; SampleTasks.rent].
Proof. reflexivity. Qed.

(** C6, on the code.  The page shows three tasks.  The first is deleted and,
    before the server has answered, the second: both handlers belong to the
    render that shows all three.  When the first answer arrives the list is
    [rent; call].  When the second arrives the list becomes [milk; call]:
    the second task is gone, and the first, which the server has deleted, is
    back; what the second delete did to the list it met is not the removal
    of the entries with its id.  In general the list after a delete that the
    server accepted is the list of the handler's render without the deleted
    id, whatever the list had become by then. *)
Theorem dashboard_overlapping_deletes :
  let svc := SampleDashboard.backend SampleTasks.call in
  let shown :=
    SampleDashboard.page [SampleTasks.milk; SampleTasks.rent; SampleTasks.call] in
  let first := (Dashboard.handleDeleteTask svc shown 1 shown).1.1 in
  let second := (Dashboard.handleDeleteTask svc shown 2 first).1.1 in
  Dashboard.tasks first = [SampleTasks.rent; SampleTasks.call] ∧
  Dashboard.tasks second = [SampleTasks.milk; SampleTasks.call] ∧
  ¬ removed_by_id 2 (Dashboard.tasks first) (Dashboard.tasks second) ∧
  (∀ (backend : Dashboard.services) (rendered now : Dashboard.state)
     (taskId : Z),
     Dashboard.tasks
       (Dashboard.handleDeleteTask backend rendered taskId now).1.1
     = match Dashboard.deleteTask backend taskId with
       | Resolved _ => filter (λ t, id t ≠ taskId) (Dashboard.tasks rendered)
       | Rejected _ => Dashboard.tasks now
       end).
Proof.
  intros svc shown first second.
  split; [reflexivity |]. split; [reflexivity |]. split.
  - intros H%removed_by_id_unique. vm_compute in H. discriminate H.
  - intros backend rendered now taskId. unfold Dashboard.handleDeleteTask.
    by destruct (Dashboard.deleteTask backend taskId).
Qed.

(** ** Deleting a task *)

(** C7.  Pressing the delete control of a task item first asks for
    confirmation.  If the prompt is declined, the delete callback is not
    called: nothing but the prompt happens, and the item and its parent are
    as before; on the dashboard, the task list is unchanged and no delete
    request is made.  A call of the delete callback happens only when the
    prompt was accepted, after the prompt, and for the id of this task. *)
Theorem delete_needs_confirmation {P : Type} (confirm : list N → bool)
    (onDelete : Z → P → P * settled unit) (task : Task)
    (st : TaskItem.state) (p : P) :
  let question := lit "Are you sure you want to delete this task?" in
  let '(st', p', calls, r) := TaskItem.handleDelete confirm onDelete task st p in
  (confirm question = false →
   calls = [TaskItem.Confirm question] ∧ st' = st ∧ p' = p ∧
   ∀ taskId, TaskItem.OnDelete taskId ∉ calls)
  ∧ (∀ taskId, TaskItem.OnDelete taskId ∈ calls →
       confirm question = true ∧ taskId = id task ∧
       calls = [TaskItem.Confirm question; TaskItem.OnDelete (id task)])
  ∧ (∀ (svc : Dashboard.services) (rendered page : Dashboard.state),
       confirm question = false →
       TaskItem.handleDelete confirm
         (Dashboard.as_callback (Dashboard.handleDeleteTask svc rendered))
         task st (page, [])
       = (st, (page, []), [TaskItem.Confirm question], Resolved tt)).
Proof.
  intros question. unfold TaskItem.handleDelete. fold question.
  destruct (confirm question) eqn:Hc; simpl.
  - destruct (onDelete (id task) p) as [p' r]. split; [discriminate |]. split.
    + intros taskId Hin. split; [reflexivity |]. split; [| reflexivity].
      apply elem_of_cons in Hin as [Hin | Hin]; [discriminate Hin |].
      apply list_elem_of_singleton in Hin. by injection Hin.
    + discriminate.
  - split; [| split].
    + intros _. repeat split; try reflexivity.
      intros taskId Hin. apply list_elem_of_singleton in Hin. discriminate Hin.
    + intros taskId Hin. apply list_elem_of_singleton in Hin. discriminate Hin.
    + reflexivity.
Qed.

Lemma delete_needs_confirmation_witness :
  TaskItem.handleDelete SampleDashboard.declines
    (Dashboard.as_callback
       (Dashboard.handleDeleteTask (SampleDashboard.backend SampleTasks.call)
          (SampleDashboard.page [SampleTasks.milk; SampleTasks.rent])))
    SampleTasks.milk (TaskItem.mkState false false)
    (SampleDashboard.page [SampleTasks.milk; SampleTasks.rent], [])
  = (TaskItem.mkState false false,
     (SampleDashboard.page [SampleTasks.milk; SampleTasks.rent], []),
     [TaskItem.Confirm (lit "Are you sure you want to delete this task?")],
     Resolved tt)
  ∧ (TaskItem.handleDelete SampleDashboard.declines
       (Dashboard.as_callback
          (Dashboard.handleDeleteTask (SampleDashboard.backend SampleTasks.call)
          (SampleDashboard.page [SampleTasks.milk; SampleTasks.rent])))
       SampleTasks.milk (TaskItem.mkState false false)
       (SampleDashboard.page [SampleTasks.milk; SampleTasks.rent], [])).1.1.2
    = (SampleDashboard.page [SampleTasks.milk; SampleTasks.rent], [])
  ∧ SampleDashboard.accepts (lit "Are you sure you want to delete this task?")
    = true.
Proof.
  split; [| split].
  - pose proof (delete_needs_confirmation SampleDashboard.declines
                  (Dashboard.as_callback
                     (Dashboard.handleDeleteTask
                        (SampleDashboard.backend SampleTasks.call)
                        (SampleDashboard.page [SampleTasks.milk; SampleTasks.rent])))
                  SampleTasks.milk (TaskItem.mkState false false)
                  (SampleDashboard.page [SampleTasks.milk; SampleTasks.rent], []))
      as H.
    cbv zeta in H.
    destruct (TaskItem.handleDelete _ _ _ _ _) as [[[st' p'] calls] r] eqn:E.
    destruct H as (_ & _ & Hdash).
    rewrite <- E.
    apply (Hdash (SampleDashboard.backend SampleTasks.call)
             (SampleDashboard.page [SampleTasks.milk; SampleTasks.rent])).
    reflexivity.
  - pose proof (delete_needs_confirmation SampleDashboard.declines
                  (Dashboard.as_callback
                     (Dashboard.handleDeleteTask
                        (SampleDashboard.backend SampleTasks.call)
                        (SampleDashboard.page [SampleTasks.milk; SampleTasks.rent])))
                  SampleTasks.milk (TaskItem.mkState false false)
                  (SampleDashboard.page [SampleTasks.milk; SampleTasks.rent], []))
      as H.
    cbv zeta in H.
    destruct (TaskItem.handleDelete _ _ _ _ _) as [[[st' p'] calls] r].
    destruct H as (Hdeclined & _ & _).
    destruct (Hdeclined eq_refl) as (_ & _ & Hp & _). exact Hp.
  - pose proof (delete_needs_confirmation SampleDashboard.accepts
                  (Dashboard.as_callback
                     (Dashboard.handleDeleteTask
                        (SampleDashboard.backend SampleTasks.call)
                        (SampleDashboard.page [SampleTasks.milk; SampleTasks.rent])))
                  SampleTasks.milk (TaskItem.mkState false false)
                  (SampleDashboard.page [SampleTasks.milk; SampleTasks.rent], []))
      as H.
    cbv zeta in H.
    destruct (TaskItem.handleDelete _ _ _ _ _) as [[[st' p'] calls] r] eqn:E.
    destruct H as (_ & Hcalled & _).
    apply (Hcalled 1%Z).
    vm_compute in E. injection E as _ _ <- _.
    apply list_elem_of_further, list_elem_of_here.
Defined.

(** ** Protected pages *)

(** The route guard, as the spec describes it: the children are rendered for
    an authenticated user only, and everyone else is sent to the sign-in
    page. *)
Lemma auth_guard_gates {V : Type} (w : Auth.browser) (children : V) :
  (AuthGuard.AuthGuard w children = AuthGuard.Content children
   ↔ Auth.isAuthenticated w = true) ∧
  (AuthGuard.AuthGuard w children = AuthGuard.Redirect (lit "/signin")
   ↔ Auth.isAuthenticated w = false).
Proof.
  unfold AuthGuard.AuthGuard. destruct (Auth.isAuthenticated w); split; split;
    (done || discriminate).
Qed.

(** Any non-empty string under [auth_token] authenticates: the check does not
    look into the token. *)
Lemma isAuthenticated_iff (w : Auth.browser) :
  Auth.isAuthenticated w = true
  ↔ ∃ localStorage token,
      w = Some localStorage ∧ localStorage !! lit "auth_token" = Some token ∧
      token ≠ [].
Proof.
  unfold Auth.isAuthenticated, Auth.getToken, Auth.tokenStorage_getToken.
  destruct w as [localStorage |]; [| split; [discriminate | by intros (? & ? & ? & _)]].
  destruct (localStorage !! lit "auth_token") as [token |] eqn:Ht.
  - rewrite truthy_string_true. split.
    + intros Hne. by exists localStorage, token.
    + intros (ls & t & [= <-] & Hl & Hne). congruence.
  - split; [discriminate |]. intros (ls & t & [= <-] & Hl & _). congruence.
Qed.

(** C8, on the code.  With nothing in [localStorage] the user is not
    authenticated, and the chat page still renders its content: what it puts
    on screen does not depend on the token, and the redirect to the sign-in
    page is issued by an effect, after the render. *)
Theorem chat_page_renders_without_token :
  Auth.isAuthenticated (Some ∅) = false ∧
  ChatPage.mount (Some ∅) ChatPage.initial
  = (ChatPage.mkView [] false None [] false true, [lit "/signin"]) ∧
  (∀ w st, (ChatPage.mount w st).1 = ChatPage.render st).
Proof.
  split; [reflexivity |]. split; [vm_compute; reflexivity |]. reflexivity.
Qed.

(** * Further properties *)

(** ** More on trimming *)

Section TrimMore.
Implicit Types s : list N.

Lemma length_trimStart s : length (trimStart s) ≤ length s.
Proof.
  induction s as [| c r IH]; simpl; [lia |].
  destruct (is_whitespace c); simpl; lia.
Qed.

Lemma length_trim s : length (trim s) ≤ length s.
Proof.
  unfold trim, trimEnd. rewrite length_reverse.
  etransitivity; [apply length_trimStart |].
  rewrite length_reverse. apply length_trimStart.
Qed.

(** A string that does not start with white space is left alone. *)
Lemma trimStart_fixed c r : is_whitespace c = false → trimStart (c :: r) = c :: r.
Proof. intros H. simpl. by rewrite H. Qed.

Lemma trimStart_idemp s : trimStart (trimStart s) = trimStart s.
Proof.
  destruct (trimStart s) as [| c r] eqn:E; [reflexivity |].
  apply trimStart_fixed. by apply trimStart_head in E.
Qed.

(** [trimStart] removes a blank prefix and nothing else. *)
Lemma trimStart_split s : ∃ pre, s = pre ++ trimStart s ∧ blank pre.
Proof.
  induction s as [| c r (pre & Hs & Hb)]; simpl.
  - exists []. split; [reflexivity | constructor].
  - destruct (is_whitespace c) eqn:Hc.
    + exists (c :: pre). split; [simpl; congruence | by constructor].
    + exists []. split; [reflexivity | constructor].
Qed.

Lemma trimEnd_split s : ∃ post, s = trimEnd s ++ post ∧ blank post.
Proof.
  unfold trimEnd. destruct (trimStart_split (reverse s)) as (pre & Hs & Hb).
  exists (reverse pre). split; [| by apply blank_reverse].
  rewrite <- reverse_app, <- Hs. by rewrite reverse_involutive.
Qed.

Lemma trimEnd_idemp s : trimEnd (trimEnd s) = trimEnd s.
Proof. unfold trimEnd. by rewrite reverse_involutive, trimStart_idemp. Qed.

(** Trimming the end keeps a first character that is not white space. *)
Lemma trimStart_trimEnd_fixed s :
  trimStart s = s → trimStart (trimEnd s) = trimEnd s.
Proof.
  intros Hfix. destruct (trimEnd s) as [| c r] eqn:E; [reflexivity |].
  apply trimStart_fixed.
  destruct (trimEnd_split s) as (post & Hs & _). rewrite E in Hs.
  rewrite Hs in Hfix. simpl in Hfix.
  destruct (is_whitespace c) eqn:Hc; [| reflexivity].
  exfalso. pose proof (length_trimStart (r ++ post)) as Hlen.
  rewrite Hfix in Hlen. simpl in Hlen. lia.
Qed.

Lemma trim_idemp s : trim (trim s) = trim s.
Proof.
  unfold trim.
  rewrite (trimStart_trimEnd_fixed _ (trimStart_idemp s)).
  apply trimEnd_idemp.
Qed.

(** [trim] leaves a string alone exactly when neither end is white space. *)
Lemma trim_split s : ∃ pre post, s = pre ++ trim s ++ post ∧ blank pre ∧ blank post.
Proof.
  destruct (trimStart_split s) as (pre & Hs & Hpre).
  destruct (trimEnd_split (trimStart s)) as (post & Ht & Hpost).
  exists pre, post. unfold trim. by rewrite <- Ht.
Qed.

End TrimMore.

(** ** The task form, continued *)

(** X1.  Whatever the task form hands to [onSubmit] already meets the
    limits the validation is about: the title has between 1 and 500 code
    units and no white space at either end; the description is [null] or has
    between 1 and 5000 code units and no white space at either end. *)
Theorem task_form_payload_bounds (onSubmit : TaskData → settled unit)
    (st : TaskForm.state) (data : TaskData) :
  data ∈ (TaskForm.handleSubmit onSubmit st).2 →
  1 ≤ length (data_title data) ≤ 500 ∧
  trim (data_title data) = data_title data ∧
  match data_description data with
  | None => True
  | Some d => 1 ≤ length d ≤ 5000 ∧ trim d = d
  end.
Proof.
  intros [-> Hvalid]%handleSubmit_calls. unfold invalid in Hvalid.
  unfold payload; simpl. split; [| split].
  - pose proof (length_trim (TaskForm.title st)) as Hl.
    assert (Hne : trim (TaskForm.title st) ≠ []) by (rewrite trim_nil; tauto).
    destruct (trim (TaskForm.title st)); [done | simpl in *; lia].
  - apply trim_idemp.
  - pose proof (length_trim (TaskForm.description st)) as Hl.
    pose proof (trim_idemp (TaskForm.description st)) as Hi.
    destruct (trim (TaskForm.description st)) as [| c r]; [done |].
    split; [simpl in *; lia | exact Hi].
Qed.

Lemma task_form_payload_bounds_witness :
  1 ≤ length (lit "buy milk") ≤ 500 ∧ trim (lit "buy milk") = lit "buy milk".
Proof.
  destruct (task_form_payload_bounds SampleForm.always_saved
              (SampleForm.form (lit "  buy milk ") (lit "   "))
              (mkTaskData (lit "buy milk") None)) as (Hl & Ht & _).
  - vm_compute. apply list_elem_of_here.
  - split; [exact Hl | exact Ht].
Defined.

(** X2.  Opening the form on a task and submitting it untouched sends the
    task's own title and description back, provided they are what the form
    could have sent in the first place: a title of 1 to 500 code units
    without white space at its ends, and a description that is [null] or
    non-empty, at most 5000 code units long and without white space at its
    ends. *)
Theorem task_form_edit_round_trip (onSubmit : TaskData → settled unit)
    (st : TaskForm.state) (t : Task) :
  title t ≠ [] → length (title t) ≤ 500 → trim (title t) = title t →
  (∀ d, description t = Some d →
     d ≠ [] ∧ length d ≤ 5000 ∧ trim d = d) →
  (TaskForm.handleSubmit onSubmit (TaskFormEffect.populate (Some t) st)).2
  = [mkTaskData (title t) (description t)].
Proof.
  intros Hne Hlen Htrim Hdesc.
  set (form := TaskFormEffect.populate (Some t) st).
  assert (Htitle : TaskForm.title form = title t) by reflexivity.
  assert (Hd : TaskForm.description form
               = match description t with Some d => d | None => [] end).
  { unfold form; simpl. destruct (description t) as [d |]; [| done].
    by destruct d. }
  rewrite handleSubmit_accepts.
  - unfold payload. rewrite Htitle, Hd, Htrim. f_equal. f_equal.
    destruct (description t) as [d |] eqn:E; [| reflexivity].
    destruct (Hdesc d eq_refl) as (Hdne & _ & Hdt). rewrite Hdt.
    by destruct d.
  - unfold invalid. rewrite Htitle, Hd. intros [Hb | [Hl | Hl]].
    + apply trim_nil in Hb. congruence.
    + lia.
    + destruct (description t) as [d |]; [| simpl in Hl; lia].
      destruct (Hdesc d eq_refl) as (_ & Hdl & _). lia.
Qed.

Lemma task_form_edit_round_trip_witness :
  (TaskForm.handleSubmit SampleForm.always_saved
     (TaskFormEffect.populate (Some SampleMore.dentist)
        (SampleForm.form [] []))).2
  = [mkTaskData (lit "dentist") (Some (lit "bring the x-ray"))].
Proof.
  apply (task_form_edit_round_trip SampleForm.always_saved
           (SampleForm.form [] []) SampleMore.dentist).
  - discriminate.
  - apply (bool_decide_unpack _). vm_compute. exact I.
  - reflexivity.
  - intros d [= <-]. split; [discriminate |]. split; [| reflexivity].
    apply (bool_decide_unpack _). vm_compute. exact I.
Defined.

(** ** The dashboard, continued *)

Section DashboardMore.
Variable svc : Dashboard.services.
Implicit Types (rendered now page : Dashboard.state) (form : TaskForm.state).

(** A create or an update that fails leaves the page as it is. *)
Lemma onSubmit_rejected rendered data now page' calls err :
  Dashboard.onSubmit svc rendered data now = (page', calls, Rejected err) →
  page' = now.
Proof.
  unfold Dashboard.onSubmit, Dashboard.handleUpdateTask,
    Dashboard.handleCreateTask.
  destruct (Dashboard.editingTask rendered) as [editing |].
  - destruct (Dashboard.updateTask svc _ _); intros [= <- _ _]; reflexivity.
  - destruct (Dashboard.createTask svc _); intros [= <- _ _]; reflexivity.
Qed.

Lemma submit_form_invalid form rendered now :
  invalid form →
  DashboardPage.submit_form svc form rendered now
  = ((TaskForm.handleSubmit
        (λ data, (Dashboard.onSubmit svc rendered data now).2) form).1,
     now, []).
Proof.
  intros Hi. unfold DashboardPage.submit_form.
  pose proof (handleSubmit_rejects
                (λ data, (Dashboard.onSubmit svc rendered data now).2) form Hi)
    as [Hcalls _].
  destruct (TaskForm.handleSubmit _ form) as [form' submitted].
  simpl in Hcalls. by rewrite Hcalls.
Qed.

Lemma submit_form_valid form rendered now :
  ¬ invalid form →
  DashboardPage.submit_form svc form rendered now
  = let '(page', calls, r) :=
      Dashboard.onSubmit svc rendered (payload form) now in
    (match r with
     | Resolved _ =>
         TaskForm.mkState [] [] false [] (TaskForm.mounted form)
     | Rejected err =>
         TaskForm.mkState (TaskForm.title form) (TaskForm.description form)
           false (message_or err (lit "Failed to save task"))
           (TaskForm.mounted form)
     end, page', calls).
Proof.
  intros Hv. unfold DashboardPage.submit_form.
  pose proof (handleSubmit_accepts
                (λ data, (Dashboard.onSubmit svc rendered data now).2) form Hv)
    as Hcalls.
  assert (Hstate :
    (TaskForm.handleSubmit
       (λ data, (Dashboard.onSubmit svc rendered data now).2) form).1
    = match (Dashboard.onSubmit svc rendered (payload form) now).2 with
      | Resolved _ => TaskForm.mkState [] [] false [] (TaskForm.mounted form)
      | Rejected err =>
          TaskForm.mkState (TaskForm.title form) (TaskForm.description form)
            false (message_or err (lit "Failed to save task"))
            (TaskForm.mounted form)
      end).
  { unfold TaskForm.handleSubmit. unfold invalid in Hv.
    assert (Ht : truthy_string (trim (TaskForm.title form)) = true).
    { apply truthy_trim. tauto. }
    rewrite Ht; simpl. rewrite !bool_decide_eq_false_2 by lia.
    assert (Hp : {| data_title := trim (TaskForm.title form);
                    data_description :=
                      if truthy_string (trim (TaskForm.description form))
                      then Some (trim (TaskForm.description form)) else None |}
                 = payload form).
    { unfold payload. by destruct (trim (TaskForm.description form)). }
    rewrite Hp.
    by destruct ((Dashboard.onSubmit svc rendered (payload form) now).2). }
  destruct (TaskForm.handleSubmit _ form) as [form' submitted].
  simpl in Hcalls, Hstate. rewrite Hcalls, Hstate.
  by destruct (Dashboard.onSubmit svc rendered (payload form) now)
    as [[page' calls] r].
Qed.

End DashboardMore.

(** X3.  The task form inside the dashboard.  The form is submitted on the
    page as it is on screen, [rendered]; the page is in the state [now] when
    the server has answered.  An invalid form reaches no service and leaves
    the page alone.  A valid form with no task being edited on screen
    creates one: when the server returns the task, the list becomes that
    task followed by the list that was on screen, the form is closed and its
    fields are emptied; when the server fails, the page is left as it is,
    the fields keep the user's text and the form shows the failure's
    message.  A valid form with a task being edited on screen updates that
    task, by its id: in the list that was on screen, the entries with the id
    of the returned task are replaced by it. *)
Theorem dashboard_form_submit (svc : Dashboard.services)
    (form : TaskForm.state) (rendered now : Dashboard.state) :
  let '(form', page', calls) :=
    DashboardPage.submit_form svc form rendered now in
  (invalid form → calls = [] ∧ page' = now)
  ∧ (¬ invalid form → Dashboard.editingTask rendered = None →
     calls = [Dashboard.CreateTask (payload form)] ∧
     (∀ newTask,
        Dashboard.createTask svc (payload form) = Resolved newTask →
        Dashboard.tasks page' = newTask :: Dashboard.tasks rendered ∧
        Dashboard.showForm page' = false ∧
        Dashboard.editingTask page' = Dashboard.editingTask now ∧
        TaskForm.title form' = [] ∧ TaskForm.description form' = [] ∧
        TaskForm.error_box form' = None) ∧
     (∀ err,
        Dashboard.createTask svc (payload form) = Rejected err →
        page' = now ∧
        TaskForm.title form' = TaskForm.title form ∧
        TaskForm.description form' = TaskForm.description form ∧
        TaskForm.error form' = message_or err (lit "Failed to save task") ∧
        TaskForm.loading form' = false))
  ∧ (∀ editing, ¬ invalid form → Dashboard.editingTask rendered = Some editing →
     calls = [Dashboard.UpdateTask (id editing) (payload form)] ∧
     (∀ updatedTask,
        Dashboard.updateTask svc (id editing) (payload form)
        = Resolved updatedTask →
        replaced_by_id updatedTask (Dashboard.tasks rendered)
          (Dashboard.tasks page') ∧
        Dashboard.editingTask page' = None ∧
        Dashboard.showForm page' = false ∧
        TaskForm.title form' = [] ∧ TaskForm.description form' = []) ∧
     (∀ err,
        Dashboard.updateTask svc (id editing) (payload form) = Rejected err →
        page' = now ∧
        TaskForm.error form' = message_or err (lit "Failed to save task"))).
Proof.
  destruct (decide (invalid form)) as [Hi | Hv].
  - rewrite (submit_form_invalid svc form rendered now Hi).
    split; [done |]. split; [done | by intros].
  - rewrite (submit_form_valid svc form rendered now Hv).
    unfold Dashboard.onSubmit, Dashboard.handleCreateTask,
      Dashboard.handleUpdateTask.
    destruct (Dashboard.editingTask rendered) as [editing |] eqn:He.
    + destruct (Dashboard.updateTask svc (id editing) (payload form))
        as [updatedTask | err] eqn:Hu.
      * split; [done |]. split; [done |]. intros e _ He'.
        assert (e = editing) as -> by congruence.
        split; [reflexivity |]. split.
        -- intros u Hu'.
           assert (u = updatedTask) as -> by congruence. simpl.
           split; [apply map_replaces | done].
        -- intros err Hu'. congruence.
      * split; [done |]. split; [done |]. intros e _ He'.
        assert (e = editing) as -> by congruence.
        split; [reflexivity |]. split.
        -- intros u Hu'. congruence.
        -- intros e' Hu'. assert (e' = err) as -> by congruence. done.
    + destruct (Dashboard.createTask svc (payload form)) as [newTask | err]
        eqn:Hc.
      * split; [done |]. split; [| done]. intros _ _.
        split; [reflexivity |]. split.
        -- intros t Ht. assert (t = newTask) as -> by congruence. done.
        -- intros e He'. congruence.
      * split; [done |]. split; [| done]. intros _ _.
        split; [reflexivity |]. split.
        -- intros t Ht. congruence.
        -- intros e He'. assert (e = err) as -> by congruence. done.
Qed.

Lemma dashboard_form_submit_witness :
  DashboardPage.submit_form (SampleDashboard.backend SampleTasks.call)
    (SampleForm.form (lit "   ") [])
    (SampleDashboard.page [SampleTasks.milk])
    (SampleDashboard.page [SampleTasks.milk])
  = (TaskForm.mkState (lit "   ") [] false (lit "Title is required") true,
     SampleDashboard.page [SampleTasks.milk], [])
  ∧ Dashboard.tasks
      (DashboardPage.submit_form (SampleDashboard.backend SampleTasks.call)
         (SampleForm.form (lit " call ") [])
         (SampleDashboard.page [SampleTasks.milk])
         (SampleDashboard.page [SampleTasks.milk; SampleTasks.rent])).1.2
    = [SampleTasks.call; SampleTasks.milk]
  ∧ (DashboardPage.submit_form SampleMore.down
       (SampleForm.form (lit " call ") [])
       (SampleDashboard.page [SampleTasks.milk])
       (SampleDashboard.page [SampleTasks.milk; SampleTasks.rent])).1.2
    = SampleDashboard.page [SampleTasks.milk; SampleTasks.rent]
  ∧ Dashboard.editingTask
      (DashboardPage.submit_form (SampleDashboard.backend SampleTasks.oat)
         (SampleForm.form (lit "oat milk") [])
         (SampleDashboard.editing [SampleTasks.milk] SampleTasks.milk)
         (SampleDashboard.editing [SampleTasks.milk] SampleTasks.milk)).1.2
    = None.
Proof.
  split; [| split; [| split]].
  - pose proof (dashboard_form_submit (SampleDashboard.backend SampleTasks.call)
                  (SampleForm.form (lit "   ") [])
                  (SampleDashboard.page [SampleTasks.milk])
                  (SampleDashboard.page [SampleTasks.milk])) as H.
    destruct (DashboardPage.submit_form _ _ _ _) as [[form' page'] calls] eqn:E.
    destruct H as (Hinv & _ & _).
    destruct Hinv as [-> ->].
    { left. apply (bool_decide_unpack _). vm_compute. exact I. }
    vm_compute in E. by injection E as <-.
  - pose proof (dashboard_form_submit (SampleDashboard.backend SampleTasks.call)
                  (SampleForm.form (lit " call ") [])
                  (SampleDashboard.page [SampleTasks.milk])
                  (SampleDashboard.page [SampleTasks.milk; SampleTasks.rent]))
      as H.
    destruct (DashboardPage.submit_form _ _ _ _) as [[form' page'] calls].
    destruct H as (_ & Hcreate & _).
    destruct Hcreate as (_ & Hok & _).
    { apply (bool_decide_unpack _). vm_compute. exact I. }
    { reflexivity. }
    exact (proj1 (Hok SampleTasks.call eq_refl)).
  - pose proof (dashboard_form_submit SampleMore.down
                  (SampleForm.form (lit " call ") [])
                  (SampleDashboard.page [SampleTasks.milk])
                  (SampleDashboard.page [SampleTasks.milk; SampleTasks.rent]))
      as H.
    destruct (DashboardPage.submit_form _ _ _ _) as [[form' page'] calls].
    destruct H as (_ & Hcreate & _).
    destruct Hcreate as (_ & _ & Hfail).
    { apply (bool_decide_unpack _). vm_compute. exact I. }
    { reflexivity. }
    exact (proj1 (Hfail (Error (lit "Failed to fetch")) eq_refl)).
  - pose proof (dashboard_form_submit (SampleDashboard.backend SampleTasks.oat)
                  (SampleForm.form (lit "oat milk") [])
                  (SampleDashboard.editing [SampleTasks.milk] SampleTasks.milk)
                  (SampleDashboard.editing [SampleTasks.milk] SampleTasks.milk))
      as H.
    destruct (DashboardPage.submit_form _ _ _ _) as [[form' page'] calls].
    destruct H as (_ & _ & Hupdate).
    destruct (Hupdate SampleTasks.milk) as (_ & Hok & _).
    { apply (bool_decide_unpack _). vm_compute. exact I. }
    { reflexivity. }
    exact (proj1 (proj2 (Hok SampleTasks.oat eq_refl))).
Defined.

(** X4.  What the dashboard does when the server fails.  A toggle or a
    delete that fails leaves the task list as it is, puts the failure's
    message in the page's error banner, and the handler still resolves: the
    task item never sees a rejection.  Loading the tasks resolves too: on
    failure the list is kept and the banner set, on success the list is the
    fetched one and the banner is cleared; either way the page is no longer
    loading.  A create or an update that fails changes nothing on the page
    and passes the error on to the form.  In each case [page] is the state
    the failure meets, and [rendered] the render the handler belongs to. *)
Theorem dashboard_failures (svc : Dashboard.services)
    (rendered page : Dashboard.state) :
  (∀ taskId,
     let '(page', _, r) :=
       Dashboard.handleToggleComplete svc rendered taskId page in
     r = Resolved tt ∧
     ∀ err, Dashboard.toggleComplete svc taskId = Rejected err →
       Dashboard.tasks page' = Dashboard.tasks page ∧
       Dashboard.error page' = message_or err (lit "Failed to update task"))
  ∧ (∀ taskId,
       let '(page', _, r) :=
         Dashboard.handleDeleteTask svc rendered taskId page in
       r = Resolved tt ∧
       ∀ err, Dashboard.deleteTask svc taskId = Rejected err →
         Dashboard.tasks page' = Dashboard.tasks page ∧
         Dashboard.error page' = message_or err (lit "Failed to delete task"))
  ∧ (let '(page', calls, r) := Dashboard.loadTasks svc page in
     r = Resolved tt ∧ calls = [Dashboard.GetTasks] ∧
     Dashboard.loading page' = false ∧
     (∀ err, Dashboard.getTasks svc = Rejected err →
        Dashboard.tasks page' = Dashboard.tasks page ∧
        Dashboard.error page' = message_or err (lit "Failed to load tasks")) ∧
     (∀ fetched, Dashboard.getTasks svc = Resolved fetched →
        Dashboard.tasks page' = fetched ∧ Dashboard.error page' = []))
  ∧ (∀ data err,
       (Dashboard.handleCreateTask svc rendered data page).2 = Rejected err →
       (Dashboard.handleCreateTask svc rendered data page).1.1 = page ∧
       Dashboard.createTask svc data = Rejected err)
  ∧ (∀ data err,
       (Dashboard.handleUpdateTask svc rendered data page).2 = Rejected err →
       (Dashboard.handleUpdateTask svc rendered data page).1.1 = page ∧
       ∃ editing, Dashboard.editingTask rendered = Some editing ∧
         Dashboard.updateTask svc (id editing) data = Rejected err).
Proof.
  split; [| split; [| split; [| split]]].
  - intros taskId. unfold Dashboard.handleToggleComplete.
    destruct (Dashboard.toggleComplete svc taskId) as [u | e];
      (split; [reflexivity |]); intros err Herr.
    + discriminate Herr.
    + injection Herr as <-. split; reflexivity.
  - intros taskId. unfold Dashboard.handleDeleteTask.
    destruct (Dashboard.deleteTask svc taskId) as [u | e];
      (split; [reflexivity |]); intros err Herr.
    + discriminate Herr.
    + injection Herr as <-. split; reflexivity.
  - unfold Dashboard.loadTasks, Dashboard.loadTasks_settle.
    destruct (Dashboard.getTasks svc) as [l | e]; simpl;
      (split; [reflexivity |]); (split; [reflexivity |]);
      (split; [reflexivity |]); split; intros x Hx;
      try discriminate Hx; injection Hx as <-; split; reflexivity.
  - intros data err. unfold Dashboard.handleCreateTask.
    destruct (Dashboard.createTask svc data); simpl; [discriminate |].
    by intros [= <-].
  - intros data err. unfold Dashboard.handleUpdateTask.
    destruct (Dashboard.editingTask rendered) as [editing |]; [| discriminate].
    destruct (Dashboard.updateTask svc (id editing) data) eqn:Hu; simpl;
      [discriminate |].
    intros [= <-]. split; [reflexivity |]. by exists editing.
Qed.

Lemma dashboard_failures_witness :
  Dashboard.tasks
    (Dashboard.handleDeleteTask SampleMore.down
       (SampleDashboard.page [SampleTasks.milk]) 1
       (SampleDashboard.page [SampleTasks.milk])).1.1
  = [SampleTasks.milk]
  ∧ Dashboard.error
      (Dashboard.handleToggleComplete SampleMore.down
         (SampleDashboard.page [SampleTasks.milk]) 1
         (SampleDashboard.page [SampleTasks.milk])).1.1
    = lit "Failed to fetch"
  ∧ Dashboard.tasks
      (Dashboard.loadTasks SampleMore.down
         (SampleDashboard.page [SampleTasks.milk])).1.1
    = [SampleTasks.milk]
  ∧ (Dashboard.handleCreateTask SampleMore.down
       (SampleDashboard.page [SampleTasks.milk]) (mkTaskData (lit "call") None)
       (SampleDashboard.page [SampleTasks.milk])).1.1
    = SampleDashboard.page [SampleTasks.milk]
  ∧ (Dashboard.handleUpdateTask SampleMore.down
       (SampleDashboard.editing [SampleTasks.milk] SampleTasks.milk)
       (mkTaskData (lit "call") None)
       (SampleDashboard.editing [SampleTasks.milk] SampleTasks.milk)).1.1
    = SampleDashboard.editing [SampleTasks.milk] SampleTasks.milk.
Proof.
  pose proof (dashboard_failures SampleMore.down
                (SampleDashboard.page [SampleTasks.milk])
                (SampleDashboard.page [SampleTasks.milk]))
    as (Htoggle & Hdelete & Hload & Hcreate & _).
  pose proof (dashboard_failures SampleMore.down
                (SampleDashboard.editing [SampleTasks.milk] SampleTasks.milk)
                (SampleDashboard.editing [SampleTasks.milk] SampleTasks.milk))
    as (_ & _ & _ & _ & Hupdate).
  split; [| split; [| split; [| split]]].
  - specialize (Hdelete 1%Z).
    destruct (Dashboard.handleDeleteTask _ _ _ _) as [[page' calls] r].
    exact (proj1 (proj2 Hdelete (Error (lit "Failed to fetch")) eq_refl)).
  - specialize (Htoggle 1%Z).
    destruct (Dashboard.handleToggleComplete _ _ _ _) as [[page' calls] r].
    exact (proj2 (proj2 Htoggle (Error (lit "Failed to fetch")) eq_refl)).
  - destruct (Dashboard.loadTasks _ _) as [[page' calls] r].
    destruct Hload as (_ & _ & _ & Hfail & _).
    exact (proj1 (Hfail (Error (lit "Failed to fetch")) eq_refl)).
  - exact (proj1 (Hcreate (mkTaskData (lit "call") None)
                    (Error (lit "Failed to fetch")) eq_refl)).
  - exact (proj1 (Hupdate (mkTaskData (lit "call") None)
                    (Error (lit "Failed to fetch")) eq_refl)).
Defined.

(** X5.  The numbers on the dashboard agree.  Once loading is over, the task
    list shows its empty state exactly when the page counts no task (and
    then the summary reads "No tasks yet!"); otherwise the badges of the
    groups add up to the total of the summary, the badge of "Completed
    Tasks" is the summary's completed count and the badge of "Active Tasks"
    is the rest.  The completed count never exceeds the total. *)
Theorem dashboard_counts_agree (page : Dashboard.state) :
  Dashboard.loading page = false →
  DashboardPage.completedCount page ≤ DashboardPage.totalCount page ∧
  (DashboardPage.task_list page = TaskList.EmptyState
   ↔ DashboardPage.totalCount page = 0) ∧
  (DashboardPage.totalCount page = 0 →
   DashboardPage.summary page = lit "No tasks yet!") ∧
  ∀ groups, DashboardPage.task_list page = TaskList.Groups groups →
    sum_list (TaskList.badge <$> groups) = DashboardPage.totalCount page ∧
    ∀ g, g ∈ groups →
      (TaskList.heading g = lit "Completed Tasks" →
       TaskList.badge g = DashboardPage.completedCount page) ∧
      (TaskList.heading g = lit "Active Tasks" →
       TaskList.badge g
       = DashboardPage.totalCount page - DashboardPage.completedCount page).
Proof.
  intros Hl.
  unfold DashboardPage.task_list, DashboardPage.totalCount,
    DashboardPage.completedCount, DashboardPage.summary, TaskList.TaskList.
  rewrite Hl. set (tasks := Dashboard.tasks page).
  pose proof (partition_permutation tasks) as Hperm.
  apply Permutation_length in Hperm. rewrite length_app in Hperm.
  rewrite <- completed_filter in Hperm.
  split; [lia |]. split; [| split].
  - case_bool_decide; [done |]. split; [discriminate | done].
  - intros H0. unfold DashboardPage.totalCount. fold tasks.
    by rewrite bool_decide_eq_true_2.
  - intros groups. case_bool_decide as Hn; [discriminate |].
    rewrite incomplete_filter, !when_nonempty. intros [= <-].
    set (active := filter (λ t, completed t = false) tasks) in *.
    set (finished := filter (λ task : Task, completed task) tasks) in *.
    split.
    + destruct (decide (active = [])) as [Ha | Ha],
        (decide (finished = [])) as [Hf | Hf]; simpl;
        rewrite ?Ha, ?Hf in *; simpl in *; lia.
    + intros g Hg. apply elem_of_app in Hg.
      destruct Hg as [Hg | Hg];
        [destruct (decide (active = [])) | destruct (decide (finished = []))];
        try (by apply elem_of_nil in Hg);
        apply list_elem_of_singleton in Hg; subst g; simpl;
        split; intros H; try (vm_compute in H; discriminate H); lia.
Qed.

Lemma dashboard_counts_agree_witness :
  DashboardPage.completedCount
    (SampleDashboard.page [SampleTasks.milk; SampleTasks.rent; SampleTasks.call])
  ≤ 3
  ∧ DashboardPage.summary
      (SampleDashboard.page [SampleTasks.milk; SampleTasks.rent;
                             SampleTasks.call])
    = lit "1 of 3 tasks completed".
Proof.
  split.
  - apply (dashboard_counts_agree
             (SampleDashboard.page [SampleTasks.milk; SampleTasks.rent;
                                    SampleTasks.call])).
    reflexivity.
  - vm_compute. reflexivity.
Defined.

(** ** Token storage and signing out *)

(** X6.  In a browser, storing a token and reading it back gives that
    token, removing it leaves none, and neither touches another key of
    [localStorage].  Without a [window] (on the server) there is never a
    token and storing one does nothing. *)
Theorem token_storage_round_trip (localStorage : gmap (list N) (list N))
    (token : list N) :
  Auth.tokenStorage_getToken
    (Auth.tokenStorage_setToken token (Some localStorage)) = Some token
  ∧ Auth.tokenStorage_getToken
      (Auth.tokenStorage_removeToken (Some localStorage)) = None
  ∧ (∀ key, key ≠ lit "auth_token" →
       ∃ stored cleared,
         Auth.tokenStorage_setToken token (Some localStorage) = Some stored ∧
         Auth.tokenStorage_removeToken (Some localStorage) = Some cleared ∧
         stored !! key = localStorage !! key ∧
         cleared !! key = localStorage !! key)
  ∧ Auth.tokenStorage_setToken token None = None
  ∧ Auth.tokenStorage_getToken None = None
  ∧ Auth.tokenStorage_getToken (Auth.tokenStorage_setToken token None) = None.
Proof.
  split; [apply lookup_insert_eq |]. split; [apply lookup_delete_eq |].
  split; [| done].
  intros key Hkey. eexists _, _. split; [reflexivity |]. split; [reflexivity |].
  split; [by apply lookup_insert_ne | by apply lookup_delete_ne].
Qed.

Lemma token_storage_round_trip_witness :
  ∃ stored,
    Auth.tokenStorage_setToken (lit "xyz") (Some SampleAuth.signed_in)
    = Some stored ∧
    stored !! lit "theme" = Some (lit "dark").
Proof.
  destruct (proj1 (proj2 (proj2 (token_storage_round_trip SampleAuth.signed_in
                                   (lit "xyz")))) (lit "theme"))
    as (stored & cleared & Hs & _ & Hk & _).
  - vm_compute. discriminate.
  - exists stored. split; [exact Hs |]. rewrite Hk. vm_compute. reflexivity.
Defined.

(** X7.  Signing out removes the token and the user and nothing else: no
    token can be read afterwards, the user is not authenticated, the current
    user is [null] whatever the stored text was, and every other key of
    [localStorage] is as before.  The chat page then goes to the sign-in
    page and the dashboard to the landing page. *)
Theorem signout_clears_session (JSON_parse : list N → settled json)
    (w : Auth.browser) :
  Auth.getToken (Auth.signout w) = None ∧
  Auth.isAuthenticated (Auth.signout w) = false ∧
  AuthService.getCurrentUser JSON_parse (Auth.signout w) = Resolved JNull ∧
  (∀ localStorage, w = Some localStorage →
     ∃ cleared, Auth.signout w = Some cleared ∧
       ∀ key, key ≠ lit "auth_token" → key ≠ lit "auth_user" →
         cleared !! key = localStorage !! key) ∧
  ChatHistory.handleSignOut w = (Auth.signout w, lit "/signin") ∧
  DashboardPage.handleSignout w = (Auth.signout w, lit "/").
Proof.
  assert (Htoken : Auth.getToken (Auth.signout w) = None).
  { destruct w as [localStorage |]; [| reflexivity]. simpl.
    rewrite lookup_delete_ne by (vm_compute; discriminate).
    apply lookup_delete_eq. }
  split; [exact Htoken |]. split.
  { unfold Auth.isAuthenticated. by rewrite Htoken. }
  split.
  { destruct w as [localStorage |]; [| reflexivity]. simpl.
    by rewrite lookup_delete_eq. }
  split; [| done].
  intros localStorage ->. eexists. split; [reflexivity |].
  intros key Ht Hu. rewrite lookup_delete_ne by done.
  by apply lookup_delete_ne.
Qed.

Lemma signout_clears_session_witness :
  ∃ cleared,
    Auth.signout (Some SampleAuth.signed_in) = Some cleared ∧
    cleared !! lit "theme" = Some (lit "dark").
Proof.
  destruct (proj1 (proj2 (proj2 (proj2 (signout_clears_session SampleAuth.parse
                                          (Some SampleAuth.signed_in)))))
              SampleAuth.signed_in eq_refl) as (cleared & Hs & Hk).
  exists cleared. split; [exact Hs |].
  rewrite Hk; [vm_compute; reflexivity | vm_compute; discriminate
              | vm_compute; discriminate].
Defined.

(** ** The HTTP client, continued *)

Section ApiClientMore.
Variable baseUrl : list N.
Variable fetch : ApiClient.FetchCall → settled ApiClient.Response.
Variable null_read_message : list N → list N.
Variable conversion_message : list N.

(** A response in 200..299 other than 204: the parsed body, as it is. *)
Lemma request_ok endpoint options r :
  fetch (ApiClient.fetch_call baseUrl endpoint options) = Resolved r →
  ApiClient.ok r = true → ApiClient.status r ≠ 204%N →
  ApiClient.request baseUrl fetch null_read_message conversion_message endpoint
    options
  = match ApiClient.parsed r with
    | Resolved data => Resolved data
    | Rejected e => ApiClient.rethrow e
    end.
Proof.
  intros Hf Hok Hs. unfold ApiClient.request. rewrite Hf.
  rewrite bool_decide_eq_false_2 by done. by rewrite Hok.
Qed.

(** The [catch] clause of a service never has to fall back: what the client
    throws is an [Error] already. *)
Lemma service_catch_request fallback endpoint options :
  service_catch fallback
    (ApiClient.request baseUrl fetch null_read_message conversion_message
       endpoint options)
  = ApiClient.request baseUrl fetch null_read_message conversion_message
      endpoint options.
Proof.
  destruct (ApiClient.request _ _ _ _ _ _) as [data | e] eqn:E; [reflexivity |].
  destruct (request_throws_Error _ _ _ _ _ _ _ E) as [m ->]. reflexivity.
Qed.

Lemma service_catch_request_then {B} fallback endpoint options
    (k : json → settled B) :
  (∀ data, ∃ b, k data = Resolved b) →
  service_catch fallback
    (and_then (ApiClient.request baseUrl fetch null_read_message
        conversion_message endpoint options)
       k)
  = and_then (ApiClient.request baseUrl fetch null_read_message
      conversion_message endpoint options)
      k.
Proof.
  intros Hk.
  destruct (ApiClient.request _ _ _ _ _ _) as [data | e] eqn:E; simpl.
  - destruct (Hk data) as [b ->]. reflexivity.
  - destruct (request_throws_Error _ _ _ _ _ _ _ E) as [m ->]. reflexivity.
Qed.

End ApiClientMore.

(** X8.  How a request can end.  If [fetch] itself fails, [request] throws
    that error, or "An unexpected error occurred" when what was thrown is not
    an [Error].  A response in 200..299 other than 204 resolves to its parsed
    body, unchanged; if that body is not JSON the request fails with the
    parser's error, although the server reported success.  Whatever happens,
    what [request] throws is an [Error]. *)
Theorem request_outcomes (baseUrl : list N)
    (fetch : ApiClient.FetchCall → settled ApiClient.Response)
    (null_read_message : list N → list N) (conversion_message : list N)
    (endpoint : list N) (options : ApiClient.RequestOptions) :
  let call := ApiClient.fetch_call baseUrl endpoint options in
  let result :=
    ApiClient.request baseUrl fetch null_read_message conversion_message
      endpoint options in
  (∀ m, fetch call = Rejected (Error m) → result = Rejected (Error m))
  ∧ (fetch call = Rejected NonError →
     result = Rejected (Error (lit "An unexpected error occurred")))
  ∧ (∀ r data, fetch call = Resolved r → ApiClient.ok r = true →
       ApiClient.status r ≠ 204%N → ApiClient.parsed r = Resolved data →
       result = Resolved data)
  ∧ (∀ r m, fetch call = Resolved r → ApiClient.ok r = true →
       ApiClient.status r ≠ 204%N → ApiClient.parsed r = Rejected (Error m) →
       result = Rejected (Error m))
  ∧ (∀ e, result = Rejected e → ∃ m, e = Error m).
Proof.
  intros call result. split; [| split; [| split; [| split]]].
  - intros m Hf. unfold result, ApiClient.request. fold call. by rewrite Hf.
  - intros Hf. unfold result, ApiClient.request. fold call. by rewrite Hf.
  - intros r data Hf Hok Hs Hp. unfold result.
    rewrite (request_ok _ _ _ _ _ _ r Hf Hok Hs). by rewrite Hp.
  - intros r m Hf Hok Hs Hp. unfold result.
    rewrite (request_ok _ _ _ _ _ _ r Hf Hok Hs). by rewrite Hp.
  - intros e. apply request_throws_Error.
Qed.

Lemma request_outcomes_witness :
  ApiClient.request SampleHttp.base (λ _, Rejected (Error (lit "Failed to fetch")))
    SampleHttp.no_null_read SampleHttp.no_conversion (lit "/api/tasks")
      (SampleHttp.with_token "abc")
  = Rejected (Error (lit "Failed to fetch"))
  ∧ ApiClient.request SampleHttp.base (λ _, Rejected NonError)
      SampleHttp.no_null_read SampleHttp.no_conversion (lit "/api/tasks")
        (SampleHttp.with_token "abc")
    = Rejected (Error (lit "An unexpected error occurred"))
  ∧ ApiClient.request SampleHttp.base
      (SampleHttp.server 200 (Resolved (JArr [])))
      SampleHttp.no_null_read SampleHttp.no_conversion (lit "/api/tasks")
        (SampleHttp.with_token "abc")
    = Resolved (JArr [])
  ∧ ApiClient.request SampleHttp.base
      (SampleHttp.server 200 (Rejected (Error (lit "Unexpected end of JSON input"))))
      SampleHttp.no_null_read SampleHttp.no_conversion (lit "/api/tasks/7")
        (SampleHttp.with_token "abc")
    = Rejected (Error (lit "Unexpected end of JSON input"))
  ∧ ∃ m, Error (lit "Failed to fetch") = Error m.
Proof.
  split; [| split; [| split; [| split]]].
  - apply (proj1 (request_outcomes SampleHttp.base
                    (λ _, Rejected (Error (lit "Failed to fetch")))
                    SampleHttp.no_null_read SampleHttp.no_conversion
                    (lit "/api/tasks")
                    (SampleHttp.with_token "abc"))).
    reflexivity.
  - apply (proj1 (proj2 (request_outcomes SampleHttp.base
                    (λ _, Rejected NonError)
                    SampleHttp.no_null_read SampleHttp.no_conversion
                    (lit "/api/tasks")
                    (SampleHttp.with_token "abc")))).
    reflexivity.
  - apply (proj1 (proj2 (proj2 (request_outcomes SampleHttp.base
                    (SampleHttp.server 200 (Resolved (JArr [])))
                    SampleHttp.no_null_read SampleHttp.no_conversion
                    (lit "/api/tasks")
                    (SampleHttp.with_token "abc"))))
             (ApiClient.mkResponse 200 (Resolved (JArr [])))).
    + reflexivity.
    + reflexivity.
    + discriminate.
    + reflexivity.
  - apply (proj1 (proj2 (proj2 (proj2 (request_outcomes SampleHttp.base
                    (SampleHttp.server 200
                       (Rejected (Error (lit "Unexpected end of JSON input"))))
                    SampleHttp.no_null_read SampleHttp.no_conversion
                    (lit "/api/tasks/7")
                    (SampleHttp.with_token "abc")))))
             (ApiClient.mkResponse 200
                (Rejected (Error (lit "Unexpected end of JSON input"))))).
    + reflexivity.
    + reflexivity.
    + discriminate.
    + reflexivity.
  - apply (proj2 (proj2 (proj2 (proj2 (request_outcomes SampleHttp.base
                    (λ _, Rejected (Error (lit "Failed to fetch")))
                    SampleHttp.no_null_read SampleHttp.no_conversion
                    (lit "/api/tasks")
                    (SampleHttp.with_token "abc")))))).
    vm_compute. reflexivity.
Defined.

(** X9.  What the client hands to [fetch].  The address is the base address
    followed by the endpoint; method and body are the caller's.  The header
    [Content-Type] is the caller's when the caller gave one and
    "application/json" otherwise; a truthy token sets [Authorization] and
    replaces one the caller gave; with no token or an empty one,
    [Authorization] is the caller's, if any; every other header is the
    caller's.  The five verbs give no headers, so their calls carry
    [Content-Type: application/json]. *)
Theorem fetch_call_shape (baseUrl endpoint : list N)
    (options : ApiClient.RequestOptions) :
  let call := ApiClient.fetch_call baseUrl endpoint options in
  ApiClient.url call = baseUrl ++ endpoint ∧
  ApiClient.init_method call = ApiClient.method options ∧
  ApiClient.init_body call = ApiClient.body options ∧
  ApiClient.init_headers call !! lit "Content-Type"
  = Some (default (lit "application/json")
            (ApiClient.headers options !! lit "Content-Type")) ∧
  (∀ t, ApiClient.token options = Some t → t ≠ [] →
     ApiClient.init_headers call !! lit "Authorization"
     = Some (lit "Bearer " ++ t)) ∧
  (ApiClient.token options = None ∨ ApiClient.token options = Some [] →
   ApiClient.init_headers call !! lit "Authorization"
   = ApiClient.headers options !! lit "Authorization") ∧
  (∀ key, key ≠ lit "Content-Type" → key ≠ lit "Authorization" →
     ApiClient.init_headers call !! key = ApiClient.headers options !! key) ∧
  (ApiClient.headers options = ∅ →
   ApiClient.init_headers call !! lit "Content-Type"
   = Some (lit "application/json")).
Proof.
  intros call.
  set (headers0 := ApiClient.headers options
                   ∪ {[lit "Content-Type" := lit "application/json"]}).
  assert (Hct : headers0 !! lit "Content-Type"
                = Some (default (lit "application/json")
                          (ApiClient.headers options !! lit "Content-Type"))).
  { unfold headers0.
    destruct (ApiClient.headers options !! lit "Content-Type") as [c |] eqn:Hc.
    - by apply lookup_union_Some_l.
    - rewrite lookup_union_r by done. apply lookup_singleton_eq. }
  assert (Hother : ∀ key, key ≠ lit "Content-Type" →
            headers0 !! key = ApiClient.headers options !! key).
  { intros key Hk. unfold headers0.
    destruct (ApiClient.headers options !! key) as [c |] eqn:Hc.
    - by apply lookup_union_Some_l.
    - apply lookup_union_None. split; [done |].
      by apply lookup_singleton_ne. }
  assert (Hneq : lit "Authorization" ≠ lit "Content-Type").
  { vm_compute. discriminate. }
  assert (Hheaders : ApiClient.init_headers call
            = match ApiClient.token options with
              | Some t =>
                  if truthy_string t
                  then <[lit "Authorization" := lit "Bearer " ++ t]> headers0
                  else headers0
              | None => headers0
              end) by reflexivity.
  split; [reflexivity |]. split; [reflexivity |]. split; [reflexivity |].
  split; [| split; [| split; [| split]]].
  - rewrite Hheaders. destruct (ApiClient.token options) as [t |]; [| done].
    destruct (truthy_string t); [| done]. by rewrite lookup_insert_ne.
  - intros t Ht Hne. rewrite Hheaders, Ht.
    apply truthy_string_true in Hne. rewrite Hne. apply lookup_insert_eq.
  - intros Ht. rewrite Hheaders.
    destruct Ht as [-> | ->]; simpl; by apply Hother.
  - intros key Hc Ha. rewrite Hheaders.
    destruct (ApiClient.token options) as [t |]; [| by apply Hother].
    destruct (truthy_string t); [| by apply Hother].
    rewrite lookup_insert_ne by done. by apply Hother.
  - intros Hempty. rewrite Hheaders.
    assert (Hc : headers0 !! lit "Content-Type" = Some (lit "application/json")).
    { rewrite Hct, Hempty. by rewrite lookup_empty. }
    destruct (ApiClient.token options) as [t |]; [| done].
    destruct (truthy_string t); [| done]. by rewrite lookup_insert_ne.
Qed.

Lemma fetch_call_shape_witness :
  ApiClient.init_headers
    (ApiClient.fetch_call SampleHttp.base (lit "/api/tasks")
       (SampleHttp.with_token "abc")) !! lit "Authorization"
  = Some (lit "Bearer abc")
  ∧ ApiClient.init_headers
      (ApiClient.fetch_call SampleHttp.base (lit "/api/auth/signin")
         (ApiClient.mkOptions (Some (lit "POST")) (Some (lit "{}")) ∅ None))
      !! lit "Authorization" = None
  ∧ ApiClient.init_headers
      (ApiClient.fetch_call SampleHttp.base (lit "/api/tasks")
         (SampleHttp.with_token "abc")) !! lit "Accept" = None
  ∧ ApiClient.init_headers
      (ApiClient.fetch_call SampleHttp.base (lit "/api/tasks")
         (SampleHttp.with_token "abc")) !! lit "Content-Type"
    = Some (lit "application/json").
Proof.
  pose proof (fetch_call_shape SampleHttp.base (lit "/api/tasks")
                (SampleHttp.with_token "abc"))
    as (_ & _ & _ & _ & Hauth & _ & Hother & Hct).
  pose proof (fetch_call_shape SampleHttp.base (lit "/api/auth/signin")
                (ApiClient.mkOptions (Some (lit "POST")) (Some (lit "{}")) ∅ None))
    as (_ & _ & _ & _ & _ & Hnone & _).
  split; [| split; [| split]].
  - apply (Hauth (lit "abc")); [reflexivity | discriminate].
  - rewrite Hnone; [reflexivity | by left].
  - rewrite Hother; [reflexivity | vm_compute; discriminate
                    | vm_compute; discriminate].
  - apply Hct. reflexivity.
Defined.

(** ** The services *)

Section ServiceProps.
Variable baseUrl : list N.
Variable fetch : ApiClient.FetchCall → settled ApiClient.Response.
Variable null_read_message : list N → list N.
Variable conversion_message : list N.
Variable JSON_stringify : json → list N.

Lemma task_service_getToken_none w :
  Auth.isAuthenticated w = false →
  TaskService.getToken w = Rejected (Error (lit "Not authenticated")).
Proof.
  unfold Auth.isAuthenticated, TaskService.getToken.
  destruct (Auth.getToken w) as [t |]; [| done]. by intros ->.
Qed.

Lemma task_service_getToken_some w t :
  Auth.getToken w = Some t → t ≠ [] → TaskService.getToken w = Resolved t.
Proof.
  intros Ht Hne. unfold TaskService.getToken. rewrite Ht.
  apply truthy_string_true in Hne. by rewrite Hne.
Qed.

End ServiceProps.

(** X10.  The task service and the token.  When no token (or an empty one)
    is stored, each of its six methods fails with "Not authenticated",
    whatever the network would have answered: no request depends on it.
    When a token is stored, each method is the matching call of the HTTP
    client with that token as bearer, and its result, success or failure, is
    the client's: the fallback messages of the service are never used.  The
    path of a task is "/api/tasks/" followed by the decimal digits of its
    id, for an id that is an integer of the safe range. *)
Theorem task_service_token (baseUrl : list N)
    (fetch : ApiClient.FetchCall → settled ApiClient.Response)
    (null_read_message : list N → list N) (conversion_message : list N)
    (JSON_stringify : json → list N)
    (w : Auth.browser) (taskId : number) (data : TaskData) :
  let failed {A} : settled A := Rejected (Error (lit "Not authenticated")) in
  let path := lit "/api/tasks/" ++ Number_toString taskId in
  let body := JSON_stringify (TaskData_json data) in
  let getTasks :=
    TaskService.getTasks baseUrl fetch null_read_message conversion_message w in
  let getTask :=
    TaskService.getTask baseUrl fetch null_read_message conversion_message w in
  let createTask :=
    TaskService.createTask baseUrl fetch null_read_message conversion_message
      JSON_stringify w in
  let updateTask :=
    TaskService.updateTask baseUrl fetch null_read_message conversion_message
      JSON_stringify w in
  let deleteTask :=
    TaskService.deleteTask baseUrl fetch null_read_message conversion_message
      w in
  let toggleComplete :=
    TaskService.toggleComplete baseUrl fetch null_read_message
      conversion_message JSON_stringify w in
  let get := ApiClient.get baseUrl fetch null_read_message conversion_message in
  let post :=
    ApiClient.post baseUrl fetch null_read_message conversion_message in
  let put := ApiClient.put baseUrl fetch null_read_message conversion_message in
  let patch :=
    ApiClient.patch baseUrl fetch null_read_message conversion_message in
  let delete :=
    ApiClient.delete baseUrl fetch null_read_message conversion_message in
  (Auth.isAuthenticated w = false →
   getTasks = failed ∧ getTask taskId = failed ∧ createTask data = failed ∧
   updateTask taskId data = failed ∧ deleteTask taskId = failed ∧
   toggleComplete taskId = failed)
  ∧
  (∀ t, Auth.getToken w = Some t → t ≠ [] →
     getTasks = get (lit "/api/tasks") (Some t) ∧
     getTask taskId = get path (Some t) ∧
     createTask data = post (lit "/api/tasks") body (Some t) ∧
     updateTask taskId data = put path body (Some t) ∧
     deleteTask taskId = and_then (delete path (Some t)) (λ _, Resolved tt) ∧
     toggleComplete taskId
     = patch (path ++ lit "/toggle") (JSON_stringify (JObj [])) (Some t)).
Proof.
  cbv zeta. split.
  - intros Hno. apply task_service_getToken_none in Hno.
    unfold TaskService.getTasks, TaskService.getTask, TaskService.createTask,
      TaskService.updateTask, TaskService.deleteTask,
      TaskService.toggleComplete.
    rewrite Hno. repeat split; reflexivity.
  - intros t Ht Hne. pose proof (task_service_getToken_some w t Ht Hne) as Hyes.
    unfold TaskService.getTasks, TaskService.getTask, TaskService.createTask,
      TaskService.updateTask, TaskService.deleteTask,
      TaskService.toggleComplete, TaskService.task_path.
    rewrite Hyes. simpl.
    unfold ApiClient.get, ApiClient.post, ApiClient.put, ApiClient.patch,
      ApiClient.delete.
    rewrite !service_catch_request.
    rewrite service_catch_request_then by (intros; by eexists).
    repeat split; reflexivity.
Qed.

Lemma task_service_token_witness :
  TaskService.deleteTask SampleHttp.base
    (SampleHttp.server 204 (Rejected NonError))
    SampleHttp.no_null_read SampleHttp.no_conversion
    (Some ∅) SampleMore.seven
  = Rejected (Error (lit "Not authenticated"))
  ∧ TaskService.deleteTask SampleHttp.base
      (SampleHttp.server 204 (Rejected NonError))
      SampleHttp.no_null_read SampleHttp.no_conversion
      (Some SampleAuth.signed_in) SampleMore.seven
    = Resolved tt
  ∧ TaskService.task_path SampleMore.seven = lit "/api/tasks/7".
Proof.
  split; [| split; [| reflexivity]].
  - apply (proj1 (task_service_token SampleHttp.base
                    (SampleHttp.server 204 (Rejected NonError))
                    SampleHttp.no_null_read SampleHttp.no_conversion
                    SampleAuth.stringify (Some ∅) SampleMore.seven
                    (mkTaskData [] None))).
    reflexivity.
  - destruct (proj2 (task_service_token SampleHttp.base
                    (SampleHttp.server 204 (Rejected NonError))
                    SampleHttp.no_null_read SampleHttp.no_conversion
                    SampleAuth.stringify
                    (Some SampleAuth.signed_in) SampleMore.seven
                    (mkTaskData [] None))
                (lit "abc")) as (_ & _ & _ & _ & Hdelete & _).
    + vm_compute. reflexivity.
    + discriminate.
    + rewrite Hdelete. vm_compute. reflexivity.
Defined.

(** X11.  The chat service and the token: the same for its three methods.
    Without a stored token each fails with "Not authenticated" whatever the
    network would answer; with one, each is the matching client call with
    that token as bearer and has the client's result.  The messages of a
    conversation are at "/api/chat/conversations/", the decimal digits of
    its id (an integer of the safe range), then "/messages". *)
Theorem chat_service_token (baseUrl : list N)
    (fetch : ApiClient.FetchCall → settled ApiClient.Response)
    (null_read_message : list N → list N) (conversion_message : list N)
    (stringify_request : ChatRequest → list N)
    (localStorage : gmap (list N) (list N)) (request : ChatRequest)
    (conversationId : number) :
  let failed : settled json := Rejected (Error (lit "Not authenticated")) in
  let sendMessage :=
    ChatService.sendMessage baseUrl fetch null_read_message conversion_message
      stringify_request localStorage in
  let getConversations :=
    ChatService.getConversations baseUrl fetch null_read_message
      conversion_message localStorage in
  let getConversationMessages :=
    ChatService.getConversationMessages baseUrl fetch null_read_message
      conversion_message localStorage in
  let get := ApiClient.get baseUrl fetch null_read_message conversion_message in
  let post :=
    ApiClient.post baseUrl fetch null_read_message conversion_message in
  (Auth.isAuthenticated (Some localStorage) = false →
   sendMessage request = failed ∧ getConversations = failed ∧
   getConversationMessages conversationId = failed)
  ∧
  (∀ t, localStorage !! lit "auth_token" = Some t → t ≠ [] →
     sendMessage request
     = post (lit "/api/chat") (stringify_request request) (Some t) ∧
     getConversations = get (lit "/api/chat/conversations") (Some t) ∧
     getConversationMessages conversationId
     = get (lit "/api/chat/conversations/" ++ Number_toString conversationId
            ++ lit "/messages") (Some t)).
Proof.
  cbv zeta. split.
  - intros Hno.
    assert (Htoken : ChatService.token localStorage
                     = Rejected (Error (lit "Not authenticated"))).
    { unfold Auth.isAuthenticated, Auth.getToken, Auth.tokenStorage_getToken
        in Hno.
      unfold ChatService.token.
      destruct (localStorage !! lit "auth_token") as [t |]; [| done].
      by rewrite Hno. }
    unfold ChatService.sendMessage, ChatService.getConversations,
      ChatService.getConversationMessages.
    rewrite Htoken. repeat split; reflexivity.
  - intros t Ht Hne.
    assert (Htoken : ChatService.token localStorage = Resolved t).
    { unfold ChatService.token. rewrite Ht.
      apply truthy_string_true in Hne. by rewrite Hne. }
    unfold ChatService.sendMessage, ChatService.getConversations,
      ChatService.getConversationMessages.
    rewrite Htoken. simpl.
    unfold ApiClient.get, ApiClient.post.
    rewrite !service_catch_request. repeat split; reflexivity.
Qed.

Lemma chat_service_token_witness :
  ChatService.sendMessage SampleHttp.base
    (SampleHttp.server 200 (Resolved JNull))
    SampleHttp.no_null_read SampleHttp.no_conversion
    SampleChat.request_text ∅ (mkChatRequest None (lit "hello"))
  = Rejected (Error (lit "Not authenticated"))
  ∧ ChatService.getConversations SampleHttp.base
      (SampleHttp.server 200 (Resolved (JArr [])))
      SampleHttp.no_null_read SampleHttp.no_conversion
      SampleAuth.signed_in
    = Resolved (JArr []).
Proof.
  split.
  - apply (proj1 (chat_service_token SampleHttp.base
                    (SampleHttp.server 200 (Resolved JNull))
                    SampleHttp.no_null_read SampleHttp.no_conversion
                    SampleChat.request_text ∅
                    (mkChatRequest None (lit "hello")) SampleMore.seven)).
    reflexivity.
  - destruct (proj2 (chat_service_token SampleHttp.base
                    (SampleHttp.server 200 (Resolved (JArr [])))
                    SampleHttp.no_null_read SampleHttp.no_conversion
                    SampleChat.request_text SampleAuth.signed_in
                    (mkChatRequest None (lit "hello")) SampleMore.seven)
                (lit "abc")) as (_ & Hconv & _).
    + vm_compute. reflexivity.
    + discriminate.
    + rewrite Hconv. vm_compute. reflexivity.
Defined.

(** ** Signing in *)

Section AuthServiceProps.
Variable baseUrl : list N.
Variable fetch : ApiClient.FetchCall → settled ApiClient.Response.
Variable null_read_message : list N → list N.
Variable conversion_message : list N.
Variable JSON_stringify : json → list N.

Let authenticate :=
  AuthService.authenticate baseUrl fetch null_read_message conversion_message
    JSON_stringify.

Let auth_call := auth_call baseUrl JSON_stringify.

Lemma authenticate_rejected endpoint data fallback w e :
  (authenticate endpoint data fallback w).2 = Rejected e →
  (authenticate endpoint data fallback w).1 = w ∧ ∃ m, e = Error m.
Proof.
  unfold authenticate, AuthService.authenticate, ApiClient.post.
  destruct (ApiClient.request _ _ _ _ _ _) as [response0 | e0] eqn:E; simpl.
  - unfold AuthService.setToken_of.
    destruct response0 as [| b | n | text | elements | fields]; simpl;
      try (intros [= <-]; split; [reflexivity | by eexists]);
      destruct w as [localStorage |]; simpl; try discriminate.
    destruct (storage_text (field (lit "access_token") fields)); simpl;
      [discriminate |].
    intros [= <-]. split; [reflexivity | by eexists].
  - destruct (request_throws_Error _ _ _ _ _ _ _ E) as [m ->]. simpl.
    intros [= <-]. split; [reflexivity | by eexists].
Qed.

(** A successful answer that is a JSON object whose [access_token] can be
    stored. *)
Lemma authenticate_object endpoint data fallback w r fields text :
  fetch (auth_call endpoint data) = Resolved r →
  ApiClient.ok r = true → ApiClient.status r ≠ 204%N →
  ApiClient.parsed r = Resolved (JObj fields) →
  storage_text (field (lit "access_token") fields) = Some text →
  authenticate endpoint data fallback w
  = (AuthService.userStorage_setUser JSON_stringify
       (field (lit "user") fields) (Auth.tokenStorage_setToken text w),
     Resolved (field (lit "access_token") fields, field (lit "user") fields)).
Proof.
  intros Hf Hok Hs Hp Ht.
  unfold authenticate, AuthService.authenticate, ApiClient.post.
  rewrite (request_ok _ _ _ _ _ _ r Hf Hok Hs), Hp. simpl.
  unfold AuthService.setToken_of. rewrite Ht. by destruct w.
Qed.

(** An [access_token] that cannot be stored: in the browser the sign-in
    fails with the engine's [TypeError] and stores nothing. *)
Lemma authenticate_unstorable endpoint data fallback localStorage r fields :
  fetch (auth_call endpoint data) = Resolved r →
  ApiClient.ok r = true → ApiClient.status r ≠ 204%N →
  ApiClient.parsed r = Resolved (JObj fields) →
  storage_text (field (lit "access_token") fields) = None →
  authenticate endpoint data fallback (Some localStorage)
  = (Some localStorage, Rejected (Error conversion_message)).
Proof.
  intros Hf Hok Hs Hp Ht.
  unfold authenticate, AuthService.authenticate, ApiClient.post.
  rewrite (request_ok _ _ _ _ _ _ r Hf Hok Hs), Hp. simpl.
  unfold AuthService.setToken_of. by rewrite Ht.
Qed.

End AuthServiceProps.

(** X12.  A sign-in or a sign-up that fails stores nothing: the browser is
    as before, and what is thrown is an [Error] (with the client's message;
    "Signin failed" and "Signup failed" are never needed). *)
Theorem auth_failure_stores_nothing (baseUrl : list N)
    (fetch : ApiClient.FetchCall → settled ApiClient.Response)
    (null_read_message : list N → list N) (conversion_message : list N)
    (JSON_stringify : json → list N)
    (w : Auth.browser) (e : thrown) :
  (∀ data,
     (AuthService.signin baseUrl fetch null_read_message conversion_message
        JSON_stringify data w).2
     = Rejected e →
     (AuthService.signin baseUrl fetch null_read_message conversion_message
        JSON_stringify data w).1
     = w ∧ ∃ m, e = Error m)
  ∧ (∀ data,
       (AuthService.signup baseUrl fetch null_read_message conversion_message
          JSON_stringify data w).2
       = Rejected e →
       (AuthService.signup baseUrl fetch null_read_message conversion_message
          JSON_stringify data w).1
       = w ∧ ∃ m, e = Error m).
Proof.
  split; intros data; apply authenticate_rejected.
Qed.

Lemma auth_failure_stores_nothing_witness :
  (AuthService.signin SampleHttp.base
     (SampleHttp.server 401 (Resolved SampleAuth.refused))
     SampleHttp.no_null_read SampleHttp.no_conversion SampleAuth.stringify
       SampleAuth.credentials
     (Some SampleAuth.signed_in)).1
  = Some SampleAuth.signed_in
  ∧ (AuthService.signup SampleHttp.base
       (SampleHttp.server 401 (Resolved SampleAuth.refused))
       SampleHttp.no_null_read SampleHttp.no_conversion SampleAuth.stringify
       (mkSignupRequest (lit "Ada") (lit "ada@example.com") (lit "secret-1"))
       (Some ∅)).1
    = Some ∅.
Proof.
  pose proof (auth_failure_stores_nothing SampleHttp.base
                (SampleHttp.server 401 (Resolved SampleAuth.refused))
                SampleHttp.no_null_read SampleHttp.no_conversion
                SampleAuth.stringify
                (Some SampleAuth.signed_in)
                (Error (lit "Invalid email or password"))) as [Hin _].
  pose proof (auth_failure_stores_nothing SampleHttp.base
                (SampleHttp.server 401 (Resolved SampleAuth.refused))
                SampleHttp.no_null_read SampleHttp.no_conversion
                SampleAuth.stringify
                (Some ∅)
                (Error (lit "Invalid email or password"))) as [_ Hup].
  split.
  - apply (Hin SampleAuth.credentials). vm_compute. reflexivity.
  - apply (Hup (mkSignupRequest (lit "Ada") (lit "ada@example.com")
                  (lit "secret-1"))).
    vm_compute. reflexivity.
Defined.

(** X13.  A sign-in the server accepts.  When the answer to the POST of the
    credentials (sent without an [Authorization] header) is in 200..299, not
    204, and is a JSON object whose [access_token] is a non-empty string,
    [signin] resolves to that token and the object's [user], the token can be
    read back from storage, the user counts as authenticated, the serialised
    user is stored under [auth_user], and no other key of [localStorage] is
    touched. *)
Theorem signin_stores_token (baseUrl : list N)
    (fetch : ApiClient.FetchCall → settled ApiClient.Response)
    (null_read_message : list N → list N) (conversion_message : list N)
    (JSON_stringify : json → list N)
    (data : SigninRequest) (localStorage : gmap (list N) (list N))
    (r : ApiClient.Response) (fields : list (list N * json)) (t : list N) :
  let call :=
    auth_call baseUrl JSON_stringify (lit "/api/auth/signin")
      (SigninRequest_json data) in
  fetch call = Resolved r →
  ApiClient.ok r = true → ApiClient.status r ≠ 204%N →
  ApiClient.parsed r = Resolved (JObj fields) →
  field (lit "access_token") fields = Some (JStr t) → t ≠ [] →
  ApiClient.init_headers call !! lit "Authorization" = None ∧
  ∃ stored,
    AuthService.signin baseUrl fetch null_read_message conversion_message
      JSON_stringify data (Some localStorage)
    = (Some stored, Resolved (Some (JStr t), field (lit "user") fields)) ∧
    Auth.getToken (Some stored) = Some t ∧
    Auth.isAuthenticated (Some stored) = true ∧
    stored !! lit "auth_user"
    = Some (match field (lit "user") fields with
            | Some u => JSON_stringify u
            | None => lit "undefined"
            end) ∧
    ∀ key, key ≠ lit "auth_token" → key ≠ lit "auth_user" →
      stored !! key = localStorage !! key.
Proof.
  intros call Hf Hok Hs Hp Ht Hne. split; [vm_compute; reflexivity |].
  unfold AuthService.signin.
  assert (Htext : storage_text (field (lit "access_token") fields) = Some t)
    by by rewrite Ht.
  rewrite (authenticate_object baseUrl fetch null_read_message
             conversion_message JSON_stringify _ _ _ _ r fields t
             Hf Hok Hs Hp Htext).
  rewrite Ht. simpl. eexists. split; [reflexivity |].
  assert (Htoken : (<[lit "auth_user" :=
                      match field (lit "user") fields with
                      | Some u => JSON_stringify u
                      | None => lit "undefined"
                      end]> (<[lit "auth_token" := t]> localStorage))
                   !! lit "auth_token" = Some t).
  { rewrite lookup_insert_ne by (vm_compute; discriminate).
    apply lookup_insert_eq. }
  split; [exact Htoken |]. split.
  - unfold Auth.isAuthenticated, Auth.getToken, Auth.tokenStorage_getToken.
    rewrite Htoken. by apply truthy_string_true.
  - split; [apply lookup_insert_eq |].
    intros key Hk Hu. rewrite lookup_insert_ne by done.
    by apply lookup_insert_ne.
Qed.

Lemma signin_stores_token_witness :
  Auth.isAuthenticated
    (AuthService.signin SampleHttp.base
       (SampleHttp.server 200 (Resolved SampleAuth.welcome))
       SampleHttp.no_null_read SampleHttp.no_conversion SampleAuth.stringify
         SampleAuth.credentials
       (Some ∅)).1
  = true.
Proof.
  destruct (signin_stores_token SampleHttp.base
              (SampleHttp.server 200 (Resolved SampleAuth.welcome))
              SampleHttp.no_null_read SampleHttp.no_conversion
              SampleAuth.stringify
              SampleAuth.credentials ∅
              (ApiClient.mkResponse 200 (Resolved SampleAuth.welcome))
              [(lit "access_token", JStr (lit "abc"));
               (lit "token_type", JStr (lit "bearer"));
               (lit "user", JObj [(lit "email", JStr (lit "ada@example.com"))])]
              (lit "abc")) as (_ & stored & Hsignin & _ & Hauth & _).
  - reflexivity.
  - reflexivity.
  - discriminate.
  - reflexivity.
  - reflexivity.
  - discriminate.
  - rewrite Hsignin. exact Hauth.
Defined.

(** X14.  A successful answer without a token still signs the user in.  When
    the answer is in 200..299, not 204, and is a JSON object with no
    [access_token], [signin] resolves (its token is [undefined]), the text
    "undefined" is stored as the token, and the user counts as authenticated.
    A 204 answer does the same. *)
Theorem signin_without_token (baseUrl : list N)
    (fetch : ApiClient.FetchCall → settled ApiClient.Response)
    (null_read_message : list N → list N) (conversion_message : list N)
    (JSON_stringify : json → list N)
    (data : SigninRequest) (localStorage : gmap (list N) (list N))
    (r : ApiClient.Response) :
  let call :=
    auth_call baseUrl JSON_stringify (lit "/api/auth/signin")
      (SigninRequest_json data) in
  let outcome :=
    AuthService.signin baseUrl fetch null_read_message conversion_message
      JSON_stringify data (Some localStorage) in
  fetch call = Resolved r →
  (ApiClient.status r = 204%N
   ∨ ∃ fields, ApiClient.ok r = true ∧ ApiClient.status r ≠ 204%N ∧
       ApiClient.parsed r = Resolved (JObj fields) ∧
       field (lit "access_token") fields = None) →
  (∃ user0, outcome.2 = Resolved (None, user0)) ∧
  Auth.getToken outcome.1 = Some (lit "undefined") ∧
  Auth.isAuthenticated outcome.1 = true.
Proof.
  intros call outcome Hf Hcase.
  assert (Hout : ∃ user0,
    outcome
    = (AuthService.userStorage_setUser JSON_stringify user0
         (Auth.tokenStorage_setToken (lit "undefined") (Some localStorage)),
       Resolved (None, user0))).
  { destruct Hcase as [H204 | (fields & Hok & Hs & Hp & Ht)].
    - exists None. unfold outcome, AuthService.signin, AuthService.authenticate,
        ApiClient.post.
      fold call.
      rewrite
        (request_204 baseUrl fetch null_read_message conversion_message _ _ r
           Hf H204).
      reflexivity.
    - exists (field (lit "user") fields). unfold outcome, AuthService.signin.
      assert (Htext : storage_text (field (lit "access_token") fields)
                      = Some (lit "undefined")) by by rewrite Ht.
      rewrite (authenticate_object baseUrl fetch null_read_message
                 conversion_message JSON_stringify _ _ _ _ r fields _
                 Hf Hok Hs Hp Htext).
      by rewrite Ht. }
  destruct Hout as [user0 ->]. simpl.
  assert (Htoken : (<[lit "auth_user" :=
                      match user0 with
                      | Some u => JSON_stringify u
                      | None => lit "undefined"
                      end]> (<[lit "auth_token" := lit "undefined"]> localStorage))
                   !! lit "auth_token" = Some (lit "undefined")).
  { rewrite lookup_insert_ne by (vm_compute; discriminate).
    apply lookup_insert_eq. }
  split; [by exists user0 |]. split; [exact Htoken |].
  unfold Auth.isAuthenticated, Auth.getToken, Auth.tokenStorage_getToken.
  by rewrite Htoken.
Qed.

Lemma signin_without_token_witness :
  Auth.getToken
    (AuthService.signin SampleHttp.base
       (SampleHttp.server 200 (Resolved (JObj [])))
       SampleHttp.no_null_read SampleHttp.no_conversion SampleAuth.stringify
         SampleAuth.credentials
       (Some ∅)).1
  = Some (lit "undefined").
Proof.
  apply (signin_without_token SampleHttp.base
           (SampleHttp.server 200 (Resolved (JObj [])))
           SampleHttp.no_null_read SampleHttp.no_conversion SampleAuth.stringify
             SampleAuth.credentials
           ∅ (ApiClient.mkResponse 200 (Resolved (JObj [])))).
  - reflexivity.
  - right. exists []. split; [reflexivity |]. split; [discriminate |].
    split; reflexivity.
Defined.

(** X15.  The sign-in form.  With the email or the password empty, nothing
    is sent: [signin] is not called, the browser is untouched, nothing is
    pushed on the router and the form says "Email and password are
    required".  Otherwise [signin] is called once with the two fields as they
    are; the page goes to the dashboard exactly when [signin] resolves, and
    when it fails the form shows the failure's message ("Invalid
    credentials" for a thrown value that is not an [Error]) and stays where
    it is.  The fields are never cleared. *)
Theorem signin_page_submit {A : Type}
    (signin : SigninRequest → Auth.browser → Auth.browser * settled A)
    (st : SigninPage.state) (w : Auth.browser) :
  let request := mkSigninRequest (SigninPage.email st) (SigninPage.password st) in
  let '(st', w', pushes, calls) := SigninPage.handleSubmit signin st w in
  (SigninPage.email st = [] ∨ SigninPage.password st = [] →
   calls = [] ∧ pushes = [] ∧ w' = w ∧
   SigninPage.error st' = lit "Email and password are required")
  ∧ (SigninPage.email st ≠ [] → SigninPage.password st ≠ [] →
     calls = [request] ∧ w' = (signin request w).1 ∧
     SigninPage.loading st' = false ∧
     (∀ a, (signin request w).2 = Resolved a →
        pushes = [lit "/dashboard"] ∧ SigninPage.error st' = []) ∧
     (∀ err, (signin request w).2 = Rejected err →
        pushes = [] ∧
        SigninPage.error st' = message_or err (lit "Invalid credentials")))
  ∧ SigninPage.email st' = SigninPage.email st
  ∧ SigninPage.password st' = SigninPage.password st.
Proof.
  intros request. unfold SigninPage.handleSubmit. fold request.
  destruct (truthy_string (SigninPage.email st)) eqn:He;
    [destruct (truthy_string (SigninPage.password st)) eqn:Hp |]; simpl.
  - apply truthy_string_true in He, Hp.
    destruct (signin request w) as [w' [a | err]]; simpl.
    + split; [intros [? | ?]; done |]. split; [| done]. intros _ _.
      split; [reflexivity |]. split; [reflexivity |]. split; [reflexivity |].
      split; intros x Hx; [done | discriminate Hx].
    + split; [intros [? | ?]; done |]. split; [| done]. intros _ _.
      split; [reflexivity |]. split; [reflexivity |]. split; [reflexivity |].
      split; intros x Hx; [discriminate Hx |]. by injection Hx as <-.
  - apply truthy_string_nil in Hp. split; [done |]. split; [| done].
    intros _ Hne. done.
  - apply truthy_string_nil in He. split; [done |]. split; [| done].
    intros Hne. done.
Qed.

Lemma signin_page_submit_witness :
  (SigninPage.handleSubmit SampleSignin.accepting SampleSignin.no_password
     (Some ∅)).2
  = []
  ∧ (SigninPage.handleSubmit SampleSignin.accepting SampleSignin.filled
       (Some ∅)).1.2
    = [lit "/dashboard"]
  ∧ (SigninPage.handleSubmit SampleSignin.refusing SampleSignin.filled
       (Some ∅)).1.2
    = [].
Proof.
  split; [| split].
  - pose proof (signin_page_submit SampleSignin.accepting
                  SampleSignin.no_password (Some ∅)) as H.
    cbv zeta in H.
    destruct (SigninPage.handleSubmit _ _ _) as [[[st' w'] pushes] calls].
    destruct H as (Hempty & _).
    destruct Hempty as (Hcalls & _); [by right |]. exact Hcalls.
  - pose proof (signin_page_submit SampleSignin.accepting
                  SampleSignin.filled (Some ∅)) as H.
    cbv zeta in H.
    destruct (SigninPage.handleSubmit _ _ _) as [[[st' w'] pushes] calls].
    destruct H as (_ & Hfilled & _).
    destruct Hfilled as (_ & _ & _ & Hok & _); [discriminate | discriminate |].
    exact (proj1 (Hok tt eq_refl)).
  - pose proof (signin_page_submit SampleSignin.refusing
                  SampleSignin.filled (Some ∅)) as H.
    cbv zeta in H.
    destruct (SigninPage.handleSubmit _ _ _) as [[[st' w'] pushes] calls].
    destruct H as (_ & Hfilled & _).
    destruct Hfilled as (_ & _ & _ & _ & Hfail); [discriminate | discriminate |].
    exact (proj1 (Hfail (Error (lit "Invalid email or password")) eq_refl)).
Defined.

Section SigninEndToEnd.
Variable baseUrl : list N.
Variable fetch : ApiClient.FetchCall → settled ApiClient.Response.
Variable null_read_message : list N → list N.
Variable conversion_message : list N.
Variable JSON_stringify : json → list N.

(** A sign-in the server turns down with a [detail]. *)
Lemma signin_refused data w r fields d :
  fetch (auth_call baseUrl JSON_stringify (lit "/api/auth/signin")
           (SigninRequest_json data)) = Resolved r →
  ApiClient.ok r = false →
  ApiClient.parsed r = Resolved (JObj fields) →
  field (lit "detail") fields = Some (JStr d) → d ≠ [] →
  AuthService.signin baseUrl fetch null_read_message conversion_message
    JSON_stringify data w
  = (w, Rejected (Error d)).
Proof.
  intros Hf Hok Hp Hd Hne.
  unfold AuthService.signin, AuthService.authenticate, ApiClient.post.
  rewrite
    (request_not_ok baseUrl fetch null_read_message conversion_message _ _ r
       Hf Hok),
    Hp.
  destruct (error_message_object null_read_message fields (ApiClient.status r))
    as (v & -> & Hdetail & _).
  rewrite (Hdetail (JStr d) Hd) by by apply truthy_string_true.
  reflexivity.
Qed.

(** The token a sign-in stored can be read back. *)
Lemma stored_token_lookup (localStorage : gmap (list N) (list N)) t u :
  (<[lit "auth_user" := u]> (<[lit "auth_token" := t]> localStorage))
    !! lit "auth_token" = Some t.
Proof.
  rewrite lookup_insert_ne by (vm_compute; discriminate).
  apply lookup_insert_eq.
Qed.

(** The form with both fields filled in. *)
Lemma signin_handleSubmit_filled {A : Type}
    (signin : SigninRequest → Auth.browser → Auth.browser * settled A)
    (st : SigninPage.state) (w : Auth.browser) :
  SigninPage.email st ≠ [] → SigninPage.password st ≠ [] →
  SigninPage.handleSubmit signin st w
  = let request :=
      mkSigninRequest (SigninPage.email st) (SigninPage.password st) in
    match signin request w with
    | (w', Resolved _) =>
        (SigninPage.mkState (SigninPage.email st) (SigninPage.password st) []
           false (SigninPage.mounted st), w', [lit "/dashboard"], [request])
    | (w', Rejected err) =>
        (SigninPage.mkState (SigninPage.email st) (SigninPage.password st)
           (message_or err (lit "Invalid credentials")) false
           (SigninPage.mounted st), w', [], [request])
    end.
Proof.
  intros He%truthy_string_true Hp%truthy_string_true.
  unfold SigninPage.handleSubmit. rewrite He, Hp. simpl.
  by destruct (signin _ w) as [w' [a | err]].
Qed.

End SigninEndToEnd.

(** X16.  Signing in, from the form to the storage.  With both fields
    filled in: when the server turns the credentials down with a JSON object
    whose [detail] is a non-empty string, the form shows that string, the
    browser's storage is untouched and the page stays; when the server
    answers in 200..299 (not 204) with a JSON object whose [access_token] is
    a non-empty string, the page goes to the dashboard, and by then the token
    is stored and the user counts as authenticated. *)
Theorem signin_end_to_end (baseUrl : list N)
    (fetch : ApiClient.FetchCall → settled ApiClient.Response)
    (null_read_message : list N → list N) (conversion_message : list N)
    (JSON_stringify : json → list N)
    (st : SigninPage.state) (localStorage : gmap (list N) (list N))
    (r : ApiClient.Response) (fields : list (list N * json)) :
  let request := mkSigninRequest (SigninPage.email st) (SigninPage.password st) in
  let '(st', w', pushes, _) :=
    SigninPage.handleSubmit
      (AuthService.signin baseUrl fetch null_read_message conversion_message
         JSON_stringify)
      st (Some localStorage) in
  SigninPage.email st ≠ [] → SigninPage.password st ≠ [] →
  fetch (auth_call baseUrl JSON_stringify (lit "/api/auth/signin")
           (SigninRequest_json request)) = Resolved r →
  ApiClient.parsed r = Resolved (JObj fields) →
  (∀ d, ApiClient.ok r = false →
     field (lit "detail") fields = Some (JStr d) → d ≠ [] →
     pushes = [] ∧ w' = Some localStorage ∧ SigninPage.error st' = d)
  ∧ (∀ t, ApiClient.ok r = true → ApiClient.status r ≠ 204%N →
       field (lit "access_token") fields = Some (JStr t) → t ≠ [] →
       pushes = [lit "/dashboard"] ∧ Auth.getToken w' = Some t ∧
       Auth.isAuthenticated w' = true ∧ SigninPage.error st' = []).
Proof.
  intros request.
  destruct (SigninPage.handleSubmit _ st (Some localStorage))
    as [[[st' w'] pushes] calls] eqn:Hsubmit.
  intros He Hp Hf Hbody.
  rewrite (signin_handleSubmit_filled _ st (Some localStorage) He Hp)
    in Hsubmit.
  cbv zeta in Hsubmit. fold request in Hsubmit.
  split.
  - intros d Hnok Hd Hne.
    rewrite
      (signin_refused baseUrl fetch null_read_message conversion_message
         JSON_stringify request (Some localStorage) r fields d Hf Hnok Hbody Hd
         Hne)
      in Hsubmit.
    by injection Hsubmit as <- <- <- _.
  - intros t Hyes Hs Ht Hne.
    unfold AuthService.signin in Hsubmit.
    assert (Htext : storage_text (field (lit "access_token") fields) = Some t)
      by by rewrite Ht.
    rewrite (authenticate_object baseUrl fetch null_read_message
               conversion_message JSON_stringify _ _ _ _ r fields t
               Hf Hyes Hs Hbody Htext) in Hsubmit.
    simpl in Hsubmit. injection Hsubmit as <- <- <- _.
    split; [reflexivity |].
    unfold Auth.isAuthenticated, Auth.getToken, Auth.tokenStorage_getToken.
    rewrite stored_token_lookup.
    split; [reflexivity |]. split; [by apply truthy_string_true | reflexivity].
Qed.

Lemma signin_end_to_end_witness :
  SigninPage.error
    (SigninPage.handleSubmit
       (AuthService.signin SampleHttp.base
          (SampleHttp.server 401 (Resolved SampleAuth.refused))
          SampleHttp.no_null_read SampleHttp.no_conversion SampleAuth.stringify)
       SampleSignin.filled (Some ∅)).1.1.1
  = lit "Invalid email or password"
  ∧ Auth.isAuthenticated
      (SigninPage.handleSubmit
         (AuthService.signin SampleHttp.base
            (SampleHttp.server 200 (Resolved SampleAuth.welcome))
            SampleHttp.no_null_read SampleHttp.no_conversion
            SampleAuth.stringify)
         SampleSignin.filled (Some ∅)).1.1.2
    = true.
Proof.
  split.
  - pose proof (signin_end_to_end SampleHttp.base
                  (SampleHttp.server 401 (Resolved SampleAuth.refused))
                  SampleHttp.no_null_read SampleHttp.no_conversion
                  SampleAuth.stringify
                  SampleSignin.filled ∅
                  (ApiClient.mkResponse 401 (Resolved SampleAuth.refused))
                  [(lit "detail", JStr (lit "Invalid email or password"))]) as H.
    cbv zeta in H.
    destruct (SigninPage.handleSubmit _ _ _) as [[[st' w'] pushes] calls].
    destruct H as [Hrefused _].
    + discriminate.
    + discriminate.
    + reflexivity.
    + reflexivity.
    + destruct (Hrefused (lit "Invalid email or password"))
        as (_ & _ & Herr); [reflexivity | reflexivity | discriminate |].
      exact Herr.
  - pose proof (signin_end_to_end SampleHttp.base
                  (SampleHttp.server 200 (Resolved SampleAuth.welcome))
                  SampleHttp.no_null_read SampleHttp.no_conversion
                  SampleAuth.stringify
                  SampleSignin.filled ∅
                  (ApiClient.mkResponse 200 (Resolved SampleAuth.welcome))
                  [(lit "access_token", JStr (lit "abc"));
                   (lit "token_type", JStr (lit "bearer"));
                   (lit "user",
                    JObj [(lit "email", JStr (lit "ada@example.com"))])]) as H.
    cbv zeta in H.
    destruct (SigninPage.handleSubmit _ _ _) as [[[st' w'] pushes] calls].
    destruct H as [_ Haccepted].
    + discriminate.
    + discriminate.
    + reflexivity.
    + reflexivity.
    + destruct (Haccepted (lit "abc"))
        as (_ & _ & Hauth & _);
        [reflexivity | discriminate | reflexivity | discriminate |].
      exact Hauth.
Defined.

(** ** The chat page, continued *)



(** X18.  Loading the chat history.  It never touches the input, the loading
    flag or the error: failures are silent.  A user who is not authenticated
    causes no call at all.  When listing the conversations fails, or there
    is none, the page is unchanged and the messages are not asked for.
    Otherwise the first conversation of the list becomes the current one and
    its messages are asked for; if that fails the transcript is unchanged
    (the conversation id stays set), and if it succeeds the transcript is the
    stored messages, in their order, each with its role and content. *)
Theorem chat_history_load
    (getConversations : settled (list ChatHistory.Conversation))
    (getConversationMessages : Z → settled (list ChatHistory.StoredMessage))
    (w : Auth.browser) (st : ChatPage.state) :
  let '(st', calls) :=
    ChatHistory.history_effect getConversations getConversationMessages w st in
  ChatPage.input st' = ChatPage.input st ∧
  ChatPage.loading st' = ChatPage.loading st ∧
  ChatPage.error st' = ChatPage.error st ∧
  (Auth.isAuthenticated w = false → st' = st ∧ calls = []) ∧
  (Auth.isAuthenticated w = true →
   ((∃ e, getConversations = Rejected e) ∨ getConversations = Resolved [] →
    st' = st ∧ calls = [ChatHistory.GetConversations]) ∧
   (∀ c rest, getConversations = Resolved (c :: rest) →
      let latest := ChatHistory.conversation c in
      calls = [ChatHistory.GetConversations;
               ChatHistory.GetConversationMessages latest] ∧
      ChatPage.conversationId st' = Some latest ∧
      (∀ e, getConversationMessages latest = Rejected e →
         ChatPage.messages st' = ChatPage.messages st) ∧
      (∀ stored, getConversationMessages latest = Resolved stored →
         role <$> ChatPage.messages st' = ChatHistory.stored_role <$> stored ∧
         content <$> ChatPage.messages st'
         = ChatHistory.stored_content <$> stored))).
Proof.
  unfold ChatHistory.history_effect, ChatHistory.loadConversationHistory.
  destruct (Auth.isAuthenticated w).
  2: { repeat split; try reflexivity; discriminate. }
  destruct getConversations as [[| c rest] | e] eqn:Hg.
  - repeat split; try reflexivity; try discriminate.
  - destruct (getConversationMessages (ChatHistory.conversation c))
      as [stored | e] eqn:Hm; simpl.
    + split; [reflexivity |]. split; [reflexivity |]. split; [reflexivity |].
      split; [discriminate |]. intros _. split.
      * intros [[e He] | He]; discriminate He.
      * intros c' rest' [= <- <-]. simpl. rewrite Hm.
        split; [reflexivity |]. split; [reflexivity |]. split.
        -- intros e He. discriminate He.
        -- intros stored' [= <-].
           rewrite <- !list_fmap_compose. split; reflexivity.
    + split; [reflexivity |]. split; [reflexivity |]. split; [reflexivity |].
      split; [discriminate |]. intros _. split.
      * intros [[e' He] | He]; discriminate He.
      * intros c' rest' [= <- <-]. simpl. rewrite Hm.
        split; [reflexivity |]. split; [reflexivity |]. split.
        -- intros e' He. reflexivity.
        -- intros stored' He. discriminate He.
  - repeat split; try reflexivity; try discriminate.
Qed.

Lemma chat_history_load_witness :
  ChatHistory.history_effect (Resolved SampleHistory.latest)
    SampleHistory.stored (Some ∅) SampleChat.fresh
  = (SampleChat.fresh, [])
  ∧ ChatPage.conversationId
      (ChatHistory.history_effect (Resolved SampleHistory.latest)
         SampleHistory.stored (Some SampleAuth.signed_in) SampleChat.fresh).1
    = Some 4%Z
  ∧ (ChatHistory.history_effect (Resolved [])
       SampleHistory.stored (Some SampleAuth.signed_in) SampleChat.fresh).1
    = SampleChat.fresh.
Proof.
  split; [| split].
  - pose proof (chat_history_load (Resolved SampleHistory.latest)
                  SampleHistory.stored (Some ∅) SampleChat.fresh) as H.
    destruct (ChatHistory.history_effect _ _ _ _) as [st' calls].
    destruct H as (_ & _ & _ & Hno & _).
    destruct (Hno eq_refl) as [-> ->]. reflexivity.
  - pose proof (chat_history_load (Resolved SampleHistory.latest)
                  SampleHistory.stored (Some SampleAuth.signed_in)
                  SampleChat.fresh) as H.
    destruct (ChatHistory.history_effect _ _ _ _) as [st' calls].
    destruct H as (_ & _ & _ & _ & Hyes).
    destruct Hyes as [_ Hlatest]; [vm_compute; reflexivity |].
    exact (proj1 (proj2 (Hlatest _ _ eq_refl))).
  - pose proof (chat_history_load (Resolved [])
                  SampleHistory.stored (Some SampleAuth.signed_in)
                  SampleChat.fresh) as H.
    destruct (ChatHistory.history_effect _ _ _ _) as [st' calls].
    destruct H as (_ & _ & _ & _ & Hyes).
    destruct Hyes as [Hnone _]; [vm_compute; reflexivity |].
    exact (proj1 (Hnone (or_intror eq_refl))).
Defined.

(** X19.  The send button tells the truth.  When the button is disabled,
    submitting the form does nothing, whatever the chat service would
    answer; when it is enabled, submitting sends exactly one request, which
    carries the trimmed input.  The input field is disabled exactly while
    the page is loading. *)
Theorem send_button_matches_guard
    (sendMessage : ChatRequest → settled ChatResponse) (st : ChatPage.state) :
  (ChatPage.send_disabled (ChatPage.render st) = true →
   ChatPage.handleSendMessage sendMessage st = (st, []))
  ∧ (ChatPage.send_disabled (ChatPage.render st) = false →
     ∃ request,
       (ChatPage.handleSendMessage sendMessage st).2 = [request] ∧
       message request = trim (ChatPage.input st) ∧
       conversation_id request = ChatPage.conversationId st)
  ∧ ChatPage.input_disabled (ChatPage.render st) = ChatPage.loading st.
Proof.
  unfold ChatPage.handleSendMessage, ChatPage.send_begin. simpl.
  destruct (negb (truthy_string (trim (ChatPage.input st)))
            || ChatPage.loading st).
  - split; [done |]. split; [discriminate | reflexivity].
  - split; [discriminate |]. split; [| reflexivity].
    intros _. eexists. split; [reflexivity |]. split; reflexivity.
Qed.

Lemma send_button_matches_guard_witness :
  ChatPage.handleSendMessage SampleHistory.answering
    (ChatPage.mkState [] (lit "  ") None false None)
  = (ChatPage.mkState [] (lit "  ") None false None, [])
  ∧ ∃ request,
      (ChatPage.handleSendMessage SampleHistory.answering SampleChat.fresh).2
      = [request] ∧
      message request = lit "hello".
Proof.
  split.
  - apply (proj1 (send_button_matches_guard SampleHistory.answering
                    (ChatPage.mkState [] (lit "  ") None false None))).
    reflexivity.
  - destruct (proj1 (proj2 (send_button_matches_guard SampleHistory.answering
                              SampleChat.fresh)))
      as (request & Hsent & Hmessage & _).
    + reflexivity.
    + exists request. split; [exact Hsent |]. rewrite Hmessage. reflexivity.
Defined.

(** ** The chat session, continued *)

Section SessionMore.
Import ChatSession.

Lemma handle_tracks s e :
  loading_tracks_request s → loading_tracks_request (handle s e).
Proof.
  unfold loading_tracks_request. intros Hs.
  destruct e as [text | | reply | conversation0 | history]; simpl;
    try exact Hs.
  - destruct (ChatPage.send_begin (page s)) as [[st request] |] eqn:Hb;
      [| exact Hs].
    apply send_begin_request in Hb as (Hl & Hl' & _).
    rewrite Hl in Hs. simpl. rewrite Hl', length_app, Hs. reflexivity.
  - destruct (in_flight s) as [| request rest] eqn:Hq; [by rewrite Hq |].
    simpl. rewrite send_settle_loading.
    simpl in Hs. destruct (ChatPage.loading (page s)); simpl in Hs; lia.
Qed.

Lemma run_tracks events s :
  loading_tracks_request s → loading_tracks_request (foldl handle s events).
Proof.
  revert s. induction events as [| e events IH]; intros s Hs; [exact Hs |].
  simpl. apply IH, handle_tracks, Hs.
Qed.

End SessionMore.

(** X20.  The chat page is loading exactly while a request awaits its reply.
    Whatever the user types and submits, whatever replies and history
    arrive, and in whatever order: if a request is pending the page is
    loading (the input and the button are disabled), and once none is
    pending the page is not loading, so the user is never locked out. *)
Theorem chat_loading_tracks_request (events : list ChatSession.event) :
  let s := ChatSession.run events in
  (ChatPage.loading (ChatSession.page s) = true ↔ ChatSession.in_flight s ≠ [])
  ∧ (ChatPage.input_disabled (ChatPage.render (ChatSession.page s)) = false
     ↔ ChatSession.in_flight s = []).
Proof.
  intros s.
  assert (Hs : loading_tracks_request s).
  { apply run_tracks. reflexivity. }
  unfold loading_tracks_request in Hs. simpl.
  destruct (ChatPage.loading (ChatSession.page s));
    destruct (ChatSession.in_flight s); simpl in Hs; try lia;
    split; split; try done.
Qed.

(** ** The request-level gate *)

(** X21.  The middleware lets every request through: for every path,
    protected, public or other, its answer is [NextResponse.next()]; it
    never redirects. *)
Theorem middleware_never_redirects (pathname : list N) :
  Middleware.middleware pathname = Middleware.next ∧
  ∀ path, Middleware.middleware pathname ≠ Middleware.redirect path.
Proof.
  assert (H : Middleware.middleware pathname = Middleware.next).
  { unfold Middleware.middleware.
    destruct (existsb _ Middleware.protectedRoutes); [reflexivity |].
    by destruct (existsb _ Middleware.publicRoutes). }
  split; [exact H |]. intros path. rewrite H. discriminate.
Qed.

(** ** Task items on the dashboard *)

(** X22.  A task item wired to the dashboard.  The item was drawn in the
    render [rendered] of the page; the page is in the state [page] when the
    server has answered.  Pressing the toggle asks the server to toggle this
    task, once; afterwards the item is not toggling and its promise resolves
    even when the server failed; when the server returned the task, the list
    becomes the list that was on screen with the entries of the returned id
    replaced by the returned task, and when it failed the list is left as it
    is.  Pressing delete and accepting the prompt asks the server to delete
    this task, once; afterwards the item is not deleting, its promise
    resolves, and when the server succeeded the list becomes the list that
    was on screen without the entries with this task's id: this task is not
    in it, and no other entry of the list on screen is missing.  In both
    cases a change made to the list while the server was answering is
    overwritten. *)
Theorem task_item_on_dashboard (svc : Dashboard.services)
    (confirm : list N → bool) (task : Task) (st : TaskItem.state)
    (rendered page : Dashboard.state) :
  (let '(st', parent, calls, r) :=
     TaskItem.handleToggle
       (Dashboard.as_callback (Dashboard.handleToggleComplete svc rendered))
       task st (page, []) in
   calls = [TaskItem.OnToggleComplete (id task)] ∧
   parent.2 = [Dashboard.ToggleComplete (id task)] ∧
   TaskItem.isToggling st' = false ∧
   r = Resolved tt ∧
   (∀ u, Dashboard.toggleComplete svc (id task) = Resolved u →
      replaced_by_id u (Dashboard.tasks rendered) (Dashboard.tasks parent.1)) ∧
   (∀ err, Dashboard.toggleComplete svc (id task) = Rejected err →
      Dashboard.tasks parent.1 = Dashboard.tasks page))
  ∧
  (confirm (lit "Are you sure you want to delete this task?") = true →
   let '(st', parent, _, r) :=
     TaskItem.handleDelete confirm
       (Dashboard.as_callback (Dashboard.handleDeleteTask svc rendered))
       task st (page, []) in
   parent.2 = [Dashboard.DeleteTask (id task)] ∧
   TaskItem.isDeleting st' = false ∧
   r = Resolved tt ∧
   (Dashboard.deleteTask svc (id task) = Resolved tt →
    removed_by_id (id task) (Dashboard.tasks rendered)
      (Dashboard.tasks parent.1) ∧
    task ∉ Dashboard.tasks parent.1) ∧
   (∀ err, Dashboard.deleteTask svc (id task) = Rejected err →
      Dashboard.tasks parent.1 = Dashboard.tasks page)).
Proof.
  split.
  - unfold TaskItem.handleToggle, Dashboard.as_callback,
      Dashboard.handleToggleComplete. simpl.
    destruct (Dashboard.toggleComplete svc (id task)) as [u | err]; simpl;
      do 4 (split; [reflexivity |]); split; intros x Hx;
      try discriminate Hx; [| reflexivity].
    injection Hx as <-. apply map_replaces.
  - intros Hc. unfold TaskItem.handleDelete, Dashboard.as_callback,
      Dashboard.handleDeleteTask. rewrite Hc. simpl.
    destruct (Dashboard.deleteTask svc (id task)) as [[] | err]; simpl;
      do 3 (split; [reflexivity |]); split; intros x; try discriminate x;
      try (intros Hx; discriminate Hx); try (intros _; reflexivity).
    split; [apply filter_removes |].
    intros [Hid _]%list_elem_of_filter. by apply Hid.
Qed.

Lemma task_item_on_dashboard_witness :
  Dashboard.tasks
    (TaskItem.handleDelete SampleDashboard.accepts
       (Dashboard.as_callback
          (Dashboard.handleDeleteTask (SampleDashboard.backend SampleTasks.call)
             (SampleDashboard.page [SampleTasks.milk; SampleTasks.rent])))
       SampleTasks.milk (TaskItem.mkState false false)
       (SampleDashboard.page [SampleTasks.milk; SampleTasks.rent], [])).1.1.2.1
  = [SampleTasks.rent]
  ∧ Dashboard.tasks
      (TaskItem.handleToggle
         (Dashboard.as_callback
            (Dashboard.handleToggleComplete
               (SampleDashboard.backend SampleTasks.oat)
               (SampleDashboard.page [SampleTasks.milk; SampleTasks.rent])))
         SampleTasks.milk (TaskItem.mkState false false)
         (SampleDashboard.page [SampleTasks.rent], [])).1.1.2.1
      !! 0
    = Some SampleTasks.oat.
Proof.
  pose proof (task_item_on_dashboard (SampleDashboard.backend SampleTasks.call)
                SampleDashboard.accepts SampleTasks.milk
                (TaskItem.mkState false false)
                (SampleDashboard.page [SampleTasks.milk; SampleTasks.rent])
                (SampleDashboard.page [SampleTasks.milk; SampleTasks.rent]))
    as [_ Hdelete].
  pose proof (task_item_on_dashboard (SampleDashboard.backend SampleTasks.oat)
                SampleDashboard.accepts SampleTasks.milk
                (TaskItem.mkState false false)
                (SampleDashboard.page [SampleTasks.milk; SampleTasks.rent])
                (SampleDashboard.page [SampleTasks.rent]))
    as [Htoggle _].
  split.
  - specialize (Hdelete eq_refl).
    destruct (TaskItem.handleDelete _ _ _ _ _) as [[[st' parent] calls] r].
    destruct Hdelete as (_ & _ & _ & Hgone & _).
    destruct (Hgone eq_refl) as [Hremoved _]. simpl.
    rewrite (removed_by_id_unique _ _ _ Hremoved). vm_compute. reflexivity.
  - destruct (TaskItem.handleToggle _ _ _ _) as [[[st' parent] calls] r].
    destruct Htoggle as (_ & _ & _ & _ & Hreplaced & _).
    destruct (Hreplaced SampleTasks.oat eq_refl) as [_ Hentries]. simpl.
    apply (Hentries 0 SampleTasks.milk eq_refl). reflexivity.
Defined.

(** X23.  Which operation the form performs.  After the edit control of a
    task is pressed, the form is open on that task and a valid submission
    updates it, by its id.  After "New Task", or after the form was
    cancelled, no task is being edited: a valid submission (of a form opened
    again) creates a task; cancelling also closes the form.  None of the
    three touches the task list.  ([now] is the state the page is in when
    the server answers; the call made does not depend on it.) *)
Theorem dashboard_form_mode (svc : Dashboard.services) (form : TaskForm.state)
    (page now : Dashboard.state) (task : Task) :
  let edit := DashboardPage.handleEditTask task page in
  let fresh := DashboardPage.newTask_click page in
  let cancelled := DashboardPage.handleCancelForm edit in
  Dashboard.showForm edit = true ∧ Dashboard.editingTask edit = Some task ∧
  Dashboard.showForm fresh = true ∧ Dashboard.editingTask fresh = None ∧
  Dashboard.showForm cancelled = false ∧
  Dashboard.editingTask cancelled = None ∧
  Dashboard.tasks edit = Dashboard.tasks page ∧
  Dashboard.tasks fresh = Dashboard.tasks page ∧
  Dashboard.tasks cancelled = Dashboard.tasks page ∧
  (¬ invalid form →
   (DashboardPage.submit_form svc form edit now).2
   = [Dashboard.UpdateTask (id task) (payload form)] ∧
   (DashboardPage.submit_form svc form fresh now).2
   = [Dashboard.CreateTask (payload form)] ∧
   (DashboardPage.submit_form svc form cancelled now).2
   = [Dashboard.CreateTask (payload form)]).
Proof.
  intros edit fresh cancelled.
  do 9 (split; [reflexivity |]). intros Hv.
  rewrite !(submit_form_valid svc form _ _ Hv).
  unfold Dashboard.onSubmit, Dashboard.handleUpdateTask,
    Dashboard.handleCreateTask. simpl.
  destruct (Dashboard.updateTask svc (id task) (payload form));
    destruct (Dashboard.createTask svc (payload form)); simpl;
    repeat split; reflexivity.
Qed.

Lemma dashboard_form_mode_witness :
  (DashboardPage.submit_form (SampleDashboard.backend SampleTasks.oat)
     (SampleForm.form (lit "oat milk") [])
     (DashboardPage.handleEditTask SampleTasks.milk
        (SampleDashboard.page [SampleTasks.milk]))
     (DashboardPage.handleEditTask SampleTasks.milk
        (SampleDashboard.page [SampleTasks.milk]))).2
  = [Dashboard.UpdateTask 1 (mkTaskData (lit "oat milk") None)].
Proof.
  destruct (dashboard_form_mode (SampleDashboard.backend SampleTasks.oat)
              (SampleForm.form (lit "oat milk") [])
              (SampleDashboard.page [SampleTasks.milk])
              (DashboardPage.handleEditTask SampleTasks.milk
                 (SampleDashboard.page [SampleTasks.milk]))
              SampleTasks.milk)
    as (_ & _ & _ & _ & _ & _ & _ & _ & _ & Hmode).
  destruct Hmode as (Hupdate & _).
  - apply (bool_decide_unpack _). vm_compute. exact I.
  - rewrite Hupdate. vm_compute. reflexivity.
Defined.
